(** * OpenCausenx: the causal mapping and confidence-scoring engine

    A shallow embedding of

      - [src/domain/models/types.ts]        (enums and structured data),
      - [src/domain/models/Event.ts]        ([Event] and its predicates),
      - [src/domain/models/BusinessModel.ts],
      - [src/domain/models/Insight.ts]      ([calculateOverallConfidence]),
      - [src/domain/causal-mapping/rules.ts],
      - [src/domain/causal-mapping/assumptions.ts],
      - [src/domain/causal-mapping/mapper.ts],

    and, of the code around them, [BusinessModel.validate], the stored
    [Insight], the SaaS template ([business-templates/saas.ts]), the helpers
    of [ConfidenceIndicator.tsx], and the economic-indicator path of the
    ingestion layer ([economic-data.ts], [normalizer.ts]),

    followed by the properties the specification states about them and by
    further properties read off the code.

    Modelling conventions.

      - A JavaScript [number] is an exact rational ([Q]); rounding error,
        infinities and NaN are outside the model.  Numeric results are
        compared with [==] ([Qeq]).  Where the code's double arithmetic may
        differ from the exact value in the last digits, bounds are stated
        with a margin that absorbs the difference.
      - A [Date] is its [getTime()] value, an integer count of milliseconds.
      - [Date.now()] is an effect: a clock is a sequence of readings and every
        call consumes the next one ([Clocked], below).
      - A string is a [String.string]; [toLowerCase] is the ASCII case map.
      - [Array.prototype.sort] is the stable comparator sort ECMAScript
        prescribes, written here as an insertion sort. *)

From Stdlib Require Import ZArith QArith Qminmax Qround Qpower Qfield.
From Stdlib Require Import List String Ascii Bool Lia Permutation Sorted.
From Stdlib Require Import DecimalString Qabs Lqa.
Import ListNotations.

Local Open Scope Q_scope.
Local Open Scope string_scope.

(** ** JavaScript numbers *)

Module Num.

Definition ltb (x y : Q) : bool := negb (Qle_bool y x).
Definition gtb (x y : Q) : bool := ltb y x.
Definition geb (x y : Q) : bool := Qle_bool y x.
Definition leb (x y : Q) : bool := Qle_bool x y.

(** [Math.min] and [Math.max] on two arguments. *)
Definition min (x y : Q) : Q := if leb x y then x else y.
Definition max (x y : Q) : Q := if leb x y then y else x.

(** [Math.pow(b, n)] for a natural exponent [n] (an array length). *)
Definition pow (b : Q) (n : nat) : Q := Qpower b (Z.of_nat n).

(** [x || d] on numbers: [0] is falsy. *)
Definition orDefault (x d : Q) : Q := if Qeq_bool x 0 then d else x.

(** [`${n}`] for an integer-valued number. *)
Definition showZ (n : Z) : string := NilZero.string_of_int (Z.to_int n).

(** [x.toFixed(0)] : the integer nearest to [x], ties away from zero. *)
Definition toFixed0 (x : Q) : string :=
  if ltb x 0
  then "-" ++ showZ (Qfloor (- x + (1 # 2)))
  else showZ (Qfloor (x + (1 # 2))).

End Num.

(** ** JavaScript strings *)

Module Str.

Definition lowerChar (c : ascii) : ascii :=
  let n := nat_of_ascii c in
  if (Nat.leb 65 n && Nat.leb n 90)%bool then ascii_of_nat (n + 32) else c.

(** [s.toLowerCase()] *)
Fixpoint toLowerCase (s : string) : string :=
  match s with
  | EmptyString => EmptyString
  | String c r => String (lowerChar c) (toLowerCase r)
  end.

(** [s.startsWith(t)] *)
Fixpoint startsWith (s t : string) : bool :=
  match t, s with
  | EmptyString, _ => true
  | String _ _, EmptyString => false
  | String c t', String d s' => (Ascii.eqb c d && startsWith s' t')%bool
  end.

(** [s.includes(t)] *)
Fixpoint includes (s t : string) : bool :=
  (startsWith s t ||
   match s with
   | EmptyString => false
   | String _ s' => includes s' t
   end)%bool.

(** [parts.join(sep)] *)
Fixpoint join (sep : string) (parts : list string) : string :=
  match parts with
  | [] => ""
  | [p] => p
  | p :: rest => p ++ sep ++ join sep rest
  end.

(** [t] occurs in [s] as a contiguous run of characters. *)
Definition Substring (t s : string) : Prop :=
  exists pre post, s = pre ++ t ++ post.

End Str.

(** ** JavaScript arrays *)

Module Arr.

(** [xs.includes(x)] on an array of strings. *)
Definition includes (xs : list string) (x : string) : bool :=
  existsb (String.eqb x) xs.

(** [[...new Set(xs)]]: the distinct elements, in order of first occurrence. *)
Fixpoint addAll (seen xs : list string) : list string :=
  match xs with
  | [] => seen
  | x :: rest => addAll (if includes seen x then seen else seen ++ [x]) rest
  end.

Definition uniq (xs : list string) : list string := addAll [] xs.

(** [xs.sort(cmp)]: stable, [cmp a b > 0] puts [a] after [b]. *)
Fixpoint insertBy {A : Type} (cmp : A -> A -> Q) (x : A) (l : list A) : list A :=
  match l with
  | [] => [x]
  | y :: rest =>
      if Num.gtb (cmp x y) 0 then y :: insertBy cmp x rest else x :: y :: rest
  end.

Definition sortBy {A : Type} (cmp : A -> A -> Q) (l : list A) : list A :=
  fold_right (insertBy cmp) [] l.

End Arr.

(** ** The clock

    [Date.now()] is the only effect of the engine.  A computation that may
    read the clock receives the sequence of readings and the number of
    readings already consumed, and returns its result with the new count. *)

Module Clock.

Definition readings : Type := nat -> Z.

Definition Clocked (A : Type) : Type := readings -> nat -> A * nat.

Definition ret {A : Type} (a : A) : Clocked A := fun _ n => (a, n).

Definition bind {A B : Type} (c : Clocked A) (k : A -> Clocked B) : Clocked B :=
  fun clk n => let (a, n') := c clk n in k a clk n'.

(** [Date.now()] *)
Definition now : Clocked Z := fun clk n => (clk n, S n).

(** The value a computation returns. *)
Definition value {A : Type} (c : Clocked A) (clk : readings) (n : nat) : A :=
  fst (c clk n).

(** The number of readings consumed once it has returned. *)
Definition after {A : Type} (c : Clocked A) (clk : readings) (n : nat) : nat :=
  snd (c clk n).

End Clock.

Notation "x <- c ;; k" := (Clock.bind c (fun x => k))
  (at level 61, c at next level, right associativity).

(** ** [types.ts] *)

(** Each TypeScript [enum] is a module, so that members read as in the
    source: [EventType.LABOR_MARKET], [ImpactMagnitude.MEDIUM], ... *)

Module EventType.
Inductive t :=
| REGULATION_CHANGE | ECONOMIC_INDICATOR | LABOR_MARKET | GEOPOLITICAL
| INFRASTRUCTURE | MARKET_SHIFT | TECHNOLOGY | CURRENCY | DISASTER.
Scheme Equality for t.
Definition all : list t :=
  [REGULATION_CHANGE; ECONOMIC_INDICATOR; LABOR_MARKET; GEOPOLITICAL;
   INFRASTRUCTURE; MARKET_SHIFT; TECHNOLOGY; CURRENCY; DISASTER].
End EventType.

Module AffectedEntity.
Inductive t :=
| TECH_COMPANIES | LABOR_FORCE | CONSUMERS | INFRASTRUCTURE_PROVIDERS
| FINANCIAL_SECTOR | GOVERNMENT | ALL.
End AffectedEntity.

Module Industry.
Inductive t := SAAS.
End Industry.

Module BusinessDriverType.
Inductive t :=
| SUBSCRIPTION_REVENUE | USAGE_REVENUE | SERVICES_REVENUE
| LABOR_COSTS | INFRASTRUCTURE_COSTS | SALES_MARKETING | R_AND_D
| ADMINISTRATIVE.
Scheme Equality for t.

(** The string value of a member, as a template literal renders it. *)
Definition toString (d : t) : string :=
  match d with
  | SUBSCRIPTION_REVENUE => "SUBSCRIPTION_REVENUE"
  | USAGE_REVENUE => "USAGE_REVENUE"
  | SERVICES_REVENUE => "SERVICES_REVENUE"
  | LABOR_COSTS => "LABOR_COSTS"
  | INFRASTRUCTURE_COSTS => "INFRASTRUCTURE_COSTS"
  | SALES_MARKETING => "SALES_MARKETING"
  | R_AND_D => "R_AND_D"
  | ADMINISTRATIVE => "ADMINISTRATIVE"
  end.
End BusinessDriverType.

Module SensitivityFactor.
Inductive t := LABOR | INFRASTRUCTURE | FX | REGULATION | MARKET_DEMAND.
Scheme Equality for t.
End SensitivityFactor.

Module ImpactDirection.
Inductive t := INCREASE | DECREASE | NEUTRAL.
End ImpactDirection.

Module ImpactMagnitude.
Inductive t := LOW | MEDIUM | HIGH.
End ImpactMagnitude.

Module TimeHorizon.
Inductive t := SHORT | MEDIUM | LONG.
End TimeHorizon.

(** The string-literal union ['HIGH' | 'MEDIUM' | 'LOW'] of [Assumption.impact]. *)
Module AssumptionImpact.
Inductive t := HIGH | MEDIUM | LOW.
Scheme Equality for t.
End AssumptionImpact.

Module CausalStep.
Record t := {
  step : Z;
  description : string;
  mechanism : string;
  confidence : Q
}.
End CausalStep.

Module Assumption.
Record t := {
  id : string;
  description : string;
  impact : AssumptionImpact.t;
  source : option string
}.
End Assumption.

Module WeightedDriver.
Record t := {
  driver : BusinessDriverType.t;
  weight : Q
}.
End WeightedDriver.

Module SensitivityConfig.
Record t := {
  factor : SensitivityFactor.t;
  sensitivity : Q
}.
End SensitivityConfig.

(** ** [Event.ts] *)

Module Event.

Record t := {
  id : string;
  eventType : EventType.t;
  summary : string;
  region : string;
  timestamp : Z;
  affectedEntities : list AffectedEntity.t;
  source : string;
  sourceId : option string;
  confidenceScore : Q;
  createdAt : Z
}.

Definition msPerDay : Z := 1000 * 60 * 60 * 24.

(** [isRelevantToRegion(regions)] *)
Definition isRelevantToRegion (this : t) (regions : list string) : bool :=
  Arr.includes regions (region this) || String.eqb (region this) "GLOBAL".

(** [(now - this.timestamp.getTime()) / (1000 * 60 * 60 * 24)] at the clock
    reading [now]. *)
Definition ageInDays (now : Z) (this : t) : Q :=
  inject_Z (now - timestamp this) / inject_Z msPerDay.

(** [isRecent(days)] *)
Definition isRecent (this : t) (days : Q) : Clock.Clocked bool :=
  now <- Clock.now ;;
  Clock.ret (Num.leb (ageInDays now this) days).

(** [getAgeInDays()] *)
Definition getAgeInDays (this : t) : Clock.Clocked Z :=
  now <- Clock.now ;;
  Clock.ret (Qfloor (ageInDays now this)).

End Event.

(** ** [BusinessModel.ts] *)

Module BusinessModel.

Record t := {
  id : string;
  userId : string;
  name : string;
  industry : Industry.t;
  revenueDrivers : list WeightedDriver.t;
  costDrivers : list WeightedDriver.t;
  sensitivities : list SensitivityConfig.t;
  operatingRegions : list string;
  customerRegions : list string;
  active : bool;
  createdAt : Z;
  updatedAt : Z
}.

(** [getDriverWeight(driver)]: [found?.weight || 0] *)
Definition getDriverWeight (this : t) (driver : BusinessDriverType.t) : Q :=
  let allDrivers := (revenueDrivers this ++ costDrivers this)%list in
  match
    find (fun d => BusinessDriverType.t_beq (WeightedDriver.driver d) driver)
      allDrivers
  with
  | Some found => Num.orDefault (WeightedDriver.weight found) 0
  | None => 0
  end.

(** [getSensitivity(factor)]: [found?.sensitivity || 0.5] *)
Definition getSensitivity (this : t) (factor : SensitivityFactor.t) : Q :=
  match
    find (fun s => SensitivityFactor.t_beq (SensitivityConfig.factor s) factor)
      (sensitivities this)
  with
  | Some found => Num.orDefault (SensitivityConfig.sensitivity found) 0.5
  | None => 0.5
  end.

(** [hasRegionalExposure(region)] *)
Definition hasRegionalExposure (this : t) (region : string) : bool :=
  Arr.includes (operatingRegions this) region
  || Arr.includes (customerRegions this) region
  || String.eqb region "GLOBAL".

(** [getAllRelevantRegions()] *)
Definition getAllRelevantRegions (this : t) : list string :=
  Arr.uniq (operatingRegions this ++ customerRegions this)%list.

End BusinessModel.

(** ** [Insight.ts] *)

Module Insight.

(** [Insight.calculateOverallConfidence(eventConfidence, causalPath)] *)
Definition calculateOverallConfidence
    (eventConfidence : Q) (causalPath : list CausalStep.t) : Q :=
  if Nat.eqb (List.length causalPath) 0 then eventConfidence * 0.5
  else
    let pathConfidence :=
      fold_left (fun acc step => acc * CausalStep.confidence step) causalPath 1 in
    eventConfidence * pathConfidence.

End Insight.

(** ** [rules.ts] *)

Module CausalRule.
Record t := {
  eventType : EventType.t;
  affectedDrivers : list BusinessDriverType.t;
  sensitivityFactor : SensitivityFactor.t;
  defaultDirection : ImpactDirection.t;
  timeHorizon : TimeHorizon.t;
  getCausalPath : string -> string -> list CausalStep.t
}.
End CausalRule.

Definition LABOR_MARKET_RULE : CausalRule.t :=
  {| CausalRule.eventType := EventType.LABOR_MARKET;
     CausalRule.affectedDrivers := [BusinessDriverType.LABOR_COSTS;
       BusinessDriverType.R_AND_D;
       BusinessDriverType.SALES_MARKETING];
     CausalRule.sensitivityFactor := SensitivityFactor.LABOR;
     CausalRule.defaultDirection := ImpactDirection.INCREASE;
     CausalRule.timeHorizon := TimeHorizon.MEDIUM;
     CausalRule.getCausalPath := fun event context => [
      {| CausalStep.step := 1;
         CausalStep.description := "Labor market event occurs";
         CausalStep.mechanism := event;
         CausalStep.confidence := 0.9 |};
      {| CausalStep.step := 2;
         CausalStep.description := "Wage pressure affects hiring and retention costs";
         CausalStep.mechanism := "Competitive labor market forces businesses to raise wages to attract and retain talent.";
         CausalStep.confidence := 0.85 |};
      {| CausalStep.step := 3;
         CausalStep.description := "Increased labor costs flow through to P&L";
         CausalStep.mechanism := "Labor costs represent a significant portion of expenses. " ++ context;
         CausalStep.confidence := 0.8 |}
     ] |}.

Definition INFRASTRUCTURE_RULE : CausalRule.t :=
  {| CausalRule.eventType := EventType.INFRASTRUCTURE;
     CausalRule.affectedDrivers := [BusinessDriverType.INFRASTRUCTURE_COSTS];
     CausalRule.sensitivityFactor := SensitivityFactor.INFRASTRUCTURE;
     CausalRule.defaultDirection := ImpactDirection.INCREASE;
     CausalRule.timeHorizon := TimeHorizon.SHORT;
     CausalRule.getCausalPath := fun event context => [
      {| CausalStep.step := 1;
         CausalStep.description := "Infrastructure event occurs";
         CausalStep.mechanism := event;
         CausalStep.confidence := 0.9 |};
      {| CausalStep.step := 2;
         CausalStep.description := "Cloud or infrastructure pricing changes";
         CausalStep.mechanism := "Cloud providers adjust pricing based on energy costs, capacity, and market conditions.";
         CausalStep.confidence := 0.85 |};
      {| CausalStep.step := 3;
         CausalStep.description := "Changed costs flow through to next billing cycle";
         CausalStep.mechanism := "SaaS companies use cloud infrastructure on a pay-as-you-go basis. " ++ context;
         CausalStep.confidence := 0.9 |}
     ] |}.

Definition REGULATION_CHANGE_RULE : CausalRule.t :=
  {| CausalRule.eventType := EventType.REGULATION_CHANGE;
     CausalRule.affectedDrivers := [BusinessDriverType.LABOR_COSTS;
       BusinessDriverType.INFRASTRUCTURE_COSTS;
       BusinessDriverType.ADMINISTRATIVE];
     CausalRule.sensitivityFactor := SensitivityFactor.REGULATION;
     CausalRule.defaultDirection := ImpactDirection.INCREASE;
     CausalRule.timeHorizon := TimeHorizon.MEDIUM;
     CausalRule.getCausalPath := fun event context => [
      {| CausalStep.step := 1;
         CausalStep.description := "Regulatory change announced or enacted";
         CausalStep.mechanism := event;
         CausalStep.confidence := 0.9 |};
      {| CausalStep.step := 2;
         CausalStep.description := "Business must invest in compliance";
         CausalStep.mechanism := "New regulations require legal review, technical implementation, process changes, and ongoing monitoring.";
         CausalStep.confidence := 0.8 |};
      {| CausalStep.step := 3;
         CausalStep.description := "Compliance costs increase operating expenses";
         CausalStep.mechanism := "Regulatory compliance adds permanent overhead. " ++ context;
         CausalStep.confidence := 0.75 |}
     ] |}.

Definition ECONOMIC_INDICATOR_RULE : CausalRule.t :=
  {| CausalRule.eventType := EventType.ECONOMIC_INDICATOR;
     CausalRule.affectedDrivers := [BusinessDriverType.SUBSCRIPTION_REVENUE;
       BusinessDriverType.LABOR_COSTS;
       BusinessDriverType.INFRASTRUCTURE_COSTS];
     CausalRule.sensitivityFactor := SensitivityFactor.MARKET_DEMAND;
     CausalRule.defaultDirection := ImpactDirection.NEUTRAL;
     CausalRule.timeHorizon := TimeHorizon.MEDIUM;
     CausalRule.getCausalPath := fun event context => [
      {| CausalStep.step := 1;
         CausalStep.description := "Economic indicator changes";
         CausalStep.mechanism := event;
         CausalStep.confidence := 0.95 |};
      {| CausalStep.step := 2;
         CausalStep.description := "Affects customer spending and business investment";
         CausalStep.mechanism := "Macroeconomic conditions influence customer budgets and willingness to spend on software.";
         CausalStep.confidence := 0.7 |};
      {| CausalStep.step := 3;
         CausalStep.description := "Revenue and cost pressures adjust";
         CausalStep.mechanism := "Economic conditions affect both demand (revenue) and input costs. " ++ context;
         CausalStep.confidence := 0.65 |}
     ] |}.

Definition CURRENCY_RULE : CausalRule.t :=
  {| CausalRule.eventType := EventType.CURRENCY;
     CausalRule.affectedDrivers := [BusinessDriverType.SUBSCRIPTION_REVENUE;
       BusinessDriverType.LABOR_COSTS;
       BusinessDriverType.INFRASTRUCTURE_COSTS];
     CausalRule.sensitivityFactor := SensitivityFactor.FX;
     CausalRule.defaultDirection := ImpactDirection.NEUTRAL;
     CausalRule.timeHorizon := TimeHorizon.SHORT;
     CausalRule.getCausalPath := fun event context => [
      {| CausalStep.step := 1;
         CausalStep.description := "Foreign exchange rate changes";
         CausalStep.mechanism := event;
         CausalStep.confidence := 0.95 |};
      {| CausalStep.step := 2;
         CausalStep.description := "Translation effects on international operations";
         CausalStep.mechanism := "Foreign currency revenue and costs are translated to reporting currency at new rates.";
         CausalStep.confidence := 0.9 |};
      {| CausalStep.step := 3;
         CausalStep.description := "Net FX impact on financial results";
         CausalStep.mechanism := "FX affects both revenue (international customers) and costs (international operations). " ++ context;
         CausalStep.confidence := 0.85 |}
     ] |}.

Definition GEOPOLITICAL_RULE : CausalRule.t :=
  {| CausalRule.eventType := EventType.GEOPOLITICAL;
     CausalRule.affectedDrivers := [BusinessDriverType.SUBSCRIPTION_REVENUE;
       BusinessDriverType.SALES_MARKETING];
     CausalRule.sensitivityFactor := SensitivityFactor.MARKET_DEMAND;
     CausalRule.defaultDirection := ImpactDirection.DECREASE;
     CausalRule.timeHorizon := TimeHorizon.SHORT;
     CausalRule.getCausalPath := fun event context => [
      {| CausalStep.step := 1;
         CausalStep.description := "Geopolitical event creates uncertainty";
         CausalStep.mechanism := event;
         CausalStep.confidence := 0.8 |};
      {| CausalStep.step := 2;
         CausalStep.description := "Market uncertainty reduces customer spending";
         CausalStep.mechanism := "Businesses delay purchases and reduce budgets during periods of geopolitical instability.";
         CausalStep.confidence := 0.6 |};
      {| CausalStep.step := 3;
         CausalStep.description := "Revenue growth slows";
         CausalStep.mechanism := "Reduced customer acquisition and potential churn. " ++ context;
         CausalStep.confidence := 0.5 |}
     ] |}.

Definition MARKET_SHIFT_RULE : CausalRule.t :=
  {| CausalRule.eventType := EventType.MARKET_SHIFT;
     CausalRule.affectedDrivers := [BusinessDriverType.SUBSCRIPTION_REVENUE;
       BusinessDriverType.SALES_MARKETING];
     CausalRule.sensitivityFactor := SensitivityFactor.MARKET_DEMAND;
     CausalRule.defaultDirection := ImpactDirection.NEUTRAL;
     CausalRule.timeHorizon := TimeHorizon.MEDIUM;
     CausalRule.getCausalPath := fun event context => [
      {| CausalStep.step := 1;
         CausalStep.description := "Market dynamics change";
         CausalStep.mechanism := event;
         CausalStep.confidence := 0.7 |};
      {| CausalStep.step := 2;
         CausalStep.description := "Customer demand patterns shift";
         CausalStep.mechanism := "Market shifts affect customer needs, competitive landscape, and pricing power.";
         CausalStep.confidence := 0.6 |};
      {| CausalStep.step := 3;
         CausalStep.description := "Revenue and customer acquisition costs affected";
         CausalStep.mechanism := "Changed market conditions require business adaptation. " ++ context;
         CausalStep.confidence := 0.55 |}
     ] |}.

Definition TECHNOLOGY_RULE : CausalRule.t :=
  {| CausalRule.eventType := EventType.TECHNOLOGY;
     CausalRule.affectedDrivers := [BusinessDriverType.R_AND_D;
       BusinessDriverType.INFRASTRUCTURE_COSTS];
     CausalRule.sensitivityFactor := SensitivityFactor.INFRASTRUCTURE;
     CausalRule.defaultDirection := ImpactDirection.NEUTRAL;
     CausalRule.timeHorizon := TimeHorizon.LONG;
     CausalRule.getCausalPath := fun event context => [
      {| CausalStep.step := 1;
         CausalStep.description := "Technology change occurs";
         CausalStep.mechanism := event;
         CausalStep.confidence := 0.7 |};
      {| CausalStep.step := 2;
         CausalStep.description := "May require technology stack adaptation";
         CausalStep.mechanism := "New technologies can create opportunities (efficiency) or threats (competitive pressure).";
         CausalStep.confidence := 0.5 |};
      {| CausalStep.step := 3;
         CausalStep.description := "R&D and infrastructure investments adjust";
         CausalStep.mechanism := "Technology evolution affects development priorities and infrastructure choices. " ++ context;
         CausalStep.confidence := 0.45 |}
     ] |}.

Definition DISASTER_RULE : CausalRule.t :=
  {| CausalRule.eventType := EventType.DISASTER;
     CausalRule.affectedDrivers := [BusinessDriverType.INFRASTRUCTURE_COSTS;
       BusinessDriverType.SUBSCRIPTION_REVENUE];
     CausalRule.sensitivityFactor := SensitivityFactor.MARKET_DEMAND;
     CausalRule.defaultDirection := ImpactDirection.NEUTRAL;
     CausalRule.timeHorizon := TimeHorizon.SHORT;
     CausalRule.getCausalPath := fun event context => [
      {| CausalStep.step := 1;
         CausalStep.description := "Disaster event occurs";
         CausalStep.mechanism := event;
         CausalStep.confidence := 0.9 |};
      {| CausalStep.step := 2;
         CausalStep.description := "Regional disruption affects operations";
         CausalStep.mechanism := "Natural disasters disrupt infrastructure, workforce, and customer operations in affected regions.";
         CausalStep.confidence := 0.7 |};
      {| CausalStep.step := 3;
         CausalStep.description := "Business continuity and recovery costs";
         CausalStep.mechanism := "Impact depends on regional exposure. " ++ context;
         CausalStep.confidence := 0.6 |}
     ] |}.

Definition CAUSAL_RULES (eventType : EventType.t) : CausalRule.t :=
  match eventType with
  | EventType.LABOR_MARKET => LABOR_MARKET_RULE
  | EventType.INFRASTRUCTURE => INFRASTRUCTURE_RULE
  | EventType.REGULATION_CHANGE => REGULATION_CHANGE_RULE
  | EventType.ECONOMIC_INDICATOR => ECONOMIC_INDICATOR_RULE
  | EventType.CURRENCY => CURRENCY_RULE
  | EventType.GEOPOLITICAL => GEOPOLITICAL_RULE
  | EventType.MARKET_SHIFT => MARKET_SHIFT_RULE
  | EventType.TECHNOLOGY => TECHNOLOGY_RULE
  | EventType.DISASTER => DISASTER_RULE
  end.

(** [getCausalRule(eventType)] *)
Definition getCausalRule (eventType : EventType.t) : CausalRule.t :=
  CAUSAL_RULES eventType.

(** [isHighConfidenceRule(eventType)] *)
Definition isHighConfidenceRule (eventType : EventType.t) : bool :=
  let highConfidenceTypes :=
    [EventType.LABOR_MARKET; EventType.INFRASTRUCTURE;
     EventType.ECONOMIC_INDICATOR; EventType.CURRENCY] in
  existsb (EventType.t_beq eventType) highConfidenceTypes.

(** ** [assumptions.ts] *)

Definition CORE_ASSUMPTIONS : list (string * Assumption.t) := [
  ("LABOR_WAGES_AFFECT_COSTS",
   {| Assumption.id := "LABOR_WAGES_AFFECT_COSTS";
      Assumption.description := "Wage increases in the labor market directly increase labor costs for businesses.";
      Assumption.impact := AssumptionImpact.HIGH;
      Assumption.source := Some "Economic principle: labor as a cost component" |});
  ("LABOR_COSTS_PROPORTIONAL",
   {| Assumption.id := "LABOR_COSTS_PROPORTIONAL";
      Assumption.description := "Labor cost changes are roughly proportional to the weight of labor in total costs.";
      Assumption.impact := AssumptionImpact.HIGH;
      Assumption.source := Some "Basic accounting: cost structure drives impact magnitude" |});
  ("LABOR_CHANGES_GRADUAL",
   {| Assumption.id := "LABOR_CHANGES_GRADUAL";
      Assumption.description := "Labor market changes take 3-12 months to fully impact business costs.";
      Assumption.impact := AssumptionImpact.MEDIUM;
      Assumption.source := Some "Typical employment contract and hiring cycles" |});
  ("INFRASTRUCTURE_COSTS_VARIABLE",
   {| Assumption.id := "INFRASTRUCTURE_COSTS_VARIABLE";
      Assumption.description := "Cloud and infrastructure costs are variable and adjust with usage and pricing.";
      Assumption.impact := AssumptionImpact.HIGH;
      Assumption.source := Some "SaaS industry standard: pay-as-you-go pricing models" |});
  ("INFRASTRUCTURE_IMPACT_IMMEDIATE",
   {| Assumption.id := "INFRASTRUCTURE_IMPACT_IMMEDIATE";
      Assumption.description := "Infrastructure price changes affect costs within 0-3 months.";
      Assumption.impact := AssumptionImpact.MEDIUM;
      Assumption.source := Some "Cloud provider pricing updates apply to next billing cycle" |});
  ("REGULATION_REQUIRES_COMPLIANCE",
   {| Assumption.id := "REGULATION_REQUIRES_COMPLIANCE";
      Assumption.description := "New regulations require businesses to invest in compliance measures.";
      Assumption.impact := AssumptionImpact.HIGH;
      Assumption.source := Some "Legal requirement: non-compliance risks fines and operations" |});
  ("REGULATION_MEDIUM_TERM",
   {| Assumption.id := "REGULATION_MEDIUM_TERM";
      Assumption.description := "Regulatory impacts typically materialize over 3-12 months.";
      Assumption.impact := AssumptionImpact.MEDIUM;
      Assumption.source := Some "Typical grace periods and implementation timelines" |});
  ("GDP_AFFECTS_DEMAND",
   {| Assumption.id := "GDP_AFFECTS_DEMAND";
      Assumption.description := "GDP growth/decline affects customer spending and demand for services.";
      Assumption.impact := AssumptionImpact.HIGH;
      Assumption.source := Some "Macroeconomic principle: GDP correlates with business activity" |});
  ("INFLATION_AFFECTS_COSTS",
   {| Assumption.id := "INFLATION_AFFECTS_COSTS";
      Assumption.description := "Inflation increases costs across all categories (labor, infrastructure, etc.).";
      Assumption.impact := AssumptionImpact.HIGH;
      Assumption.source := Some "Monetary principle: purchasing power affects all prices" |});
  ("INTEREST_RATES_AFFECT_GROWTH",
   {| Assumption.id := "INTEREST_RATES_AFFECT_GROWTH";
      Assumption.description := "Higher interest rates reduce customer spending and business investment.";
      Assumption.impact := AssumptionImpact.MEDIUM;
      Assumption.source := Some "Monetary policy: cost of capital affects growth" |});
  ("FX_AFFECTS_INTERNATIONAL",
   {| Assumption.id := "FX_AFFECTS_INTERNATIONAL";
      Assumption.description := "Currency changes only affect businesses with international operations or customers.";
      Assumption.impact := AssumptionImpact.HIGH;
      Assumption.source := Some "Basic FX exposure: requires cross-border transactions" |});
  ("FX_REVENUE_AND_COSTS",
   {| Assumption.id := "FX_REVENUE_AND_COSTS";
      Assumption.description := "Foreign exchange affects both revenue (if international customers) and costs (if international operations).";
      Assumption.impact := AssumptionImpact.MEDIUM;
      Assumption.source := Some "Accounting standard: FX translation affects both sides of P&L" |});
  ("GEOPOLITICAL_CREATES_UNCERTAINTY",
   {| Assumption.id := "GEOPOLITICAL_CREATES_UNCERTAINTY";
      Assumption.description := "Geopolitical events create market uncertainty and reduce customer spending.";
      Assumption.impact := AssumptionImpact.MEDIUM;
      Assumption.source := Some "Behavioral economics: uncertainty reduces risk-taking" |});
  ("DISASTER_REGIONAL_IMPACT",
   {| Assumption.id := "DISASTER_REGIONAL_IMPACT";
      Assumption.description := "Natural disasters primarily affect businesses in or dependent on the affected region.";
      Assumption.impact := AssumptionImpact.HIGH;
      Assumption.source := Some "Geographic constraint: physical disruption is localized" |})
].

(** [CORE_ASSUMPTIONS[key]] *)
Definition coreAssumption (key : string) : option Assumption.t :=
  option_map snd (find (fun kv => String.eqb (fst kv) key) CORE_ASSUMPTIONS).

Definition assumptionMap (eventType : EventType.t) : list string :=
  match eventType with
  | EventType.LABOR_MARKET =>
      ["LABOR_WAGES_AFFECT_COSTS"; "LABOR_COSTS_PROPORTIONAL";
       "LABOR_CHANGES_GRADUAL"]
  | EventType.INFRASTRUCTURE =>
      ["INFRASTRUCTURE_COSTS_VARIABLE"; "INFRASTRUCTURE_IMPACT_IMMEDIATE"]
  | EventType.REGULATION_CHANGE =>
      ["REGULATION_REQUIRES_COMPLIANCE"; "REGULATION_MEDIUM_TERM"]
  | EventType.ECONOMIC_INDICATOR =>
      ["GDP_AFFECTS_DEMAND"; "INFLATION_AFFECTS_COSTS";
       "INTEREST_RATES_AFFECT_GROWTH"]
  | EventType.CURRENCY => ["FX_AFFECTS_INTERNATIONAL"; "FX_REVENUE_AND_COSTS"]
  | EventType.GEOPOLITICAL => ["GEOPOLITICAL_CREATES_UNCERTAINTY"]
  | EventType.DISASTER => ["DISASTER_REGIONAL_IMPACT"]
  | EventType.MARKET_SHIFT => ["GDP_AFFECTS_DEMAND"]
  | EventType.TECHNOLOGY => []
  end.

(** [getAssumptionsForEventType(eventType)]:
    [assumptionKeys.map((key) => CORE_ASSUMPTIONS[key]).filter(Boolean)] *)
Definition getAssumptionsForEventType (eventType : EventType.t) : list Assumption.t :=
  let assumptionKeys := assumptionMap eventType in
  flat_map
    (fun key => match coreAssumption key with Some a => [a] | None => [] end)
    assumptionKeys.

Module BusinessContext.
Record t := {
  hasInternationalOperations : bool;
  hasInternationalCustomers : bool;
  operatesInRegion : bool
}.
End BusinessContext.

Module Validation.
Record t := {
  valid : bool;
  warnings : list string
}.
End Validation.

(** [validateAssumptionsForBusiness(assumptions, businessContext)] *)
Definition validateAssumptionsForBusiness
    (assumptions : list Assumption.t) (businessContext : BusinessContext.t)
    : Validation.t :=
  let warnings :=
    fold_left
      (fun (warnings : list string) assumption =>
         let warnings :=
           if String.eqb (Assumption.id assumption) "FX_AFFECTS_INTERNATIONAL"
              && negb (BusinessContext.hasInternationalOperations businessContext)
              && negb (BusinessContext.hasInternationalCustomers businessContext)
           then (warnings ++
                 ["FX impact may be minimal: business operates only domestically."])%list
           else warnings in
         if String.eqb (Assumption.id assumption) "DISASTER_REGIONAL_IMPACT"
            && negb (BusinessContext.operatesInRegion businessContext)
         then (warnings ++
               ["Regional event may not affect business: no presence in affected region."])%list
         else warnings)
      assumptions [] in
  {| Validation.valid := true; Validation.warnings := warnings |}.

(** ** [mapper.ts] *)

Module CausalMapping.
Record t := {
  event : Event.t;
  businessModel : BusinessModel.t;
  affectedDrivers : list BusinessDriverType.t;
  impactDirection : ImpactDirection.t;
  impactMagnitude : ImpactMagnitude.t;
  timeHorizon : TimeHorizon.t;
  causalPath : list CausalStep.t;
  assumptions : list Assumption.t;
  confidenceScore : Q;
  confidenceRationale : string;
  isRelevant : bool;
  relevanceReason : string
}.
End CausalMapping.

Module Relevance.
Record t := {
  isRelevant : bool;
  reason : string
}.
End Relevance.

(** [checkRelevance(event, businessModel)] *)
Definition checkRelevance (event : Event.t) (businessModel : BusinessModel.t)
    : Clock.Clocked Relevance.t :=
  (* Check 1: geographic relevance *)
  if negb (Event.isRelevantToRegion event
             (BusinessModel.getAllRelevantRegions businessModel))
  then
    Clock.ret
      {| Relevance.isRelevant := false;
         Relevance.reason :=
           "Event in " ++ Event.region event
           ++ " does not affect business operating in "
           ++ Str.join ", " (BusinessModel.getAllRelevantRegions businessModel) |}
  else
    (* Check 2: event age *)
    recent <- Event.isRecent event 90 ;;
    if negb recent
    then
      age <- Event.getAgeInDays event ;;
      Clock.ret
        {| Relevance.isRelevant := false;
           Relevance.reason :=
             "Event is " ++ Num.showZ age
             ++ " days old and likely no longer relevant" |}
    else
      (* Check 3: event confidence *)
      if Num.ltb (Event.confidenceScore event) 0.3
      then
        Clock.ret
          {| Relevance.isRelevant := false;
             Relevance.reason :=
               "Event has very low confidence score and may not be reliable" |}
      else
        Clock.ret
          {| Relevance.isRelevant := true;
             Relevance.reason :=
               "Event is geographically relevant, recent, and from reliable source" |}.

(** [buildBusinessContext(businessModel, affectedDrivers)] *)
Definition buildBusinessContext
    (businessModel : BusinessModel.t) (affectedDrivers : list BusinessDriverType.t)
    : string :=
  let contextParts :=
    fold_left
      (fun (contextParts : list string) driver =>
         let weight := BusinessModel.getDriverWeight businessModel driver in
         if Num.gtb weight 0
         then
           let percentage := Num.toFixed0 (weight * 100) in
           (contextParts ++
            [(BusinessDriverType.toString driver ++ " represents " ++ percentage
              ++ "% of business structure")%string])%list
         else contextParts)
      affectedDrivers [] in
  Str.join ". " contextParts.

(** [determineImpactDirection(event, rule)] *)
Definition determineImpactDirection (event : Event.t) (rule : CausalRule.t)
    : ImpactDirection.t :=
  let summary := Str.toLowerCase (Event.summary event) in
  if Str.includes summary "increase"
     || Str.includes summary "rise"
     || Str.includes summary "growth"
     || Str.includes summary "up"
  then ImpactDirection.INCREASE
  else
    if Str.includes summary "decrease"
       || Str.includes summary "decline"
       || Str.includes summary "fall"
       || Str.includes summary "down"
    then ImpactDirection.DECREASE
    else CausalRule.defaultDirection rule.

(** [calculateImpactMagnitude(event, businessModel, affectedDrivers,
    sensitivityFactor)] *)
Definition calculateImpactMagnitude
    (event : Event.t) (businessModel : BusinessModel.t)
    (affectedDrivers : list BusinessDriverType.t)
    (sensitivityFactor : SensitivityFactor.t) : ImpactMagnitude.t :=
  let totalWeight :=
    fold_left
      (fun totalWeight driver =>
         totalWeight + BusinessModel.getDriverWeight businessModel driver)
      affectedDrivers 0 in
  let sensitivity := BusinessModel.getSensitivity businessModel sensitivityFactor in
  let rawMagnitude := totalWeight * sensitivity * Event.confidenceScore event in
  if Num.gtb rawMagnitude 0.05 then ImpactMagnitude.HIGH
  else if Num.gtb rawMagnitude 0.02 then ImpactMagnitude.MEDIUM
  else ImpactMagnitude.LOW.

(** [calculateConfidence(event, causalPath, businessModel, sensitivityFactor,
    assumptionCount)] *)
Definition calculateConfidence
    (event : Event.t) (causalPath : list CausalStep.t)
    (businessModel : BusinessModel.t) (sensitivityFactor : SensitivityFactor.t)
    (assumptionCount : nat) : Q :=
  let confidence := Event.confidenceScore event in
  let pathConfidence :=
    fold_left (fun acc step => acc * CausalStep.confidence step) causalPath 1 in
  let confidence := confidence * pathConfidence in
  let confidence :=
    if isHighConfidenceRule (Event.eventType event)
    then confidence * 1
    else confidence * 0.9 in
  let assumptionPenalty := Num.pow 0.95 assumptionCount in
  let confidence := confidence * assumptionPenalty in
  let sensitivity := BusinessModel.getSensitivity businessModel sensitivityFactor in
  let confidence :=
    if Num.gtb sensitivity 0.7 then confidence * 1.1 else confidence in
  Num.max 0 (Num.min 1 confidence).

(** [generateConfidenceRationale(event, causalPath, assumptions, warnings)] *)
Definition generateConfidenceRationale
    (event : Event.t) (causalPath : list CausalStep.t)
    (assumptions : list Assumption.t) (warnings : list string) : string :=
  let parts : list string := [] in
  let parts :=
    if Num.geb (Event.confidenceScore event) 0.8
    then (parts ++ ["Event from highly reliable source"])%list
    else if Num.geb (Event.confidenceScore event) 0.6
    then (parts ++ ["Event from moderately reliable source"])%list
    else (parts ++ ["Event from uncertain or unverified source"])%list in
  let parts :=
    if isHighConfidenceRule (Event.eventType event)
    then (parts ++ ["well-established causal relationship"])%list
    else (parts ++ ["uncertain or indirect causal relationship"])%list in
  let parts :=
    if Nat.leb (List.length causalPath) 2
    then (parts ++ ["direct impact"])%list
    else (parts ++
          [(Num.showZ (Z.of_nat (List.length causalPath))
            ++ "-step causal chain")%string])%list in
  let parts :=
    if Nat.ltb 0 (List.length assumptions)
    then
      let highImpact :=
        List.length
          (filter
             (fun a => AssumptionImpact.t_beq (Assumption.impact a) AssumptionImpact.HIGH)
             assumptions) in
      if Nat.ltb 0 highImpact
      then (parts ++
            [(Num.showZ (Z.of_nat highImpact) ++ " critical assumption(s)")%string])%list
      else parts
    else parts in
  let parts :=
    if Nat.ltb 0 (List.length warnings)
    then (parts ++
          [(Num.showZ (Z.of_nat (List.length warnings)) ++ " caveat(s)")%string])%list
    else parts in
  Str.join "; " parts ++ ".".

(** [mapEventToBusiness(event, businessModel)]; [None] is [null]. *)
Definition mapEventToBusiness (event : Event.t) (businessModel : BusinessModel.t)
    : Clock.Clocked (option CausalMapping.t) :=
  (* Step 1 *)
  relevance <- checkRelevance event businessModel ;;
  if negb (Relevance.isRelevant relevance)
  then
    Clock.ret (Some
      {| CausalMapping.event := event;
         CausalMapping.businessModel := businessModel;
         CausalMapping.affectedDrivers := [];
         CausalMapping.impactDirection := ImpactDirection.NEUTRAL;
         CausalMapping.impactMagnitude := ImpactMagnitude.LOW;
         CausalMapping.timeHorizon := TimeHorizon.SHORT;
         CausalMapping.causalPath := [];
         CausalMapping.assumptions := [];
         CausalMapping.confidenceScore := 0;
         CausalMapping.confidenceRationale := Relevance.reason relevance;
         CausalMapping.isRelevant := false;
         CausalMapping.relevanceReason := Relevance.reason relevance |})
  else
    (* Steps 2 to 5 *)
    let rule := getCausalRule (Event.eventType event) in
    let businessContext :=
      buildBusinessContext businessModel (CausalRule.affectedDrivers rule) in
    let causalPath :=
      CausalRule.getCausalPath rule (Event.summary event) businessContext in
    let assumptions := getAssumptionsForEventType (Event.eventType event) in
    (* Step 6 *)
    let operatingRegions := BusinessModel.operatingRegions businessModel in
    let customerRegions := BusinessModel.customerRegions businessModel in
    let assumptionValidation :=
      validateAssumptionsForBusiness assumptions
        {| BusinessContext.hasInternationalOperations :=
             existsb
               (fun r => negb (String.eqb r "US")
                         || Nat.ltb 1 (List.length operatingRegions))
               operatingRegions;
           BusinessContext.hasInternationalCustomers :=
             existsb
               (fun r => negb (String.eqb r "US")
                         || Nat.ltb 1 (List.length customerRegions))
               customerRegions;
           BusinessContext.operatesInRegion :=
             BusinessModel.hasRegionalExposure businessModel (Event.region event) |} in
    (* Steps 7 to 10 *)
    let impactDirection := determineImpactDirection event rule in
    let impactMagnitude :=
      calculateImpactMagnitude event businessModel
        (CausalRule.affectedDrivers rule) (CausalRule.sensitivityFactor rule) in
    let confidenceScore :=
      calculateConfidence event causalPath businessModel
        (CausalRule.sensitivityFactor rule) (List.length assumptions) in
    let confidenceRationale :=
      generateConfidenceRationale event causalPath assumptions
        (Validation.warnings assumptionValidation) in
    Clock.ret (Some
      {| CausalMapping.event := event;
         CausalMapping.businessModel := businessModel;
         CausalMapping.affectedDrivers := CausalRule.affectedDrivers rule;
         CausalMapping.impactDirection := impactDirection;
         CausalMapping.impactMagnitude := impactMagnitude;
         CausalMapping.timeHorizon := CausalRule.timeHorizon rule;
         CausalMapping.causalPath := causalPath;
         CausalMapping.assumptions := assumptions;
         CausalMapping.confidenceScore := confidenceScore;
         CausalMapping.confidenceRationale := confidenceRationale;
         CausalMapping.isRelevant := true;
         CausalMapping.relevanceReason := Relevance.reason relevance |}).

(** [getMagnitudeWeight(magnitude)] *)
Definition getMagnitudeWeight (magnitude : ImpactMagnitude.t) : Q :=
  match magnitude with
  | ImpactMagnitude.HIGH => 3
  | ImpactMagnitude.MEDIUM => 2
  | ImpactMagnitude.LOW => 1
  end.

(** The comparator handed to [sort]. *)
Definition byScore (a b : CausalMapping.t) : Q :=
  let scoreA :=
    CausalMapping.confidenceScore a
    * getMagnitudeWeight (CausalMapping.impactMagnitude a) in
  let scoreB :=
    CausalMapping.confidenceScore b
    * getMagnitudeWeight (CausalMapping.impactMagnitude b) in
  scoreB - scoreA.

(** The [for (const event of events)] loop of [batchMapEventsToBusiness]. *)
Fixpoint collectRelevant
    (events : list Event.t) (businessModel : BusinessModel.t)
    (mappings : list CausalMapping.t) : Clock.Clocked (list CausalMapping.t) :=
  match events with
  | [] => Clock.ret mappings
  | event :: rest =>
      mapping <- mapEventToBusiness event businessModel ;;
      match mapping with
      | Some m =>
          if CausalMapping.isRelevant m
          then collectRelevant rest businessModel (mappings ++ [m])%list
          else collectRelevant rest businessModel mappings
      | None => collectRelevant rest businessModel mappings
      end
  end.

(** [batchMapEventsToBusiness(events, businessModel)] *)
Definition batchMapEventsToBusiness
    (events : list Event.t) (businessModel : BusinessModel.t)
    : Clock.Clocked (list CausalMapping.t) :=
  mappings <- collectRelevant events businessModel [] ;;
  Clock.ret (Arr.sortBy byScore mappings).

(** * Further functions of the code base *)

(** ** Number formatting *)

Module Fmt.

Fixpoint zeros (n : nat) : string :=
  match n with
  | O => ""
  | S k => String "0" (zeros k)
  end.

(** [x.toFixed(digits)] for [|x| < 10^21]: the nearest multiple of
    [10^-digits] (the larger one on a tie), written with exactly [digits]
    decimals. *)
Definition toFixed (x : Q) (digits : nat) : string :=
  let s := if Num.ltb x 0 then "-" else "" in
  let x := if Num.ltb x 0 then - x else x in
  let n := Qfloor (x * inject_Z (10 ^ Z.of_nat digits) + (1 # 2)) in
  let m := Num.showZ n in
  if Nat.eqb digits 0 then s ++ m
  else
    let k := String.length m in
    let m := if Nat.leb k digits then zeros (digits + 1 - k) ++ m else m in
    let k := String.length m in
    s ++ substring 0 (k - digits) m ++ "." ++ substring (k - digits) digits m.

(** [Math.round(x)] *)
Definition round (x : Q) : Z := Qfloor (x + (1 # 2)).

End Fmt.

(** ** [Event.ts]: the static confidence heuristic *)

Module EventScoring.

(** [Event.calculateConfidence(sourceReliability, hasSpecificRegion,
    hasTimestamp, summaryLength)] *)
Definition calculateConfidence
    (sourceReliability : Q) (hasSpecificRegion hasTimestamp : bool)
    (summaryLength : Q) : Q :=
  let confidence := sourceReliability in
  let confidence := if negb hasSpecificRegion then confidence * 0.8 else confidence in
  let confidence := if negb hasTimestamp then confidence * 0.7 else confidence in
  let confidence :=
    if Num.ltb summaryLength 50 || Num.gtb summaryLength 1000
    then confidence * 0.9
    else confidence in
  Num.max 0 (Num.min 1 confidence).

End EventScoring.

(** ** [BusinessModel.ts]: validation *)

Module ValidationResult.
Record t := {
  valid : bool;
  errors : list string
}.
End ValidationResult.

Module BusinessModelValidation.

(** The string value of a [SensitivityFactor] member. *)
Definition factorName (f : SensitivityFactor.t) : string :=
  match f with
  | SensitivityFactor.LABOR => "LABOR"
  | SensitivityFactor.INFRASTRUCTURE => "INFRASTRUCTURE"
  | SensitivityFactor.FX => "FX"
  | SensitivityFactor.REGULATION => "REGULATION"
  | SensitivityFactor.MARKET_DEMAND => "MARKET_DEMAND"
  end.

(** [BusinessModel.validate()] *)
Definition validate (this : BusinessModel.t) : ValidationResult.t :=
  let errors : list string := [] in
  let revenueSum :=
    fold_left (fun sum d => sum + WeightedDriver.weight d)
      (BusinessModel.revenueDrivers this) 0 in
  let errors :=
    if Num.gtb (Qabs (revenueSum - 1)) 0.01
    then (errors ++
          [("Revenue drivers must sum to 1.0 (currently "
            ++ Fmt.toFixed revenueSum 2 ++ ")")%string])%list
    else errors in
  let costSum :=
    fold_left (fun sum d => sum + WeightedDriver.weight d)
      (BusinessModel.costDrivers this) 0 in
  let errors :=
    if Num.gtb (Qabs (costSum - 1)) 0.01
    then (errors ++
          [("Cost drivers must sum to 1.0 (currently "
            ++ Fmt.toFixed costSum 2 ++ ")")%string])%list
    else errors in
  let errors :=
    fold_left
      (fun (errors : list string) sensitivity =>
         if Num.ltb (SensitivityConfig.sensitivity sensitivity) 0
            || Num.gtb (SensitivityConfig.sensitivity sensitivity) 1
         then (errors ++
               [("Sensitivity for "
                 ++ factorName (SensitivityConfig.factor sensitivity)
                 ++ " must be between 0 and 1")%string])%list
         else errors)
      (BusinessModel.sensitivities this) errors in
  let allRegions :=
    (BusinessModel.operatingRegions this ++ BusinessModel.customerRegions this)%list in
  let errors :=
    fold_left
      (fun (errors : list string) region =>
         if Nat.ltb (String.length region) 2 || Nat.ltb 5 (String.length region)
         then (errors ++ [("Invalid region code: " ++ region)%string])%list
         else errors)
      allRegions errors in
  {| ValidationResult.valid := Nat.eqb (List.length errors) 0;
     ValidationResult.errors := errors |}.

End BusinessModelValidation.

(** ** [Insight.ts]: the stored insight *)

Module InsightRecord.

Record t := {
  id : string;
  businessModelId : string;
  eventId : string;
  summary : string;
  impactDirection : ImpactDirection.t;
  impactMagnitude : ImpactMagnitude.t;
  timeHorizon : TimeHorizon.t;
  affectedDrivers : list BusinessDriverType.t;
  causalPath : list CausalStep.t;
  assumptions : list Assumption.t;
  confidenceScore : Q;
  confidenceRationale : string;
  llmExplanation : option string;
  generatedAt : Z;
  dismissed : bool;
  userNotes : option string
}.

Definition magnitudeOrder (m : ImpactMagnitude.t) : Q :=
  match m with
  | ImpactMagnitude.LOW => 1
  | ImpactMagnitude.MEDIUM => 2
  | ImpactMagnitude.HIGH => 3
  end.

(** [isActionable(minConfidence, minMagnitude)]; the defaults are [0.6] and
    [ImpactMagnitude.MEDIUM]. *)
Definition isActionable
    (this : t) (minConfidence : Q) (minMagnitude : ImpactMagnitude.t) : bool :=
  if dismissed this then false
  else if Num.ltb (confidenceScore this) minConfidence then false
  else Num.geb (magnitudeOrder (impactMagnitude this)) (magnitudeOrder minMagnitude).

(** [getAgeInDays()] *)
Definition getAgeInDays (this : t) : Clock.Clocked Z :=
  now <- Clock.now ;;
  Clock.ret (Qfloor (inject_Z (now - generatedAt this) / inject_Z (1000 * 60 * 60 * 24))).

(** [isStale(maxAgeDays)]; the default is [30]. *)
Definition isStale (this : t) (maxAgeDays : Q) : Clock.Clocked bool :=
  age <- getAgeInDays this ;;
  Clock.ret (Num.gtb (inject_Z age) maxAgeDays).

End InsightRecord.

(** ** [ConfidenceIndicator.tsx]: the helpers of the component *)

Module ConfidenceIndicator.

Definition percentage (score : Q) : Z := Fmt.round (score * 100).

Definition getColor (score : Q) : string :=
  if Num.geb score 0.8 then "text-green-600"
  else if Num.geb score 0.6 then "text-yellow-600"
  else "text-red-600".

Definition getBarColor (score : Q) : string :=
  if Num.geb score 0.8 then "bg-green-500"
  else if Num.geb score 0.6 then "bg-yellow-500"
  else "bg-red-500".

Definition getLabel (score : Q) : string :=
  if Num.geb score 0.8 then "High confidence"
  else if Num.geb score 0.6 then "Moderate confidence"
  else "Low confidence".

End ConfidenceIndicator.

(** ** [business-templates/saas.ts] *)

Module SaaS.

Definition DEFAULT_SAAS_REVENUE_DRIVERS : list WeightedDriver.t :=
  [{| WeightedDriver.driver := BusinessDriverType.SUBSCRIPTION_REVENUE;
      WeightedDriver.weight := 0.85 |};
   {| WeightedDriver.driver := BusinessDriverType.USAGE_REVENUE;
      WeightedDriver.weight := 0.10 |};
   {| WeightedDriver.driver := BusinessDriverType.SERVICES_REVENUE;
      WeightedDriver.weight := 0.05 |}].

Definition DEFAULT_SAAS_COST_DRIVERS : list WeightedDriver.t :=
  [{| WeightedDriver.driver := BusinessDriverType.LABOR_COSTS;
      WeightedDriver.weight := 0.40 |};
   {| WeightedDriver.driver := BusinessDriverType.INFRASTRUCTURE_COSTS;
      WeightedDriver.weight := 0.15 |};
   {| WeightedDriver.driver := BusinessDriverType.SALES_MARKETING;
      WeightedDriver.weight := 0.30 |};
   {| WeightedDriver.driver := BusinessDriverType.R_AND_D;
      WeightedDriver.weight := 0.10 |};
   {| WeightedDriver.driver := BusinessDriverType.ADMINISTRATIVE;
      WeightedDriver.weight := 0.05 |}].

Definition DEFAULT_SAAS_SENSITIVITIES : list SensitivityConfig.t :=
  [{| SensitivityConfig.factor := SensitivityFactor.LABOR;
      SensitivityConfig.sensitivity := 0.8 |};
   {| SensitivityConfig.factor := SensitivityFactor.INFRASTRUCTURE;
      SensitivityConfig.sensitivity := 0.7 |};
   {| SensitivityConfig.factor := SensitivityFactor.FX;
      SensitivityConfig.sensitivity := 0.4 |};
   {| SensitivityConfig.factor := SensitivityFactor.REGULATION;
      SensitivityConfig.sensitivity := 0.6 |};
   {| SensitivityConfig.factor := SensitivityFactor.MARKET_DEMAND;
      SensitivityConfig.sensitivity := 0.7 |}].

(** [Omit<BusinessModelConfig, 'id' | 'createdAt' | 'updatedAt'>] *)
Record Template := {
  userId : string;
  name : string;
  industry : Industry.t;
  revenueDrivers : list WeightedDriver.t;
  costDrivers : list WeightedDriver.t;
  sensitivities : list SensitivityConfig.t;
  operatingRegions : list string;
  customerRegions : list string;
  active : bool
}.

(** [createSaaSTemplate(userId, name, operatingRegions, customerRegions)];
    an omitted argument is [None] and takes its default. *)
Definition createSaaSTemplate
    (userId : string) (name : option string)
    (operatingRegions customerRegions : option (list string)) : Template :=
  let name := match name with Some n => n | None => "My SaaS Business" end in
  let operatingRegions :=
    match operatingRegions with Some r => r | None => ["US"] end in
  let customerRegions :=
    match customerRegions with Some r => r | None => ["US"] end in
  {| userId := userId;
     name := name;
     industry := Industry.SAAS;
     revenueDrivers := DEFAULT_SAAS_REVENUE_DRIVERS;
     costDrivers := DEFAULT_SAAS_COST_DRIVERS;
     sensitivities := DEFAULT_SAAS_SENSITIVITIES;
     operatingRegions := operatingRegions;
     customerRegions := customerRegions;
     active := true |}.

(** The business model a stored template becomes ([prisma.businessModel.create]
    followed by [BusinessModel.fromPrisma], as in the seed script and the
    POST route): the store supplies the identifier and the two dates. *)
Definition toBusinessModel (id : string) (createdAt updatedAt : Z) (c : Template)
    : BusinessModel.t :=
  {| BusinessModel.id := id;
     BusinessModel.userId := userId c;
     BusinessModel.name := name c;
     BusinessModel.industry := industry c;
     BusinessModel.revenueDrivers := revenueDrivers c;
     BusinessModel.costDrivers := costDrivers c;
     BusinessModel.sensitivities := sensitivities c;
     BusinessModel.operatingRegions := operatingRegions c;
     BusinessModel.customerRegions := customerRegions c;
     BusinessModel.active := active c;
     BusinessModel.createdAt := createdAt;
     BusinessModel.updatedAt := updatedAt |}.

(** [validateSaaSModel(config)], on the two fields of the
    [Partial<BusinessModelConfig>] it reads; an absent field is [None]. *)
Definition validateSaaSModel
    (revenueDrivers costDrivers : option (list WeightedDriver.t)) : Validation.t :=
  let warnings : list string := [] in
  let findDriver (drivers : option (list WeightedDriver.t)) (d : BusinessDriverType.t) :=
    match drivers with
    | Some l => find (fun w => BusinessDriverType.t_beq (WeightedDriver.driver w) d) l
    | None => None
    end in
  let subscriptionRevenue :=
    findDriver revenueDrivers BusinessDriverType.SUBSCRIPTION_REVENUE in
  let warnings :=
    match subscriptionRevenue with
    | Some found =>
        if Num.ltb (WeightedDriver.weight found) 0.5
        then (warnings ++
              ["Subscription revenue is less than 50%. This is unusual for a SaaS business."])%list
        else warnings
    | None => warnings
    end in
  let infraCosts := findDriver costDrivers BusinessDriverType.INFRASTRUCTURE_COSTS in
  let warnings :=
    match infraCosts with
    | Some found =>
        if Num.gtb (WeightedDriver.weight found) 0.25
        then (warnings ++
              ["Infrastructure costs exceed 25%. Consider if this is accurate for your business."])%list
        else warnings
    | None => warnings
    end in
  let salesCosts := findDriver costDrivers BusinessDriverType.SALES_MARKETING in
  let warnings :=
    match salesCosts with
    | Some found =>
        if Num.gtb (WeightedDriver.weight found) 0.5
        then (warnings ++
              ["Sales & marketing exceeds 50%. This may indicate an unsustainable CAC."])%list
        else warnings
    | None => warnings
    end in
  {| Validation.valid := true; Validation.warnings := warnings |}.

End SaaS.

(** ** [event-ingestion/economic-data.ts] and [normalizer.ts]

    In the ingestion layer a [Date] may be invalid: [None] stands for
    [Invalid Date].  How a number prints in a template literal is left to
    the parameter [show]. *)

Module EconomicIndicator.
Record t := {
  indicator : string;
  value : Q;
  previousValue : option Q;
  unit : string;
  region : string;
  timestamp : option Z;
  source : string
}.
End EconomicIndicator.

Module NormalizedEventInput.
Record t := {
  eventType : EventType.t;
  summary : string;
  region : string;
  timestamp : option Z;
  affectedEntities : list AffectedEntity.t;
  source : string;
  sourceId : option string;
  confidenceScore : Q
}.
End NormalizedEventInput.

(** [economicIndicatorToSummary(indicator)] *)
Definition economicIndicatorToSummary
    (show : Q -> string) (indicator : EconomicIndicator.t) : string :=
  let change :=
    match EconomicIndicator.previousValue indicator with
    | Some previousValue =>
        if Num.gtb (EconomicIndicator.value indicator) previousValue then "increased"
        else if Num.ltb (EconomicIndicator.value indicator) previousValue then "decreased"
        else "remained stable"
    | None => "reported"
    end in
  let changeAmount :=
    match EconomicIndicator.previousValue indicator with
    | Some previousValue =>
        " from " ++ show previousValue ++ "% to "
        ++ show (EconomicIndicator.value indicator) ++ "%"
    | None => " at " ++ show (EconomicIndicator.value indicator) ++ "%"
    end in
  EconomicIndicator.indicator indicator ++ " " ++ change ++ changeAmount
  ++ " in " ++ EconomicIndicator.region indicator ++ ".".

(** [getAffectedEntitiesForIndicator(indicatorName)] *)
Definition getAffectedEntitiesForIndicator (indicatorName : string)
    : list AffectedEntity.t :=
  let name := Str.toLowerCase indicatorName in
  if Str.includes name "unemployment" || Str.includes name "wage"
  then [AffectedEntity.LABOR_FORCE; AffectedEntity.TECH_COMPANIES]
  else if Str.includes name "interest rate"
  then [AffectedEntity.FINANCIAL_SECTOR; AffectedEntity.ALL]
  else if Str.includes name "inflation" || Str.includes name "gdp"
  then [AffectedEntity.ALL]
  else [AffectedEntity.ALL].

(** [normalizeEconomicIndicator(indicator, sourceReliability)], without the
    opaque [metadata]; the default reliability is [0.9]. *)
Definition normalizeEconomicIndicator
    (show : Q -> string) (indicator : EconomicIndicator.t) (sourceReliability : Q)
    : NormalizedEventInput.t :=
  let summary := economicIndicatorToSummary show indicator in
  let affectedEntities :=
    getAffectedEntitiesForIndicator (EconomicIndicator.indicator indicator) in
  let confidenceScore := sourceReliability in
  {| NormalizedEventInput.eventType := EventType.ECONOMIC_INDICATOR;
     NormalizedEventInput.summary := summary;
     NormalizedEventInput.region := EconomicIndicator.region indicator;
     NormalizedEventInput.timestamp := EconomicIndicator.timestamp indicator;
     NormalizedEventInput.affectedEntities := affectedEntities;
     NormalizedEventInput.source := EconomicIndicator.source indicator;
     NormalizedEventInput.sourceId := None;
     NormalizedEventInput.confidenceScore := confidenceScore |}.

(** [validateNormalizedEvent(event)] *)
Definition validateNormalizedEvent (event : NormalizedEventInput.t)
    : ValidationResult.t :=
  let errors : list string := [] in
  let errors :=
    if Nat.ltb (String.length (NormalizedEventInput.summary event)) 10
    then (errors ++ ["Summary is too short or missing"])%list
    else errors in
  let errors :=
    if Nat.ltb (String.length (NormalizedEventInput.region event)) 2
    then (errors ++ ["Region is invalid"])%list
    else errors in
  let errors :=
    match NormalizedEventInput.timestamp event with
    | None => (errors ++ ["Timestamp is invalid"])%list
    | Some _ => errors
    end in
  let errors :=
    if Nat.eqb (List.length (NormalizedEventInput.affectedEntities event)) 0
    then (errors ++ ["No affected entities specified"])%list
    else errors in
  let errors :=
    if Num.ltb (NormalizedEventInput.confidenceScore event) 0
       || Num.gtb (NormalizedEventInput.confidenceScore event) 1
    then (errors ++ ["Confidence score must be between 0 and 1"])%list
    else errors in
  {| ValidationResult.valid := Nat.eqb (List.length errors) 0;
     ValidationResult.errors := errors |}.

(** * Vocabulary of the specification *)

(** Sum and product of a list of numbers, as the specification writes them. *)
Definition sum (xs : list Q) : Q := fold_right Qplus 0 xs.
Definition product (xs : list Q) : Q := fold_right Qmult 1 xs.

Definition increaseTokens : list string := ["increase"; "rise"; "growth"; "up"].
Definition decreaseTokens : list string := ["decrease"; "decline"; "fall"; "down"].

(** Some token of the class occurs in the string. *)
Definition mentions (tokens : list string) (s : string) : Prop :=
  exists t, In t tokens /\ Str.Substring t s.

(** The sensitivity the business has configured for a factor, [0.5] when the
    sensitivity map has no entry for it: [business.sensitivity(factor)] as
    the specification defines it. *)
Definition configuredSensitivity
    (businessModel : BusinessModel.t) (factor : SensitivityFactor.t) : Q :=
  match
    find (fun s => SensitivityFactor.t_beq (SensitivityConfig.factor s) factor)
      (BusinessModel.sensitivities businessModel)
  with
  | Some s => SensitivityConfig.sensitivity s
  | None => 0.5
  end.

(** [rawMagnitude] as the specification writes it: the summed weights of the
    affected drivers, times the configured sensitivity, times the event
    confidence. *)
Definition statedRawMagnitude
    (event : Event.t) (businessModel : BusinessModel.t) (rule : CausalRule.t) : Q :=
  sum (map (BusinessModel.getDriverWeight businessModel)
         (CausalRule.affectedDrivers rule))
  * configuredSensitivity businessModel (CausalRule.sensitivityFactor rule)
  * Event.confidenceScore event.

(** The product [calculateImpactMagnitude] compares with the thresholds: the
    same, with the sensitivity [getSensitivity] returns. *)
Definition rawMagnitude
    (event : Event.t) (businessModel : BusinessModel.t) (rule : CausalRule.t) : Q :=
  sum (map (BusinessModel.getDriverWeight businessModel)
         (CausalRule.affectedDrivers rule))
  * BusinessModel.getSensitivity businessModel (CausalRule.sensitivityFactor rule)
  * Event.confidenceScore event.

(** The event's region is "GLOBAL" or one of the business's operating or
    customer regions. *)
Definition geographicallyRelevant (event : Event.t) (businessModel : BusinessModel.t) : Prop :=
  Event.region event = "GLOBAL"
  \/ In (Event.region event)
        (BusinessModel.operatingRegions businessModel
         ++ BusinessModel.customerRegions businessModel)%list.

Definition geographyReason (event : Event.t) (businessModel : BusinessModel.t) : string :=
  "Event in " ++ Event.region event ++ " does not affect business operating in "
  ++ Str.join ", " (BusinessModel.getAllRelevantRegions businessModel).

Definition ageReason (days : Z) : string :=
  "Event is " ++ Num.showZ days ++ " days old and likely no longer relevant".

Definition confidenceReason : string :=
  "Event has very low confidence score and may not be reliable".

Definition relevantReason : string :=
  "Event is geographically relevant, recent, and from reliable source".

Definition ruleQualityFactor (eventType : EventType.t) : Q :=
  if isHighConfidenceRule eventType then 1 else 0.9.

Definition assumptionPenalty (count : nat) : Q := 0.95 ^ Z.of_nat count.

Definition sensitivityBonus (sensitivity : Q) : Q :=
  if Qlt_le_dec 0.7 sensitivity then 1.1 else 1.

(** [x] clamped into [0,1]. *)
Definition clamp01 (x : Q) : Q := Qmax 0 (Qmin 1 x).

(** Mapping every event in turn, each call reading the clock after the
    previous one: the mappings the loop of [batchMapEventsToBusiness] sees. *)
Fixpoint mapEach (events : list Event.t) (businessModel : BusinessModel.t)
    : Clock.Clocked (list (option CausalMapping.t)) :=
  match events with
  | [] => Clock.ret []
  | event :: rest =>
      mapping <- mapEventToBusiness event businessModel ;;
      mappings <- mapEach rest businessModel ;;
      Clock.ret (mapping :: mappings)
  end.

(** The mappings that are present and flagged relevant, in order. *)
Definition relevantOnly (mappings : list (option CausalMapping.t)) : list CausalMapping.t :=
  flat_map
    (fun mapping =>
       match mapping with
       | Some m => if CausalMapping.isRelevant m then [m] else []
       | None => []
       end)
    mappings.

(** The priority of a mapping: [confidence * magnitudeWeight]. *)
Definition score (m : CausalMapping.t) : Q :=
  CausalMapping.confidenceScore m
  * getMagnitudeWeight (CausalMapping.impactMagnitude m).

(** [a] may stand before [b] in a descending ranking. *)
Definition ranksBefore (a b : CausalMapping.t) : Prop := score b <= score a.
Definition ranksStrictlyBefore (a b : CausalMapping.t) : Prop := score b < score a.

(** ** Vocabulary for the further properties *)

(** What a rule, its authored path and its assumptions contribute to the
    confidence of a mapping, before the event confidence and the bonus. *)
Definition chainFactor (eventType : EventType.t) : Q :=
  product
    (map CausalStep.confidence
       (CausalRule.getCausalPath (getCausalRule eventType) "" ""))
  * ruleQualityFactor eventType
  * assumptionPenalty (List.length (getAssumptionsForEventType eventType)).

(** The region list is empty or is exactly ["US"]. *)
Definition domesticOnly (regions : list string) : bool :=
  match regions with
  | [] => true
  | [r] => String.eqb r "US"
  | _ => false
  end.

Definition fxWarning : string :=
  "FX impact may be minimal: business operates only domestically.".

Definition regionalWarning : string :=
  "Regional event may not affect business: no presence in affected region.".

(** A sensitivity outside [0,1]; a region code shorter than 2 or longer
    than 5 characters. *)
Definition badSensitivity (s : SensitivityConfig.t) : bool :=
  Num.ltb (SensitivityConfig.sensitivity s) 0
  || Num.gtb (SensitivityConfig.sensitivity s) 1.

Definition badRegion (r : string) : bool :=
  Nat.ltb (String.length r) 2 || Nat.ltb 5 (String.length r).

(** The messages [validate] emits for them. *)
Definition sensitivityError (s : SensitivityConfig.t) : string :=
  "Sensitivity for "
  ++ BusinessModelValidation.factorName (SensitivityConfig.factor s)
  ++ " must be between 0 and 1".

Definition regionError (r : string) : string := "Invalid region code: " ++ r.

(** Every character of the string is an ASCII character, so that the string
    has one character per UTF-16 code unit. *)
Fixpoint asciiOnly (s : string) : bool :=
  match s with
  | EmptyString => true
  | String c rest => (nat_of_ascii c <? 128)%nat && asciiOnly rest
  end.

(** The weights of a list of drivers add up to within 0.01 of 1. *)
Definition sumsToOne (drivers : list WeightedDriver.t) : Prop :=
  Qabs (sum (map WeightedDriver.weight drivers) - 1) <= 0.01.

(** The driver is named by no entry of the business's revenue and cost
    drivers. *)
Definition unconfigured (businessModel : BusinessModel.t) (d : BusinessDriverType.t) : Prop :=
  forall w,
    In w (BusinessModel.revenueDrivers businessModel
          ++ BusinessModel.costDrivers businessModel)%list ->
    WeightedDriver.driver w <> d.

(** The confidence of a step lies in [0,1]. *)
Definition unitConfidence (s : CausalStep.t) : Prop :=
  0 <= CausalStep.confidence s /\ CausalStep.confidence s <= 1.

(** * Concrete inputs *)

(** A business whose sensitivity to labor is configured as [0]. *)
Definition laborInsensitive : BusinessModel.t :=
  {| BusinessModel.id := "bm-1";
     BusinessModel.userId := "user-1";
     BusinessModel.name := "Fully automated";
     BusinessModel.industry := Industry.SAAS;
     BusinessModel.revenueDrivers :=
       [{| WeightedDriver.driver := BusinessDriverType.SUBSCRIPTION_REVENUE;
           WeightedDriver.weight := 1 |}];
     BusinessModel.costDrivers :=
       [{| WeightedDriver.driver := BusinessDriverType.INFRASTRUCTURE_COSTS;
           WeightedDriver.weight := 1 |}];
     BusinessModel.sensitivities :=
       [{| SensitivityConfig.factor := SensitivityFactor.LABOR;
           SensitivityConfig.sensitivity := 0 |}];
     BusinessModel.operatingRegions := ["US"];
     BusinessModel.customerRegions := ["US"];
     BusinessModel.active := true;
     BusinessModel.createdAt := 0;
     BusinessModel.updatedAt := 0 |}.

(** A labor-market report with source confidence 0.8. *)
Definition wageReport : Event.t :=
  {| Event.id := "event-1";
     Event.eventType := EventType.LABOR_MARKET;
     Event.summary := "Tech sector wages increased 8% year over year";
     Event.region := "US";
     Event.timestamp := 0;
     Event.affectedEntities := [AffectedEntity.TECH_COMPANIES; AffectedEntity.LABOR_FORCE];
     Event.source := "RSS";
     Event.sourceId := None;
     Event.confidenceScore := 0.8;
     Event.createdAt := 0 |}.

(** A domestic business with no sensitivities configured. *)
Definition domesticBusiness : BusinessModel.t :=
  {| BusinessModel.id := "bm-2";
     BusinessModel.userId := "user-1";
     BusinessModel.name := "Domestic SaaS";
     BusinessModel.industry := Industry.SAAS;
     BusinessModel.revenueDrivers :=
       [{| WeightedDriver.driver := BusinessDriverType.SUBSCRIPTION_REVENUE;
           WeightedDriver.weight := 1 |}];
     BusinessModel.costDrivers :=
       [{| WeightedDriver.driver := BusinessDriverType.LABOR_COSTS;
           WeightedDriver.weight := 0.1 |};
        {| WeightedDriver.driver := BusinessDriverType.INFRASTRUCTURE_COSTS;
           WeightedDriver.weight := 0.9 |}];
     BusinessModel.sensitivities := [];
     BusinessModel.operatingRegions := ["US"];
     BusinessModel.customerRegions := ["US"];
     BusinessModel.active := true;
     BusinessModel.createdAt := 0;
     BusinessModel.updatedAt := 0 |}.

(** A report whose summary carries tokens of both classes. *)
Definition mixedSignals : Event.t :=
  {| Event.id := "event-2";
     Event.eventType := EventType.GEOPOLITICAL;
     Event.summary := "Shipping costs RISE as regional demand falls";
     Event.region := "GLOBAL";
     Event.timestamp := 0;
     Event.affectedEntities := [AffectedEntity.ALL];
     Event.source := "API";
     Event.sourceId := Some "feed-7";
     Event.confidenceScore := 0.9;
     Event.createdAt := 0 |}.

(** A fully verified labor-market report. *)
Definition verifiedWageReport : Event.t :=
  {| Event.id := "event-3";
     Event.eventType := EventType.LABOR_MARKET;
     Event.summary := "Minimum wage unchanged for the coming year";
     Event.region := "US";
     Event.timestamp := 0;
     Event.affectedEntities := [AffectedEntity.LABOR_FORCE];
     Event.source := "MANUAL";
     Event.sourceId := None;
     Event.confidenceScore := 1;
     Event.createdAt := 0 |}.

(** A wall clock that shows [start] at the first reading and advances one
    millisecond per reading. *)
Definition wallClock (start : Z) (n : nat) : Z := (start + Z.of_nat n)%Z.

(** The wall clock started exactly 90 days after the epoch. *)
Definition tickingClock : Clock.readings := wallClock (90 * Event.msPerDay).

(** An exchange-rate report from a fully reliable source. *)
Definition currencyReport : Event.t :=
  {| Event.id := "event-4";
     Event.eventType := EventType.CURRENCY;
     Event.summary := "Euro weakens against the dollar";
     Event.region := "GLOBAL";
     Event.timestamp := 0;
     Event.affectedEntities := [AffectedEntity.FINANCIAL_SECTOR];
     Event.source := "API";
     Event.sourceId := None;
     Event.confidenceScore := 1;
     Event.createdAt := 0 |}.

(** A syndicated news item scored by the ingestion heuristic: reliability
    0.7, no specific region, a short summary. *)
Definition syndicatedItem : Event.t :=
  {| Event.id := "event-5";
     Event.eventType := EventType.MARKET_SHIFT;
     Event.summary := "Cloud vendors consolidate";
     Event.region := "GLOBAL";
     Event.timestamp := 0;
     Event.affectedEntities := [AffectedEntity.TECH_COMPANIES];
     Event.source := "RSS";
     Event.sourceId := Some "feed-2";
     Event.confidenceScore := 0.504;
     Event.createdAt := 0 |}.

(** A business with operations abroad and a high sensitivity to exchange
    rates. *)
Definition globalBusiness : BusinessModel.t :=
  {| BusinessModel.id := "bm-3";
     BusinessModel.userId := "user-2";
     BusinessModel.name := "Global SaaS";
     BusinessModel.industry := Industry.SAAS;
     BusinessModel.revenueDrivers :=
       [{| WeightedDriver.driver := BusinessDriverType.SUBSCRIPTION_REVENUE;
           WeightedDriver.weight := 1 |}];
     BusinessModel.costDrivers :=
       [{| WeightedDriver.driver := BusinessDriverType.LABOR_COSTS;
           WeightedDriver.weight := 0.5 |};
        {| WeightedDriver.driver := BusinessDriverType.INFRASTRUCTURE_COSTS;
           WeightedDriver.weight := 0.5 |}];
     BusinessModel.sensitivities :=
       [{| SensitivityConfig.factor := SensitivityFactor.FX;
           SensitivityConfig.sensitivity := 0.8 |}];
     BusinessModel.operatingRegions := ["US"; "DE"];
     BusinessModel.customerRegions := ["US"; "DE"; "JP"];
     BusinessModel.active := true;
     BusinessModel.createdAt := 0;
     BusinessModel.updatedAt := 0 |}.

(** The insight stored for [currencyReport] and [globalBusiness]. *)
Definition currencyInsight : InsightRecord.t :=
  {| InsightRecord.id := "insight-1";
     InsightRecord.businessModelId := "bm-3";
     InsightRecord.eventId := "event-4";
     InsightRecord.summary := "Euro weakens against the dollar... significantly may affect subscription revenue, labor costs, infrastructure costs";
     InsightRecord.impactDirection := ImpactDirection.NEUTRAL;
     InsightRecord.impactMagnitude := ImpactMagnitude.HIGH;
     InsightRecord.timeHorizon := TimeHorizon.SHORT;
     InsightRecord.affectedDrivers :=
       [BusinessDriverType.SUBSCRIPTION_REVENUE; BusinessDriverType.LABOR_COSTS;
        BusinessDriverType.INFRASTRUCTURE_COSTS];
     InsightRecord.causalPath := [];
     InsightRecord.assumptions := [];
     InsightRecord.confidenceScore := 0.7214810625;
     InsightRecord.confidenceRationale := "";
     InsightRecord.llmExplanation := None;
     InsightRecord.generatedAt := 0;
     InsightRecord.dismissed := false;
     InsightRecord.userNotes := None |}.

(** A quarterly growth figure that fell. *)
Definition growthFigure : EconomicIndicator.t :=
  {| EconomicIndicator.indicator := "GDP Growth Rate";
     EconomicIndicator.value := 2.1;
     EconomicIndicator.previousValue := Some 2.4;
     EconomicIndicator.unit := "percent";
     EconomicIndicator.region := "US";
     EconomicIndicator.timestamp := Some 0%Z;
     EconomicIndicator.source := "Mock Data (use FRED in production)" |}.

(** A rendering of numbers with one decimal. *)
Definition showOneDecimal (x : Q) : string := Fmt.toFixed x 1.

(** The event stored for [growthFigure]. *)
Definition growthEvent : Event.t :=
  {| Event.id := "event-6";
     Event.eventType := EventType.ECONOMIC_INDICATOR;
     Event.summary := economicIndicatorToSummary showOneDecimal growthFigure;
     Event.region := "US";
     Event.timestamp := 0;
     Event.affectedEntities := [AffectedEntity.ALL];
     Event.source := "Mock Data (use FRED in production)";
     Event.sourceId := None;
     Event.confidenceScore := 0.9;
     Event.createdAt := 0 |}.

(** A business that spends most of its costs on labor, under fixed
    contracts: its sensitivity to the labor market is configured as [0]. *)
Definition contractedLabor : BusinessModel.t :=
  {| BusinessModel.id := "bm-4";
     BusinessModel.userId := "user-3";
     BusinessModel.name := "Fixed-contract studio";
     BusinessModel.industry := Industry.SAAS;
     BusinessModel.revenueDrivers :=
       [{| WeightedDriver.driver := BusinessDriverType.SUBSCRIPTION_REVENUE;
           WeightedDriver.weight := 1 |}];
     BusinessModel.costDrivers :=
       [{| WeightedDriver.driver := BusinessDriverType.LABOR_COSTS;
           WeightedDriver.weight := 0.6 |};
        {| WeightedDriver.driver := BusinessDriverType.INFRASTRUCTURE_COSTS;
           WeightedDriver.weight := 0.4 |}];
     BusinessModel.sensitivities :=
       [{| SensitivityConfig.factor := SensitivityFactor.LABOR;
           SensitivityConfig.sensitivity := 0 |}];
     BusinessModel.operatingRegions := ["US"];
     BusinessModel.customerRegions := ["US"];
     BusinessModel.active := true;
     BusinessModel.createdAt := 0;
     BusinessModel.updatedAt := 0 |}.

(** A ruling published on 14 November 2023, 22:13:20 UTC. *)
Definition privacyRuling : Event.t :=
  {| Event.id := "event-7";
     Event.eventType := EventType.REGULATION_CHANGE;
     Event.summary := "Stricter data privacy rules adopted for software companies";
     Event.region := "DE";
     Event.timestamp := 1700000000000;
     Event.affectedEntities := [AffectedEntity.TECH_COMPANIES];
     Event.source := "RSS";
     Event.sourceId := Some "feed-3";
     Event.confidenceScore := 0.8;
     Event.createdAt := 1700000000000 |}.

(** A step that is as likely as not, and a firmer one. *)
Definition shakyStep : CausalStep.t :=
  {| CausalStep.step := 1;
     CausalStep.description := "Demand softens";
     CausalStep.mechanism := "Budgets are cut.";
     CausalStep.confidence := 0.6 |}.

Definition firmStep : CausalStep.t :=
  {| CausalStep.step := 2;
     CausalStep.description := "Renewals slip";
     CausalStep.mechanism := "Contracts are postponed.";
     CausalStep.confidence := 0.9 |}.

(** * Properties *)

(** ** Facts about the JavaScript primitives *)

Module NumFacts.
Import Num.

Lemma ltb_lt x y : ltb x y = true <-> x < y.
Proof.
  unfold ltb. rewrite negb_true_iff.
  split; intro H.
  - apply Qnot_le_lt. intro L. apply Qle_bool_iff in L. congruence.
  - destruct (Qle_bool y x) eqn:E; [|reflexivity].
    apply Qle_bool_iff in E. exfalso. exact (Qlt_not_le _ _ H E).
Qed.

Lemma ltb_ge x y : ltb x y = false <-> y <= x.
Proof.
  unfold ltb. rewrite negb_false_iff. apply Qle_bool_iff.
Qed.

Lemma gtb_gt x y : gtb x y = true <-> y < x.
Proof. apply ltb_lt. Qed.

Lemma gtb_le x y : gtb x y = false <-> x <= y.
Proof. apply ltb_ge. Qed.

Lemma leb_le x y : leb x y = true <-> x <= y.
Proof. apply Qle_bool_iff. Qed.

Lemma leb_gt x y : leb x y = false <-> y < x.
Proof.
  unfold leb. split; intro H.
  - apply Qnot_le_lt. intro L. apply Qle_bool_iff in L. congruence.
  - destruct (Qle_bool x y) eqn:E; [|reflexivity].
    apply Qle_bool_iff in E. exfalso. exact (Qlt_not_le _ _ H E).
Qed.

Lemma geb_ge x y : geb x y = true <-> y <= x.
Proof. apply Qle_bool_iff. Qed.

End NumFacts.

Module StrFacts.
Import Str.

Lemma startsWith_app s t : startsWith s t = true <-> exists post, s = t ++ post.
Proof.
  revert s. induction t as [|c t IH]; intros s.
  - split; [intros _; exists s; reflexivity | destruct s; reflexivity].
  - destruct s as [|d s]; cbn [startsWith].
    + split; [discriminate | intros [post H]; discriminate].
    + rewrite andb_true_iff, Ascii.eqb_eq, IH. split.
      * intros [-> [post ->]]. exists post. reflexivity.
      * intros [post H]. injection H as -> ->. split; [reflexivity | eauto].
Qed.

Lemma includes_Substring s t : includes s t = true <-> Substring t s.
Proof.
  unfold Substring. induction s as [|d s IH].
  - cbn [includes]. rewrite orb_false_r, startsWith_app. split.
    + intros [post H]. exists "", post. exact H.
    + intros [pre [post H]]. destruct pre; [eauto | discriminate].
  - cbn [includes]. rewrite orb_true_iff, startsWith_app, IH. split.
    + intros [[post H] | [pre [post H]]].
      * exists "", post. exact H.
      * exists (String d pre), post. simpl. now rewrite H.
    + intros [pre [post H]]. destruct pre as [|e pre].
      * left. exists post. exact H.
      * right. simpl in H. injection H as _ H. eauto.
Qed.

End StrFacts.

Module ArrFacts.
Import Arr.

Lemma includes_In xs x : includes xs x = true <-> In x xs.
Proof.
  unfold includes. rewrite existsb_exists. split.
  - intros [y [Hy E]]. apply String.eqb_eq in E. now subst.
  - intros H. exists x. split; [exact H | apply String.eqb_refl].
Qed.

Lemma addAll_In xs : forall seen x, In x (addAll seen xs) <-> In x seen \/ In x xs.
Proof.
  induction xs as [|y xs IH]; intros seen x; simpl.
  - tauto.
  - rewrite IH. destruct (includes seen y) eqn:E.
    + apply includes_In in E. split; [tauto|].
      intros [H | [<- | H]]; tauto.
    + rewrite in_app_iff. simpl. tauto.
Qed.

Lemma uniq_In xs x : In x (uniq xs) <-> In x xs.
Proof. unfold uniq. rewrite addAll_In. simpl. tauto. Qed.

Lemma insertBy_perm {A} (cmp : A -> A -> Q) x l : Permutation (x :: l) (insertBy cmp x l).
Proof.
  induction l as [|y l IH]; simpl.
  - apply Permutation_refl.
  - destruct (Num.gtb (cmp x y) 0).
    + eapply perm_trans; [apply perm_swap|]. now apply perm_skip.
    + apply Permutation_refl.
Qed.

Lemma sortBy_perm {A} (cmp : A -> A -> Q) l : Permutation l (sortBy cmp l).
Proof.
  induction l as [|x l IH]; simpl.
  - apply perm_nil.
  - eapply perm_trans; [apply perm_skip, IH | apply insertBy_perm].
Qed.

End ArrFacts.

(** ** Arithmetic helpers *)

(** Closed comparisons between rational constants. *)
Ltac qconst := unfold Qle, Qlt, Qeq; simpl; lia.

Lemma fold_left_sum {A : Type} (f : A -> Q) (l : list A) :
  forall a, fold_left (fun acc x => acc + f x) l a == a + sum (map f l).
Proof.
  induction l as [|x l IH]; intros a; simpl.
  - ring.
  - rewrite IH. ring.
Qed.

Lemma fold_left_product {A : Type} (f : A -> Q) (l : list A) :
  forall a, fold_left (fun acc x => acc * f x) l a == a * product (map f l).
Proof.
  induction l as [|x l IH]; intros a; simpl.
  - ring.
  - rewrite IH. ring.
Qed.

(** Ages in days against counts of milliseconds. *)
Lemma floor_days (d : Z) :
  Qfloor (inject_Z d / inject_Z (1000 * 60 * 60 * 24)) = (d / 86400000)%Z.
Proof.
  unfold Qfloor, Qdiv, Qmult, Qinv, inject_Z. simpl. now rewrite Z.mul_1_r.
Qed.

Lemma days_le (d k : Z) :
  inject_Z d / inject_Z (1000 * 60 * 60 * 24) <= inject_Z k
  <-> (d <= k * 86400000)%Z.
Proof.
  unfold Qle, Qdiv, Qmult, Qinv, inject_Z. simpl. lia.
Qed.

Lemma floor_gt (d k : Z) : (k < d / 86400000 <-> (k + 1) * 86400000 <= d)%Z.
Proof.
  split; intros H.
  - destruct (Z_lt_le_dec d ((k + 1) * 86400000)) as [L|L]; [|exact L].
    assert (d / 86400000 < k + 1)%Z by (apply Z.div_lt_upper_bound; lia). lia.
  - assert (k + 1 <= d / 86400000)%Z by (apply Z.div_le_lower_bound; lia). lia.
Qed.

(** The recency test of [isRecent], in milliseconds elapsed since the
    event's timestamp. *)
Lemma recent_by_elapsed (now : Z) (event : Event.t) (days : Z) :
  Num.leb (Event.ageInDays now event) (inject_Z days) = true
  <-> (now - Event.timestamp event <= days * 86400000)%Z.
Proof.
  rewrite NumFacts.leb_le. unfold Event.ageInDays, Event.msPerDay.
  apply days_le.
Qed.

(** ** Sensitivity lookup (C8) *)

(** A factor is configured when some entry of the sensitivity map names it;
    the first such entry is the one [find] returns. *)
Lemma getSensitivity_unset this factor :
  (forall s, In s (BusinessModel.sensitivities this) ->
             SensitivityConfig.factor s <> factor) ->
  BusinessModel.getSensitivity this factor = 0.5.
Proof.
  intros H. unfold BusinessModel.getSensitivity.
  destruct (find _ _) as [s|] eqn:E; [|reflexivity].
  apply find_some in E. destruct E as [Hin Heq].
  apply SensitivityFactor.internal_t_dec_bl in Heq.
  exfalso. exact (H s Hin Heq).
Qed.

Lemma getSensitivity_nonzero this factor s :
  find (fun c => SensitivityFactor.t_beq (SensitivityConfig.factor c) factor)
    (BusinessModel.sensitivities this) = Some s ->
  ~ SensitivityConfig.sensitivity s == 0 ->
  BusinessModel.getSensitivity this factor = SensitivityConfig.sensitivity s.
Proof.
  intros E Hnz. unfold BusinessModel.getSensitivity, Num.orDefault. rewrite E.
  destruct (Qeq_bool _ 0) eqn:Z; [|reflexivity].
  apply Qeq_bool_iff in Z. contradiction.
Qed.

Lemma getSensitivity_zero this factor s :
  find (fun c => SensitivityFactor.t_beq (SensitivityConfig.factor c) factor)
    (BusinessModel.sensitivities this) = Some s ->
  SensitivityConfig.sensitivity s == 0 ->
  BusinessModel.getSensitivity this factor = 0.5.
Proof.
  intros E Hz. unfold BusinessModel.getSensitivity, Num.orDefault. rewrite E.
  apply Qeq_bool_iff in Hz. now rewrite Hz.
Qed.

(** C8. [getSensitivity] does not return a configured sensitivity of [0]:
    on a business model whose sensitivity map holds [LABOR -> 0] the lookup
    finds the entry, and [found?.sensitivity || 0.5] then yields the default
    [0.5], not the configured [0]. *)
Theorem getSensitivity_configured_zero :
  find (fun c => SensitivityFactor.t_beq (SensitivityConfig.factor c)
                   SensitivityFactor.LABOR)
    (BusinessModel.sensitivities laborInsensitive)
  = Some {| SensitivityConfig.factor := SensitivityFactor.LABOR;
            SensitivityConfig.sensitivity := 0 |}
  /\ BusinessModel.getSensitivity laborInsensitive SensitivityFactor.LABOR == 0.5
  /\ ~ BusinessModel.getSensitivity laborInsensitive SensitivityFactor.LABOR == 0.
Proof.
  split; [reflexivity|]. split; [reflexivity|].
  vm_compute. discriminate.
Qed.

(** ** The rule catalog (C10) *)

Lemma EventType_all_complete (eventType : EventType.t) : In eventType EventType.all.
Proof. destruct eventType; simpl; tauto. Qed.

(** C10. There are nine event categories, and for each the catalog holds one
    rule, filed under that category, whose [getCausalPath] returns for any
    summary and any business context exactly three steps numbered 1, 2, 3;
    every step confidence lies in (0,1], indeed in [0.45, 0.95]; the first
    step's mechanism is the event summary verbatim; and the confidences do
    not depend on the texts supplied. *)
Theorem causal_rules_catalog (eventType : EventType.t) (eventSummary context : string) :
  let rule := getCausalRule eventType in
  let path := CausalRule.getCausalPath rule eventSummary context in
  List.length EventType.all = 9%nat
  /\ NoDup EventType.all
  /\ In eventType EventType.all
  /\ CausalRule.eventType rule = eventType
  /\ List.length path = 3%nat
  /\ map CausalStep.step path = [1; 2; 3]%Z
  /\ Forall (fun s => 0 < CausalStep.confidence s /\ CausalStep.confidence s <= 1) path
  /\ Forall (fun s => 0.45 <= CausalStep.confidence s /\ CausalStep.confidence s <= 0.95) path
  /\ option_map CausalStep.mechanism (hd_error path) = Some eventSummary
  /\ (forall eventSummary' context',
        map CausalStep.confidence (CausalRule.getCausalPath rule eventSummary' context')
        = map CausalStep.confidence path).
Proof.
  intros rule path.
  split; [reflexivity|].
  split.
  { unfold EventType.all.
    repeat (constructor; [simpl; intuition discriminate|]). constructor. }
  split; [apply EventType_all_complete|].
  subst rule path.
  destruct eventType; cbn;
    (split; [reflexivity|]); (split; [reflexivity|]); (split; [reflexivity|]);
    (split; [repeat constructor; qconst|]);
    (split; [repeat constructor; qconst|]);
    (split; [reflexivity|]); intros; reflexivity.
Qed.

(** ** Impact direction (C6) *)

Lemma mentions_existsb tokens s :
  existsb (Str.includes s) tokens = true <-> mentions tokens s.
Proof.
  unfold mentions. rewrite existsb_exists.
  split; intros [t [Hin H]]; exists t; (split; [exact Hin|]);
    now apply StrFacts.includes_Substring.
Qed.

Lemma determineImpactDirection_existsb event rule :
  determineImpactDirection event rule =
  let s := Str.toLowerCase (Event.summary event) in
  if existsb (Str.includes s) increaseTokens then ImpactDirection.INCREASE
  else if existsb (Str.includes s) decreaseTokens then ImpactDirection.DECREASE
  else CausalRule.defaultDirection rule.
Proof.
  unfold determineImpactDirection, increaseTokens, decreaseTokens.
  cbn [existsb]. now rewrite !orb_false_r, !orb_assoc.
Qed.

(** C6. With [s] the lower-cased summary: if [s] contains one of "increase",
    "rise", "growth", "up" the direction is INCREASE (whatever else it
    contains, so a summary with tokens of both classes yields INCREASE);
    otherwise, if it contains one of "decrease", "decline", "fall", "down",
    the direction is DECREASE; otherwise it is the rule's default. *)
Theorem impact_direction_by_keyword (event : Event.t) (rule : CausalRule.t) :
  let s := Str.toLowerCase (Event.summary event) in
  (mentions increaseTokens s ->
   determineImpactDirection event rule = ImpactDirection.INCREASE)
  /\ (~ mentions increaseTokens s -> mentions decreaseTokens s ->
      determineImpactDirection event rule = ImpactDirection.DECREASE)
  /\ (~ mentions increaseTokens s -> ~ mentions decreaseTokens s ->
      determineImpactDirection event rule = CausalRule.defaultDirection rule).
Proof.
  intros s. rewrite determineImpactDirection_existsb. cbv zeta. fold s.
  destruct (existsb (Str.includes s) increaseTokens) eqn:I;
  destruct (existsb (Str.includes s) decreaseTokens) eqn:D;
  repeat split; intros;
  repeat match goal with
  | H : existsb _ _ = true |- _ => apply mentions_existsb in H
  | H : existsb _ ?ts = false, M : mentions ?ts _ |- _ =>
      apply mentions_existsb in M; congruence
  end; try reflexivity; try contradiction.
Qed.

(** ** Impact magnitude (C2) *)

Lemma calculateImpactMagnitude_raw event businessModel rule :
  calculateImpactMagnitude event businessModel
    (CausalRule.affectedDrivers rule) (CausalRule.sensitivityFactor rule)
  = let raw := rawMagnitude event businessModel rule in
    if Num.gtb raw 0.05 then ImpactMagnitude.HIGH
    else if Num.gtb raw 0.02 then ImpactMagnitude.MEDIUM
    else ImpactMagnitude.LOW.
Proof.
  unfold calculateImpactMagnitude, rawMagnitude. cbv zeta.
  set (w := fold_left _ _ _).
  set (s := sum _).
  assert (E : w == s).
  { subst w s. rewrite (fold_left_sum (BusinessModel.getDriverWeight businessModel)). ring. }
  set (k := BusinessModel.getSensitivity _ _).
  set (c := Event.confidenceScore _).
  assert (E' : w * k * c == s * k * c) by (rewrite E; reflexivity).
  assert (G : forall t, Num.gtb (w * k * c) t = Num.gtb (s * k * c) t).
  { intros t. destruct (Num.gtb (s * k * c) t) eqn:B.
    - apply NumFacts.gtb_gt. apply NumFacts.gtb_gt in B. now rewrite E'.
    - apply NumFacts.gtb_le. apply NumFacts.gtb_le in B. now rewrite E'. }
  now rewrite !G.
Qed.

(** C2. [calculateImpactMagnitude] does not bucket the raw magnitude the
    specification defines when the rule's factor is configured as [0].  For
    the labor-market report and a business with labor costs of 0.6 whose
    sensitivity map holds [LABOR -> 0], the lookup finds the configured [0],
    so the stated raw magnitude is [0.6 * 0 * 0.8 = 0], which is not above
    0.02 and belongs in the LOW bucket; the code multiplies by the [0.5]
    that [getSensitivity] returns instead, compares a product above 0.05,
    and answers HIGH. *)
Theorem magnitude_ignores_configured_zero :
  let rule := getCausalRule (Event.eventType wageReport) in
  find (fun c => SensitivityFactor.t_beq (SensitivityConfig.factor c)
                   (CausalRule.sensitivityFactor rule))
    (BusinessModel.sensitivities contractedLabor)
  = Some {| SensitivityConfig.factor := SensitivityFactor.LABOR;
            SensitivityConfig.sensitivity := 0 |}
  /\ sum (map (BusinessModel.getDriverWeight contractedLabor)
            (CausalRule.affectedDrivers rule)) == 0.6
  /\ statedRawMagnitude wageReport contractedLabor rule == 0
  /\ ~ 0.02 < statedRawMagnitude wageReport contractedLabor rule
  /\ 0.05 < rawMagnitude wageReport contractedLabor rule
  /\ calculateImpactMagnitude wageReport contractedLabor
       (CausalRule.affectedDrivers rule) (CausalRule.sensitivityFactor rule)
     = ImpactMagnitude.HIGH.
Proof.
  cbv zeta.
  split; [reflexivity|].
  split; [vm_compute; reflexivity|].
  split; [vm_compute; reflexivity|].
  split; [vm_compute; discriminate|].
  split; [vm_compute; reflexivity|].
  rewrite calculateImpactMagnitude_raw. cbv zeta.
  assert (H : Num.gtb (rawMagnitude wageReport contractedLabor
                         (getCausalRule (Event.eventType wageReport))) 0.05 = true)
    by (apply NumFacts.gtb_gt; vm_compute; reflexivity).
  now rewrite H.
Qed.

(** ** The relevance filter (C3) *)

Lemma isRelevantToRegion_iff event businessModel :
  Event.isRelevantToRegion event (BusinessModel.getAllRelevantRegions businessModel) = true
  <-> geographicallyRelevant event businessModel.
Proof.
  unfold Event.isRelevantToRegion, BusinessModel.getAllRelevantRegions,
         geographicallyRelevant.
  rewrite orb_true_iff, ArrFacts.includes_In, ArrFacts.uniq_In, String.eqb_eq. tauto.
Qed.

Lemma isRelevantToRegion_false event businessModel :
  Event.isRelevantToRegion event (BusinessModel.getAllRelevantRegions businessModel) = false
  <-> ~ geographicallyRelevant event businessModel.
Proof.
  rewrite <- isRelevantToRegion_iff. destruct (Event.isRelevantToRegion _ _).
  - split; [discriminate | intros H; now elim H].
  - split; [intros _; discriminate | reflexivity].
Qed.

(** The four outcomes of [checkRelevance], by the first check that fails.
    [clk n] is the reading [isRecent] takes, [clk (S n)] the one
    [getAgeInDays] takes afterwards. *)
Lemma checkRelevance_run clk n event businessModel :
  checkRelevance event businessModel clk n =
  if negb (Event.isRelevantToRegion event
             (BusinessModel.getAllRelevantRegions businessModel))
  then ({| Relevance.isRelevant := false;
           Relevance.reason := geographyReason event businessModel |}, n)
  else if negb (Num.leb (Event.ageInDays (clk n) event) 90)
  then ({| Relevance.isRelevant := false;
           Relevance.reason := ageReason (Qfloor (Event.ageInDays (clk (S n)) event)) |},
        S (S n))
  else if Num.ltb (Event.confidenceScore event) 0.3
  then ({| Relevance.isRelevant := false;
           Relevance.reason := confidenceReason |}, S n)
  else ({| Relevance.isRelevant := true;
           Relevance.reason := relevantReason |}, S n).
Proof.
  unfold checkRelevance.
  destruct (negb (Event.isRelevantToRegion _ _)); [reflexivity|].
  cbv [Clock.bind Clock.ret Clock.now Event.isRecent Event.getAgeInDays].
  destruct (negb (Num.leb _ 90)); [reflexivity|].
  destruct (Num.ltb _ 0.3); reflexivity.
Qed.

(** C3. With [elapsed] the clock reading minus the event's timestamp, in
    milliseconds: the pair is relevant if and only if the region is "GLOBAL"
    or among the business's operating and customer regions, [elapsed] is at
    most 90 days, and the confidence is at least 0.3.  The checks run in
    this order and stop at the first failure: a geographic mismatch is
    reported without consulting the clock, an expired event is reported
    whatever its confidence, with the whole number of days elapsed at the
    next clock reading.  The filter always returns a result.  An event older
    than 90 days is never relevant; one exactly 89 days old that passes the
    other checks is. *)
Theorem relevance_filter
    (clk : Clock.readings) (n : nat) (event : Event.t) (businessModel : BusinessModel.t) :
  let relevance := Clock.value (checkRelevance event businessModel) clk n in
  let reads := Clock.after (checkRelevance event businessModel) clk n in
  let elapsed := (clk n - Event.timestamp event)%Z in
  (Relevance.isRelevant relevance = true
   <-> geographicallyRelevant event businessModel
       /\ (elapsed <= 90 * 86400000)%Z
       /\ 0.3 <= Event.confidenceScore event)
  /\ (exists r k, checkRelevance event businessModel clk n = (r, k))
  /\ (~ geographicallyRelevant event businessModel ->
      relevance = {| Relevance.isRelevant := false;
                     Relevance.reason := geographyReason event businessModel |}
      /\ reads = n)
  /\ (geographicallyRelevant event businessModel -> (90 * 86400000 < elapsed)%Z ->
      relevance = {| Relevance.isRelevant := false;
                     Relevance.reason :=
                       ageReason ((clk (S n) - Event.timestamp event) / 86400000) |})
  /\ (geographicallyRelevant event businessModel -> (elapsed <= 90 * 86400000)%Z ->
      Event.confidenceScore event < 0.3 ->
      relevance = {| Relevance.isRelevant := false;
                     Relevance.reason := confidenceReason |})
  /\ ((90 * 86400000 < elapsed)%Z -> Relevance.isRelevant relevance = false)
  /\ (geographicallyRelevant event businessModel -> (elapsed = 89 * 86400000)%Z ->
      0.3 <= Event.confidenceScore event ->
      Relevance.isRelevant relevance = true).
Proof.
  intros relevance reads elapsed. subst relevance reads.
  unfold Clock.value, Clock.after. rewrite checkRelevance_run.
  pose proof (recent_by_elapsed (clk n) event 90) as Recent. fold elapsed in Recent.
  change (inject_Z 90) with 90 in Recent.
  replace (Qfloor (Event.ageInDays (clk (S n)) event))
    with ((clk (S n) - Event.timestamp event) / 86400000)%Z
    by (unfold Event.ageInDays, Event.msPerDay; now rewrite floor_days).
  destruct (Event.isRelevantToRegion event _) eqn:G; cbn [negb].
  - apply isRelevantToRegion_iff in G.
    destruct (Num.leb (Event.ageInDays (clk n) event) 90) eqn:A; cbn [negb].
    + assert (A' : (elapsed <= 90 * 86400000)%Z) by (now apply Recent).
      destruct (Num.ltb (Event.confidenceScore event) 0.3) eqn:C; cbn [fst snd].
      * apply NumFacts.ltb_lt in C.
        assert (NC : ~ 0.3 <= Event.confidenceScore event)
          by (apply Qlt_not_le; exact C).
        repeat split; try tauto; try discriminate; eauto;
          intros; try reflexivity; exfalso; (tauto || lia).
      * apply NumFacts.ltb_ge in C.
        assert (NC : ~ Event.confidenceScore event < 0.3)
          by (apply Qle_not_lt; exact C).
        repeat split; try tauto; eauto; intros; try reflexivity;
          exfalso; (tauto || lia).
    + assert (A' : ~ (elapsed <= 90 * 86400000)%Z).
      { intros H. apply Recent in H. congruence. }
      cbn [fst snd].
      repeat split; try tauto; try discriminate; eauto;
        intros; try reflexivity; exfalso; (tauto || lia).
  - apply isRelevantToRegion_false in G. cbn [fst snd].
    repeat split; try tauto; try discriminate; eauto;
      intros; try reflexivity; exfalso; tauto.
Qed.

(** ** The mapping orchestrator (C4) *)

(** [mapEventToBusiness] consumes exactly the clock readings of its
    relevance check and always returns a mapping. *)
Lemma mapEventToBusiness_present clk n event businessModel :
  exists m,
    mapEventToBusiness event businessModel clk n
    = (Some m, Clock.after (checkRelevance event businessModel) clk n)
    /\ CausalMapping.isRelevant m
       = Relevance.isRelevant (Clock.value (checkRelevance event businessModel) clk n)
    /\ CausalMapping.event m = event
    /\ CausalMapping.businessModel m = businessModel.
Proof.
  unfold mapEventToBusiness, Clock.bind, Clock.value, Clock.after.
  destruct (checkRelevance event businessModel clk n) as [r k].
  destruct r as [[|] reason]; cbn; eexists; repeat split.
Qed.

(** The fields of a relevant mapping. *)
Lemma mapEventToBusiness_relevant clk n event businessModel m :
  Clock.value (mapEventToBusiness event businessModel) clk n = Some m ->
  CausalMapping.isRelevant m = true ->
  let rule := getCausalRule (Event.eventType event) in
  let assumptions := getAssumptionsForEventType (Event.eventType event) in
  let causalPath :=
    CausalRule.getCausalPath rule (Event.summary event)
      (buildBusinessContext businessModel (CausalRule.affectedDrivers rule)) in
  Relevance.isRelevant (Clock.value (checkRelevance event businessModel) clk n) = true
  /\ CausalMapping.affectedDrivers m = CausalRule.affectedDrivers rule
  /\ CausalMapping.impactDirection m = determineImpactDirection event rule
  /\ CausalMapping.impactMagnitude m
     = calculateImpactMagnitude event businessModel
         (CausalRule.affectedDrivers rule) (CausalRule.sensitivityFactor rule)
  /\ CausalMapping.timeHorizon m = CausalRule.timeHorizon rule
  /\ CausalMapping.causalPath m = causalPath
  /\ CausalMapping.assumptions m = assumptions
  /\ CausalMapping.confidenceScore m
     = calculateConfidence event causalPath businessModel
         (CausalRule.sensitivityFactor rule) (List.length assumptions).
Proof.
  unfold mapEventToBusiness, Clock.bind, Clock.value.
  destruct (checkRelevance event businessModel clk n) as [r k].
  destruct r as [[|] reason]; cbn [negb Relevance.isRelevant Clock.ret fst];
    intros E; injection E as <-; cbn; intros R; [|discriminate].
  repeat split.
Qed.

(** The fields of a mapping that is not relevant. *)
Lemma irrelevant_shape clk n event businessModel m :
  Clock.value (mapEventToBusiness event businessModel) clk n = Some m ->
  CausalMapping.isRelevant m = false ->
  CausalMapping.confidenceScore m = 0
  /\ CausalMapping.causalPath m = []
  /\ CausalMapping.assumptions m = []
  /\ CausalMapping.impactDirection m = ImpactDirection.NEUTRAL
  /\ CausalMapping.impactMagnitude m = ImpactMagnitude.LOW.
Proof.
  unfold mapEventToBusiness, Clock.bind, Clock.value.
  destruct (checkRelevance event businessModel clk n) as [r k].
  destruct r as [[|] reason]; cbn [negb Relevance.isRelevant Clock.ret fst];
    intros E; injection E as <-; cbn; intros R; [discriminate|].
  repeat split.
Qed.

(** C4. When the relevance filter fails, [mapEventToBusiness] returns a
    present mapping of the canonical null shape (direction NEUTRAL, magnitude
    LOW, confidence 0, empty causal path, empty assumptions, not relevant),
    with the filter's reason as rationale and as relevance reason.  On every
    input the call returns a mapping: nothing is thrown and the result is
    never [null]. *)
Theorem irrelevant_null_mapping
    (clk : Clock.readings) (n : nat) (event : Event.t) (businessModel : BusinessModel.t) :
  let relevance := Clock.value (checkRelevance event businessModel) clk n in
  (exists m, Clock.value (mapEventToBusiness event businessModel) clk n = Some m)
  /\ (Relevance.isRelevant relevance = false ->
      Clock.value (mapEventToBusiness event businessModel) clk n
      = Some
          {| CausalMapping.event := event;
             CausalMapping.businessModel := businessModel;
             CausalMapping.affectedDrivers := [];
             CausalMapping.impactDirection := ImpactDirection.NEUTRAL;
             CausalMapping.impactMagnitude := ImpactMagnitude.LOW;
             CausalMapping.timeHorizon := TimeHorizon.SHORT;
             CausalMapping.causalPath := [];
             CausalMapping.assumptions := [];
             CausalMapping.confidenceScore := 0;
             CausalMapping.confidenceRationale := Relevance.reason relevance;
             CausalMapping.isRelevant := false;
             CausalMapping.relevanceReason := Relevance.reason relevance |}).
Proof.
  intros relevance. split.
  - destruct (mapEventToBusiness_present clk n event businessModel) as [m [E _]].
    exists m. unfold Clock.value. now rewrite E.
  - subst relevance.
    unfold mapEventToBusiness, Clock.bind, Clock.value.
    destruct (checkRelevance event businessModel clk n) as [r k].
    destruct r as [[|] reason]; cbn; [discriminate | reflexivity].
Qed.

(** ** The confidence aggregator (C1, C9) *)

Lemma isHighConfidenceRule_iff eventType :
  isHighConfidenceRule eventType = true
  <-> In eventType [EventType.LABOR_MARKET; EventType.INFRASTRUCTURE;
                    EventType.ECONOMIC_INDICATOR; EventType.CURRENCY].
Proof.
  destruct eventType; cbn; intuition discriminate.
Qed.

Lemma assumptionPenalty_compounds count :
  assumptionPenalty (S count) == 0.95 * assumptionPenalty count.
Proof.
  unfold assumptionPenalty. rewrite Nat2Z.inj_succ, <- Z.add_1_l.
  rewrite Qpower_plus by qconst. reflexivity.
Qed.

Lemma Num_min_Qmin x y : Num.min x y == Qmin x y.
Proof.
  unfold Num.min. destruct (Num.leb x y) eqn:E.
  - apply NumFacts.leb_le in E. now rewrite Q.min_l.
  - apply NumFacts.leb_gt in E. rewrite Q.min_r; [reflexivity | now apply Qlt_le_weak].
Qed.

Lemma Num_max_Qmax x y : Num.max x y == Qmax x y.
Proof.
  unfold Num.max. destruct (Num.leb x y) eqn:E.
  - apply NumFacts.leb_le in E. now rewrite Q.max_r.
  - apply NumFacts.leb_gt in E. rewrite Q.max_l; [reflexivity | now apply Qlt_le_weak].
Qed.

Lemma clamp01_bounds x : 0 <= clamp01 x /\ clamp01 x <= 1.
Proof.
  unfold clamp01. split.
  - apply Q.le_max_l.
  - apply Q.max_lub; [qconst | apply Q.le_min_l].
Qed.

Lemma clamp01_compat x y : x == y -> clamp01 x == clamp01 y.
Proof. intros E. unfold clamp01. now rewrite E. Qed.

Lemma clamp01_inside x : 0 <= x -> x <= 1 -> clamp01 x == x.
Proof.
  intros L U. unfold clamp01. rewrite Q.min_r by exact U. now rewrite Q.max_r.
Qed.

Lemma sensitivityBonus_gtb sensitivity :
  sensitivityBonus sensitivity = if Num.gtb sensitivity 0.7 then 1.1 else 1.
Proof.
  unfold sensitivityBonus. destruct (Qlt_le_dec 0.7 sensitivity) as [L|L].
  - apply NumFacts.gtb_gt in L. now rewrite L.
  - apply NumFacts.gtb_le in L. now rewrite L.
Qed.

(** The aggregator is the clamped product of its five factors. *)
Lemma calculateConfidence_formula event causalPath businessModel sensitivityFactor count :
  calculateConfidence event causalPath businessModel sensitivityFactor count
  == clamp01
       (Event.confidenceScore event
        * product (map CausalStep.confidence causalPath)
        * ruleQualityFactor (Event.eventType event)
        * assumptionPenalty count
        * sensitivityBonus (BusinessModel.getSensitivity businessModel sensitivityFactor)).
Proof.
  unfold calculateConfidence. cbv zeta.
  rewrite Num_max_Qmax, Num_min_Qmin. fold (clamp01).
  unfold clamp01 at 1. fold (Num.pow 0.95 count).
  apply clamp01_compat.
  rewrite sensitivityBonus_gtb. unfold ruleQualityFactor, assumptionPenalty, Num.pow.
  destruct (isHighConfidenceRule _); destruct (Num.gtb _ 0.7);
    rewrite (fold_left_product CausalStep.confidence); ring.
Qed.



(** *** The empty causal path (C9) *)

(** [Insight.calculateOverallConfidence] halves the event confidence when
    the path is empty and multiplies through the steps otherwise. *)
Lemma calculateOverallConfidence_empty eventConfidence :
  Insight.calculateOverallConfidence eventConfidence [] == eventConfidence * 0.5.
Proof. reflexivity. Qed.

Lemma calculateOverallConfidence_steps eventConfidence s causalPath :
  Insight.calculateOverallConfidence eventConfidence (s :: causalPath)
  == eventConfidence * product (map CausalStep.confidence (s :: causalPath)).
Proof.
  unfold Insight.calculateOverallConfidence. cbn [List.length Nat.eqb].
  cbv zeta. rewrite (fold_left_product CausalStep.confidence). ring.
Qed.

(** With an empty path the mapper's aggregator returns 0.8 for [wageReport],
    not the 0.4 a 0.5 penalty would give. *)
Lemma empty_path_not_penalised :
  calculateConfidence wageReport [] domesticBusiness SensitivityFactor.LABOR 0 == 0.8
  /\ ~ calculateConfidence wageReport [] domesticBusiness SensitivityFactor.LABOR 0
       == clamp01
            (Event.confidenceScore wageReport * 0.5
             * ruleQualityFactor (Event.eventType wageReport)
             * assumptionPenalty 0
             * sensitivityBonus
                 (BusinessModel.getSensitivity domesticBusiness SensitivityFactor.LABOR)).
Proof.
  split; [reflexivity|].
  vm_compute. discriminate.
Qed.

(** C9 (as amended). In the mapper's aggregator an empty causal path
    contributes the empty product 1.0 and no penalty: the confidence is
    [eventConfidence * ruleQuality * assumptionPenalty * sensitivityBonus]
    clamped into [0,1].  The fixed 0.5 penalty for an empty path belongs to
    [Insight.calculateOverallConfidence] alone, which returns
    [eventConfidence * 0.5]. *)
Theorem empty_path_confidence
    (event : Event.t) (businessModel : BusinessModel.t)
    (sensitivityFactor : SensitivityFactor.t) (count : nat) :
  calculateConfidence event [] businessModel sensitivityFactor count
  == clamp01
       (Event.confidenceScore event
        * ruleQualityFactor (Event.eventType event)
        * assumptionPenalty count
        * sensitivityBonus (BusinessModel.getSensitivity businessModel sensitivityFactor))
  /\ Insight.calculateOverallConfidence (Event.confidenceScore event) []
     == Event.confidenceScore event * 0.5.
Proof.
  split; [|apply calculateOverallConfidence_empty].
  rewrite calculateConfidence_formula. apply clamp01_compat.
  cbn [map product fold_right]. ring.
Qed.

(** ** Batch mapping and ranking (C5) *)

Lemma collectRelevant_mapEach events businessModel :
  forall mappings clk n,
    collectRelevant events businessModel mappings clk n
    = ((mappings ++ relevantOnly (Clock.value (mapEach events businessModel) clk n))%list,
       Clock.after (mapEach events businessModel) clk n).
Proof.
  induction events as [|event rest IH]; intros mappings clk n.
  - cbn. now rewrite app_nil_r.
  - cbn [collectRelevant mapEach].
    unfold Clock.bind, Clock.value, Clock.after in *.
    destruct (mapEventToBusiness event businessModel clk n) as [mapping k].
    destruct (mapEach rest businessModel clk k) as [ms k'] eqn:E.
    specialize (IH) with (clk := clk) (n := k). rewrite E in IH. cbn [fst snd] in IH.
    cbn [Clock.ret fst snd relevantOnly flat_map].
    destruct mapping as [m|]; [destruct (CausalMapping.isRelevant m)|];
      rewrite IH; cbn [app]; try rewrite <- app_assoc; reflexivity.
Qed.

Lemma relevantOnly_relevant mappings :
  Forall (fun m => CausalMapping.isRelevant m = true) (relevantOnly mappings).
Proof.
  induction mappings as [|[m|] ms IH]; cbn.
  - constructor.
  - destruct (CausalMapping.isRelevant m) eqn:R; cbn; [constructor|]; assumption.
  - exact IH.
Qed.

Lemma relevantOnly_In mappings m :
  In m (relevantOnly mappings)
  <-> In (Some m) mappings /\ CausalMapping.isRelevant m = true.
Proof.
  unfold relevantOnly. rewrite in_flat_map. split.
  - intros [[x|] [Hin H]]; [|contradiction].
    destruct (CausalMapping.isRelevant x) eqn:R; [|contradiction].
    destruct H as [<-|[]]. tauto.
  - intros [Hin R]. exists (Some m). split; [exact Hin|].
    rewrite R. now left.
Qed.

Lemma byScore_after a b : Num.gtb (byScore a b) 0 = true <-> score a < score b.
Proof.
  unfold byScore. cbv zeta. fold (score a). fold (score b).
  rewrite NumFacts.gtb_gt. symmetry. apply Qlt_minus_iff.
Qed.

Lemma byScore_not_after a b : Num.gtb (byScore a b) 0 = false <-> score b <= score a.
Proof.
  split; intros H.
  - apply Qnot_lt_le. intros L. apply byScore_after in L. congruence.
  - destruct (Num.gtb (byScore a b) 0) eqn:E; [|reflexivity].
    apply byScore_after in E. exfalso. exact (Qlt_not_le _ _ E H).
Qed.

Lemma insertBy_ranked x l :
  StronglySorted ranksBefore l -> StronglySorted ranksBefore (Arr.insertBy byScore x l).
Proof.
  induction l as [|y l IH]; intros S; cbn.
  - repeat constructor.
  - inversion S as [|? ? S' F]; subst.
    destruct (Num.gtb (byScore x y) 0) eqn:E.
    + apply byScore_after in E. constructor; [now apply IH|].
      eapply Permutation_Forall; [apply ArrFacts.insertBy_perm|].
      constructor; [|exact F]. now apply Qlt_le_weak.
    + apply byScore_not_after in E. constructor; [exact S|].
      constructor; [exact E|].
      eapply Forall_impl; [|exact F]. intros z Hz.
      unfold ranksBefore in *. eapply Qle_trans; eauto.
Qed.

Lemma sortBy_ranked l : StronglySorted ranksBefore (Arr.sortBy byScore l).
Proof.
  induction l as [|x l IH]; cbn.
  - constructor.
  - now apply insertBy_ranked.
Qed.

Lemma ranked_distinct_strict l :
  StronglySorted ranksBefore l ->
  ForallOrdPairs (fun a b => ~ score a == score b) l ->
  StronglySorted ranksStrictlyBefore l.
Proof.
  induction 1 as [|a l S IH F]; intros D.
  - constructor.
  - inversion D as [|? ? Da Dl]; subst. constructor; [now apply IH|].
    rewrite Forall_forall in *. intros b Hb.
    specialize (F b Hb). specialize (Da b Hb).
    unfold ranksBefore, ranksStrictlyBefore in *.
    apply Qle_lt_or_eq in F. destruct F as [L|E]; [exact L|].
    exfalso. apply Da. now symmetry.
Qed.

(** C5. [batchMapEventsToBusiness] returns exactly the mappings of the
    events whose [isRelevant] flag is true (each as often as it was
    produced, the others discarded), ranked in descending order of
    [confidenceScore * magnitudeWeight], with weights HIGH = 3, MEDIUM = 2,
    LOW = 1; when those products are pairwise distinct the order is
    strictly descending. *)
Theorem batch_ranking
    (clk : Clock.readings) (n : nat) (events : list Event.t)
    (businessModel : BusinessModel.t) :
  let result := Clock.value (batchMapEventsToBusiness events businessModel) clk n in
  let mappings := Clock.value (mapEach events businessModel) clk n in
  Permutation (relevantOnly mappings) result
  /\ (forall m, In m result
                <-> In (Some m) mappings /\ CausalMapping.isRelevant m = true)
  /\ StronglySorted
       (fun a b =>
          CausalMapping.confidenceScore b * getMagnitudeWeight (CausalMapping.impactMagnitude b)
          <= CausalMapping.confidenceScore a * getMagnitudeWeight (CausalMapping.impactMagnitude a))
       result
  /\ (ForallOrdPairs (fun a b => ~ score a == score b) result ->
      StronglySorted
        (fun a b =>
           CausalMapping.confidenceScore b * getMagnitudeWeight (CausalMapping.impactMagnitude b)
           < CausalMapping.confidenceScore a * getMagnitudeWeight (CausalMapping.impactMagnitude a))
        result)
  /\ getMagnitudeWeight ImpactMagnitude.HIGH = 3
  /\ getMagnitudeWeight ImpactMagnitude.MEDIUM = 2
  /\ getMagnitudeWeight ImpactMagnitude.LOW = 1.
Proof.
  intros result mappings.
  assert (R : result = Arr.sortBy byScore (relevantOnly mappings)).
  { subst result mappings. unfold batchMapEventsToBusiness, Clock.bind, Clock.value.
    rewrite collectRelevant_mapEach. reflexivity. }
  assert (P : Permutation (relevantOnly mappings) result).
  { rewrite R. apply ArrFacts.sortBy_perm. }
  split; [exact P|]. split.
  { intros m. rewrite <- relevantOnly_In. split; apply Permutation_in;
      [apply Permutation_sym|]; exact P. }
  split; [rewrite R; apply sortBy_ranked|].
  split; [|repeat split].
  intros D. apply ranked_distinct_strict; [rewrite R; apply sortBy_ranked | exact D].
Qed.

(** ** Determinism (C7) *)

(** The mapping is a function of the relevance verdict. *)
Lemma mapEventToBusiness_by_relevance clk1 n1 clk2 n2 event businessModel :
  Clock.value (checkRelevance event businessModel) clk1 n1
  = Clock.value (checkRelevance event businessModel) clk2 n2 ->
  Clock.value (mapEventToBusiness event businessModel) clk1 n1
  = Clock.value (mapEventToBusiness event businessModel) clk2 n2.
Proof.
  unfold mapEventToBusiness, Clock.bind, Clock.value.
  destruct (checkRelevance event businessModel clk1 n1) as [r1 k1].
  destruct (checkRelevance event businessModel clk2 n2) as [r2 k2].
  cbn [fst]. intros ->. destruct (negb (Relevance.isRelevant r2)); reflexivity.
Qed.

(** Two successive calls on the same event and business model, the first
    when the event is exactly 90 days old and the second one millisecond
    later, return different mappings: the first is relevant, the second is
    the null mapping. *)
Lemma successive_calls_differ :
  Clock.value (mapEventToBusiness wageReport domesticBusiness) tickingClock 0
  <> Clock.value (mapEventToBusiness wageReport domesticBusiness) tickingClock
       (Clock.after (mapEventToBusiness wageReport domesticBusiness) tickingClock 0).
Proof.
  intros H.
  apply (f_equal (option_map CausalMapping.isRelevant)) in H.
  vm_compute in H. discriminate H.
Qed.

(** C7 (as amended). [mapEventToBusiness] is deterministic in its two
    arguments and the clock.  Two calls with identical inputs return the
    same mapping whenever they observe the same [Date.now()] readings, and
    also whenever the event is at most 90 days old at both calls; the clock
    enters the result only through the recency check and the age quoted in
    its message. *)
Theorem mapping_deterministic_given_clock
    (clk1 clk2 : Clock.readings) (n1 n2 : nat)
    (event : Event.t) (businessModel : BusinessModel.t) :
  (clk1 n1 = clk2 n2 -> clk1 (S n1) = clk2 (S n2) ->
   Clock.value (mapEventToBusiness event businessModel) clk1 n1
   = Clock.value (mapEventToBusiness event businessModel) clk2 n2)
  /\ (Event.ageInDays (clk1 n1) event <= 90 ->
      Event.ageInDays (clk2 n2) event <= 90 ->
      Clock.value (mapEventToBusiness event businessModel) clk1 n1
      = Clock.value (mapEventToBusiness event businessModel) clk2 n2).
Proof.
  split.
  - intros E0 E1. apply mapEventToBusiness_by_relevance.
    unfold Clock.value. rewrite !checkRelevance_run, E0, E1.
    destruct (negb (Event.isRelevantToRegion _ _)); [reflexivity|].
    destruct (negb (Num.leb _ 90)); [reflexivity|].
    destruct (Num.ltb _ 0.3); reflexivity.
  - intros A1 A2. apply mapEventToBusiness_by_relevance.
    unfold Clock.value. rewrite !checkRelevance_run.
    apply NumFacts.leb_le in A1, A2. rewrite A1, A2. cbn [negb].
    destruct (negb (Event.isRelevantToRegion _ _)); [reflexivity|].
    destruct (Num.ltb _ 0.3); reflexivity.
Qed.

(** ** The properties at concrete inputs *)


Lemma relevance_filter_witness :
  geographicallyRelevant privacyRuling globalBusiness
  /\ (wallClock (1700000000000 + 89 * 86400000) 0 - Event.timestamp privacyRuling
      = 89 * 86400000)%Z
  /\ 0.3 <= Event.confidenceScore privacyRuling
  /\ Relevance.isRelevant
       (Clock.value (checkRelevance privacyRuling globalBusiness)
          (wallClock (1700000000000 + 89 * 86400000)) 0)
     = true.
Proof.
  assert (G : geographicallyRelevant privacyRuling globalBusiness)
    by (right; simpl; tauto).
  assert (A : (wallClock (1700000000000 + 89 * 86400000) 0
               - Event.timestamp privacyRuling
               = 89 * 86400000)%Z)
    by reflexivity.
  assert (C : 0.3 <= Event.confidenceScore privacyRuling)
    by (vm_compute; discriminate).
  split; [exact G|]. split; [exact A|]. split; [exact C|].
  pose proof (relevance_filter (wallClock (1700000000000 + 89 * 86400000)) 0
                privacyRuling globalBusiness) as F.
  cbv zeta in F. destruct F as (_ & _ & _ & _ & _ & _ & F).
  exact (F G A C).
Defined.

Lemma irrelevant_null_mapping_witness :
  Relevance.isRelevant
    (Clock.value (checkRelevance wageReport domesticBusiness) tickingClock 1) = false
  /\ Clock.value (mapEventToBusiness wageReport domesticBusiness) tickingClock 1
     = Some
         {| CausalMapping.event := wageReport;
            CausalMapping.businessModel := domesticBusiness;
            CausalMapping.affectedDrivers := [];
            CausalMapping.impactDirection := ImpactDirection.NEUTRAL;
            CausalMapping.impactMagnitude := ImpactMagnitude.LOW;
            CausalMapping.timeHorizon := TimeHorizon.SHORT;
            CausalMapping.causalPath := [];
            CausalMapping.assumptions := [];
            CausalMapping.confidenceScore := 0;
            CausalMapping.confidenceRationale :=
              "Event is 90 days old and likely no longer relevant";
            CausalMapping.isRelevant := false;
            CausalMapping.relevanceReason :=
              "Event is 90 days old and likely no longer relevant" |}.
Proof.
  split; [vm_compute; reflexivity|].
  apply (irrelevant_null_mapping tickingClock 1 wageReport domesticBusiness).
  vm_compute. reflexivity.
Defined.

Lemma batch_ranking_witness :
  ForallOrdPairs (fun a b => ~ score a == score b)
    (Clock.value
       (batchMapEventsToBusiness [wageReport; mixedSignals; verifiedWageReport]
          domesticBusiness)
       (wallClock 0) 0)
  /\ StronglySorted
       (fun a b =>
          CausalMapping.confidenceScore b * getMagnitudeWeight (CausalMapping.impactMagnitude b)
          < CausalMapping.confidenceScore a * getMagnitudeWeight (CausalMapping.impactMagnitude a))
       (Clock.value
          (batchMapEventsToBusiness [wageReport; mixedSignals; verifiedWageReport]
             domesticBusiness)
          (wallClock 0) 0).
Proof.
  assert (D : ForallOrdPairs (fun a b => ~ score a == score b)
                (Clock.value
                   (batchMapEventsToBusiness [wageReport; mixedSignals; verifiedWageReport]
                      domesticBusiness)
                   (wallClock 0) 0)).
  { vm_compute. repeat constructor; discriminate. }
  split; [exact D|].
  apply (batch_ranking (wallClock 0) 0 [wageReport; mixedSignals; verifiedWageReport]
           domesticBusiness).
  exact D.
Defined.

Lemma impact_direction_by_keyword_witness :
  mentions increaseTokens (Str.toLowerCase (Event.summary mixedSignals))
  /\ mentions decreaseTokens (Str.toLowerCase (Event.summary mixedSignals))
  /\ determineImpactDirection mixedSignals GEOPOLITICAL_RULE = ImpactDirection.INCREASE.
Proof.
  assert (I : mentions increaseTokens (Str.toLowerCase (Event.summary mixedSignals))).
  { exists "rise". split; [simpl; tauto|].
    exists "shipping costs ", " as regional demand falls". reflexivity. }
  split; [exact I|]. split.
  - exists "fall". split; [simpl; tauto|].
    exists "shipping costs rise as regional demand ", "s". reflexivity.
  - apply (impact_direction_by_keyword mixedSignals GEOPOLITICAL_RULE). exact I.
Defined.

Lemma mapping_deterministic_given_clock_witness :
  Event.ageInDays (wallClock (10 * Event.msPerDay) 0) wageReport <= 90
  /\ Event.ageInDays (wallClock (89 * Event.msPerDay) 4) wageReport <= 90
  /\ Clock.value (mapEventToBusiness wageReport domesticBusiness)
       (wallClock (10 * Event.msPerDay)) 0
     = Clock.value (mapEventToBusiness wageReport domesticBusiness)
         (wallClock (89 * Event.msPerDay)) 4.
Proof.
  assert (A1 : Event.ageInDays (wallClock (10 * Event.msPerDay) 0) wageReport <= 90)
    by (vm_compute; discriminate).
  assert (A2 : Event.ageInDays (wallClock (89 * Event.msPerDay) 4) wageReport <= 90)
    by (vm_compute; discriminate).
  split; [exact A1|]. split; [exact A2|].
  apply (mapping_deterministic_given_clock
           (wallClock (10 * Event.msPerDay)) (wallClock (89 * Event.msPerDay)) 0 4
           wageReport domesticBusiness); assumption.
Defined.

(** * Further properties of the code *)

(** ** The ingestion-side confidence heuristic *)

Lemma clamp_inside x : 0 <= x -> x <= 1 -> Num.max 0 (Num.min 1 x) == x.
Proof.
  intros L U. rewrite Num_max_Qmax, Num_min_Qmin. now apply clamp01_inside.
Qed.

Lemma clamp_bounds x : 0 <= Num.max 0 (Num.min 1 x) /\ Num.max 0 (Num.min 1 x) <= 1.
Proof.
  rewrite Num_max_Qmax, Num_min_Qmin. apply clamp01_bounds.
Qed.

(** X1. [Event.calculateConfidence] always returns a value in [0,1].  For a
    source reliability in [0,1] the clamp is idle: the result is the
    reliability times 0.8 when the region is not specific, times 0.7 when
    the timestamp is missing, times 0.9 when the summary is shorter than 50
    or longer than 1000 characters; so it never exceeds the reliability and
    never falls below half of it. *)
Theorem event_confidence_penalties
    (sourceReliability : Q) (hasSpecificRegion hasTimestamp : bool) (summaryLength : Q) :
  let c :=
    EventScoring.calculateConfidence sourceReliability hasSpecificRegion
      hasTimestamp summaryLength in
  (0 <= c /\ c <= 1)
  /\ (0 <= sourceReliability -> sourceReliability <= 1 ->
      c == sourceReliability
           * (if hasSpecificRegion then 1 else 0.8)
           * (if hasTimestamp then 1 else 0.7)
           * (if Qlt_le_dec summaryLength 50 then 0.9
              else if Qlt_le_dec 1000 summaryLength then 0.9 else 1)
      /\ c <= sourceReliability
      /\ 0.5 * sourceReliability <= c).
Proof.
  intros c. subst c. unfold EventScoring.calculateConfidence. cbv zeta.
  split; [apply clamp_bounds|].
  intros L U.
  assert (S : (Num.ltb summaryLength 50 || Num.gtb summaryLength 1000)%bool
              = if Qlt_le_dec summaryLength 50 then true
                else if Qlt_le_dec 1000 summaryLength then true else false).
  { destruct (Qlt_le_dec summaryLength 50) as [A|A].
    - apply NumFacts.ltb_lt in A. now rewrite A.
    - apply NumFacts.ltb_ge in A. rewrite A. cbn [orb].
      destruct (Qlt_le_dec 1000 summaryLength) as [B|B].
      + now apply NumFacts.gtb_gt.
      + now apply NumFacts.gtb_le. }
  rewrite S. clear S.
  destruct hasSpecificRegion, hasTimestamp;
    destruct (Qlt_le_dec summaryLength 50);
    try destruct (Qlt_le_dec 1000 summaryLength);
    cbn [negb]; rewrite clamp_inside by lra; repeat split; lra.
Qed.

(** X2. An event scored by [Event.calculateConfidence] from a source
    reliability between 0.6 and 1 always clears the 0.3 floor of the
    relevance filter: if its region matches and it is at most 90 days old,
    it is relevant, whatever penalties the heuristic applied. *)
Theorem reliable_source_clears_floor
    (clk : Clock.readings) (n : nat) (event : Event.t) (businessModel : BusinessModel.t)
    (sourceReliability : Q) (hasSpecificRegion hasTimestamp : bool) (summaryLength : Q) :
  0.6 <= sourceReliability -> sourceReliability <= 1 ->
  Event.confidenceScore event
  == EventScoring.calculateConfidence sourceReliability hasSpecificRegion
       hasTimestamp summaryLength ->
  geographicallyRelevant event businessModel ->
  Event.ageInDays (clk n) event <= 90 ->
  Relevance.isRelevant (Clock.value (checkRelevance event businessModel) clk n) = true.
Proof.
  intros L U E G A.
  assert (F : 0.3 <= Event.confidenceScore event).
  { rewrite E. unfold EventScoring.calculateConfidence. cbv zeta.
    destruct (negb hasSpecificRegion), (negb hasTimestamp),
      (Num.ltb summaryLength 50 || Num.gtb summaryLength 1000)%bool;
      rewrite clamp_inside by lra; lra. }
  unfold Clock.value. rewrite checkRelevance_run.
  apply isRelevantToRegion_iff in G. rewrite G.
  apply NumFacts.leb_le in A. rewrite A.
  apply NumFacts.ltb_ge in F. rewrite F. reflexivity.
Qed.

(** ** The business model's lookups *)

Lemma addAll_NoDup xs : forall seen, NoDup seen -> NoDup (Arr.addAll seen xs).
Proof.
  induction xs as [|x xs IH]; intros seen N; cbn [Arr.addAll].
  - exact N.
  - apply IH. destruct (Arr.includes seen x) eqn:E; [exact N|].
    apply NoDup_app; [exact N | repeat constructor; intros [] |].
    intros y Hy [<-|[]].
    apply ArrFacts.includes_In in Hy. congruence.
Qed.

Lemma hasRegionalExposure_iff businessModel region :
  BusinessModel.hasRegionalExposure businessModel region = true
  <-> In region (BusinessModel.operatingRegions businessModel)
      \/ In region (BusinessModel.customerRegions businessModel)
      \/ region = "GLOBAL".
Proof.
  unfold BusinessModel.hasRegionalExposure.
  rewrite !orb_true_iff, !ArrFacts.includes_In, String.eqb_eq. tauto.
Qed.

Lemma exposure_agrees event businessModel :
  BusinessModel.hasRegionalExposure businessModel (Event.region event)
  = Event.isRelevantToRegion event (BusinessModel.getAllRelevantRegions businessModel).
Proof.
  destruct (Event.isRelevantToRegion event _) eqn:G.
  - apply isRelevantToRegion_iff in G. apply hasRegionalExposure_iff.
    destruct G as [G|G]; [tauto|]. apply in_app_or in G. tauto.
  - apply isRelevantToRegion_false in G.
    destruct (BusinessModel.hasRegionalExposure _ _) eqn:H; [|reflexivity].
    apply hasRegionalExposure_iff in H. exfalso. apply G.
    unfold geographicallyRelevant. rewrite in_app_iff. tauto.
Qed.

(** X3. [getAllRelevantRegions] lists every operating or customer region
    exactly once: the result has no duplicates and its members are the
    members of the two lists. *)
Theorem relevant_regions_distinct (businessModel : BusinessModel.t) :
  NoDup (BusinessModel.getAllRelevantRegions businessModel)
  /\ (forall r,
        In r (BusinessModel.getAllRelevantRegions businessModel)
        <-> In r (BusinessModel.operatingRegions businessModel)
            \/ In r (BusinessModel.customerRegions businessModel))
  /\ (List.length (BusinessModel.getAllRelevantRegions businessModel)
      <= List.length (BusinessModel.operatingRegions businessModel)
         + List.length (BusinessModel.customerRegions businessModel))%nat.
Proof.
  unfold BusinessModel.getAllRelevantRegions, Arr.uniq.
  assert (N : NoDup (Arr.addAll []
                       (BusinessModel.operatingRegions businessModel
                        ++ BusinessModel.customerRegions businessModel)%list))
    by (apply addAll_NoDup; constructor).
  split; [exact N|]. split.
  - intros r. rewrite ArrFacts.addAll_In, in_app_iff. simpl. tauto.
  - rewrite <- length_app. apply NoDup_incl_length; [exact N|].
    intros r Hr. apply ArrFacts.addAll_In in Hr. simpl in Hr. tauto.
Qed.

(** X4. The business's own exposure test and the event's region test agree:
    [businessModel.hasRegionalExposure(event.region)] holds exactly when
    [event.isRelevantToRegion(businessModel.getAllRelevantRegions())] does,
    and both hold for every business when the region is "GLOBAL". *)
Theorem regional_exposure_agrees (event : Event.t) (businessModel : BusinessModel.t) :
  (BusinessModel.hasRegionalExposure businessModel (Event.region event) = true
   <-> Event.isRelevantToRegion event
         (BusinessModel.getAllRelevantRegions businessModel) = true)
  /\ (BusinessModel.hasRegionalExposure businessModel (Event.region event) = true
      <-> geographicallyRelevant event businessModel)
  /\ (Event.region event = "GLOBAL" ->
      BusinessModel.hasRegionalExposure businessModel (Event.region event) = true).
Proof.
  rewrite exposure_agrees. split; [tauto|]. split.
  - apply isRelevantToRegion_iff.
  - intros G. apply isRelevantToRegion_iff. now left.
Qed.

(** X5. [getSensitivity] never returns 0, whatever the sensitivity map
    holds; and when every configured sensitivity lies in [0,1] the result
    lies in (0,1]. *)
Theorem sensitivity_never_zero (businessModel : BusinessModel.t) (factor : SensitivityFactor.t) :
  ~ BusinessModel.getSensitivity businessModel factor == 0
  /\ (Forall (fun s => 0 <= SensitivityConfig.sensitivity s
                       /\ SensitivityConfig.sensitivity s <= 1)
        (BusinessModel.sensitivities businessModel) ->
      0 < BusinessModel.getSensitivity businessModel factor
      /\ BusinessModel.getSensitivity businessModel factor <= 1).
Proof.
  unfold BusinessModel.getSensitivity, Num.orDefault.
  destruct (find _ _) as [found|] eqn:E.
  - destruct (Qeq_bool (SensitivityConfig.sensitivity found) 0) eqn:Z.
    + split; [intros H; lra | intros _; lra].
    + assert (NZ : ~ SensitivityConfig.sensitivity found == 0).
      { intros H. apply Qeq_bool_iff in H. congruence. }
      split; [exact NZ|]. intros F.
      apply find_some in E. destruct E as [Hin _].
      rewrite Forall_forall in F. destruct (F found Hin) as [L U].
      split; [|exact U].
      apply Qle_lt_or_eq in L. destruct L as [L|L]; [exact L|].
      exfalso. apply NZ. now symmetry.
  - split; [intros H; lra | intros _; lra].
Qed.

Lemma getDriverWeight_unconfigured businessModel d :
  unconfigured businessModel d -> BusinessModel.getDriverWeight businessModel d = 0.
Proof.
  intros U. unfold BusinessModel.getDriverWeight. cbv zeta.
  destruct (find _ _) as [found|] eqn:E; [|reflexivity].
  apply find_some in E. destruct E as [Hin Heq].
  apply BusinessDriverType.internal_t_dec_bl in Heq.
  exfalso. exact (U found Hin Heq).
Qed.

Lemma unconfigured_sum businessModel affectedDrivers :
  Forall (unconfigured businessModel) affectedDrivers ->
  sum (map (BusinessModel.getDriverWeight businessModel) affectedDrivers) == 0.
Proof.
  induction 1 as [|d l Hd _ IH]; unfold sum in *; simpl.
  - reflexivity.
  - rewrite (getDriverWeight_unconfigured _ _ Hd), IH. reflexivity.
Qed.

(** X6. When none of the affected drivers is configured in the business
    model, every lookup yields weight 0: the magnitude is LOW whatever the
    sensitivity and the event confidence, and the business context handed
    to the causal path is the empty string. *)
Theorem unconfigured_drivers_low
    (event : Event.t) (businessModel : BusinessModel.t)
    (affectedDrivers : list BusinessDriverType.t) (sensitivityFactor : SensitivityFactor.t) :
  Forall (unconfigured businessModel) affectedDrivers ->
  calculateImpactMagnitude event businessModel affectedDrivers sensitivityFactor
  = ImpactMagnitude.LOW
  /\ buildBusinessContext businessModel affectedDrivers = "".
Proof.
  intros U. split.
  - unfold calculateImpactMagnitude. cbv zeta.
    set (w := fold_left _ _ _).
    assert (W : w == 0).
    { subst w. rewrite (fold_left_sum (BusinessModel.getDriverWeight businessModel)).
      rewrite (unconfigured_sum _ _ U). lra. }
    set (k := BusinessModel.getSensitivity _ _).
    set (c := Event.confidenceScore _).
    assert (R : w * k * c == 0) by (rewrite W; ring).
    assert (G5 : Num.gtb (w * k * c) 0.05 = false)
      by (apply NumFacts.gtb_le; rewrite R; lra).
    assert (G2 : Num.gtb (w * k * c) 0.02 = false)
      by (apply NumFacts.gtb_le; rewrite R; lra).
    now rewrite G5, G2.
  - unfold buildBusinessContext. cbv zeta.
    assert (P : forall acc,
               fold_left
                 (fun (contextParts : list string) driver =>
                    let weight := BusinessModel.getDriverWeight businessModel driver in
                    if Num.gtb weight 0
                    then
                      let percentage := Num.toFixed0 (weight * 100) in
                      (contextParts ++
                       [(BusinessDriverType.toString driver ++ " represents "
                         ++ percentage ++ "% of business structure")%string])%list
                    else contextParts)
                 affectedDrivers acc = acc).
    { induction U as [|d l Hd _ IH]; intros acc; cbn [fold_left]; [reflexivity|].
      cbv zeta. rewrite (getDriverWeight_unconfigured _ _ Hd).
      replace (Num.gtb 0 0) with false by reflexivity. apply IH. }
    rewrite P. reflexivity.
Qed.

(** ** Validation of a business model *)

Lemma fold_push {A : Type} (bad : A -> bool) (msg : A -> string)
    (step : list string -> A -> list string) :
  (forall errs x, step errs x = if bad x then (errs ++ [msg x])%list else errs) ->
  forall l acc, fold_left step l acc = (acc ++ map msg (filter bad l))%list.
Proof.
  intros Hstep. induction l as [|x l IH]; intros acc; cbn [fold_left filter].
  - now rewrite app_nil_r.
  - rewrite IH, Hstep. destruct (bad x); cbn [map]; [|reflexivity].
    now rewrite <- app_assoc.
Qed.

Lemma weights_sum (drivers : list WeightedDriver.t) :
  fold_left (fun sum d => sum + WeightedDriver.weight d) drivers 0
  == sum (map WeightedDriver.weight drivers).
Proof. rewrite (fold_left_sum WeightedDriver.weight). ring. Qed.

Lemma off_balance_iff (drivers : list WeightedDriver.t) :
  Num.gtb
    (Qabs (fold_left (fun sum d => sum + WeightedDriver.weight d) drivers 0 - 1)) 0.01
  = false
  <-> sumsToOne drivers.
Proof.
  unfold sumsToOne. rewrite NumFacts.gtb_le, weights_sum. reflexivity.
Qed.

(** The errors [validate] reports, in order: at most one for each of the two
    sums, then one per offending sensitivity, then one per offending
    region code. *)
Lemma validate_errors (this : BusinessModel.t) :
  exists e1 e2 : list string,
    ValidationResult.errors (BusinessModelValidation.validate this)
    = (e1 ++ e2
       ++ map sensitivityError
            (filter badSensitivity (BusinessModel.sensitivities this))
       ++ map regionError
            (filter badRegion
               (BusinessModel.operatingRegions this
                ++ BusinessModel.customerRegions this)))%list
    /\ ValidationResult.valid (BusinessModelValidation.validate this)
       = Nat.eqb
           (List.length (ValidationResult.errors (BusinessModelValidation.validate this))) 0
    /\ (sumsToOne (BusinessModel.revenueDrivers this) /\ e1 = []
        \/ ~ sumsToOne (BusinessModel.revenueDrivers this) /\ List.length e1 = 1%nat)
    /\ (sumsToOne (BusinessModel.costDrivers this) /\ e2 = []
        \/ ~ sumsToOne (BusinessModel.costDrivers this) /\ List.length e2 = 1%nat).
Proof.
  unfold BusinessModelValidation.validate. cbv zeta.
  cbn [ValidationResult.errors ValidationResult.valid].
  rewrite (fold_push badRegion regionError) by (intros; reflexivity).
  rewrite (fold_push badSensitivity sensitivityError) by (intros; reflexivity).
  set (revenueSum := fold_left _ (BusinessModel.revenueDrivers this) 0).
  set (costSum := fold_left _ (BusinessModel.costDrivers this) 0).
  pose proof (off_balance_iff (BusinessModel.revenueDrivers this)) as R.
  pose proof (off_balance_iff (BusinessModel.costDrivers this)) as C.
  fold revenueSum in R. fold costSum in C.
  exists (if Num.gtb (Qabs (revenueSum - 1)) 0.01
          then ["Revenue drivers must sum to 1.0 (currently "
                ++ Fmt.toFixed revenueSum 2 ++ ")"]
          else []).
  exists (if Num.gtb (Qabs (costSum - 1)) 0.01
          then ["Cost drivers must sum to 1.0 (currently "
                ++ Fmt.toFixed costSum 2 ++ ")"]
          else []).
  destruct (Num.gtb (Qabs (revenueSum - 1)) 0.01);
    destruct (Num.gtb (Qabs (costSum - 1)) 0.01);
    (split; [cbn [app]; rewrite <- ?app_assoc; reflexivity|]);
    (split; [reflexivity|]); split;
    solve [ left; split; [tauto | reflexivity]
          | right; split; [intros H; apply R in H + apply C in H; discriminate
                          | reflexivity] ].
Qed.

Lemma badSensitivity_false s :
  badSensitivity s = false
  <-> 0 <= SensitivityConfig.sensitivity s /\ SensitivityConfig.sensitivity s <= 1.
Proof.
  unfold badSensitivity. rewrite orb_false_iff, NumFacts.ltb_ge, NumFacts.gtb_le.
  reflexivity.
Qed.

Lemma badRegion_false r :
  badRegion r = false <-> (2 <= String.length r /\ String.length r <= 5)%nat.
Proof.
  unfold badRegion. rewrite orb_false_iff, !Nat.ltb_ge. reflexivity.
Qed.

Lemma filter_nil_iff {A : Type} (bad : A -> bool) (l : list A) :
  filter bad l = [] <-> Forall (fun x => bad x = false) l.
Proof.
  induction l as [|x l IH]; cbn [filter].
  - split; [constructor | reflexivity].
  - destruct (bad x) eqn:B.
    + split; [discriminate | intros F; inversion F; congruence].
    + rewrite IH. split; [now constructor | intros F; now inversion F].
Qed.

Lemma filter_Exists {A : Type} (bad : A -> bool) (P : A -> Prop) (l : list A) :
  (forall x, P x -> bad x = true) ->
  Exists P l -> (1 <= List.length (filter bad l))%nat.
Proof.
  intros B E. induction E as [x l H | x l _ IH]; cbn [filter].
  - rewrite (B x H). cbn [List.length]. lia.
  - destruct (bad x); cbn [List.length]; lia.
Qed.

(** X7. [validate] accepts a business model exactly when it reports no
    error.  For non-negative driver weights and region codes written in
    ASCII: a model whose revenue weights and cost weights each add up to
    within 0.0099 of 1, whose sensitivities lie in [0,1] and whose region
    codes have between 2 and 5 characters is accepted with no errors; a
    model with a sum off by 0.0101 or more, a sensitivity outside [0,1] or
    a region code of another length is rejected.  Every offending
    sensitivity and region code is reported, and besides them at most the
    two sums. *)
Theorem business_model_validation (this : BusinessModel.t) :
  let result := BusinessModelValidation.validate this in
  let regions :=
    (BusinessModel.operatingRegions this ++ BusinessModel.customerRegions this)%list in
  let revenueSum := sum (map WeightedDriver.weight (BusinessModel.revenueDrivers this)) in
  let costSum := sum (map WeightedDriver.weight (BusinessModel.costDrivers this)) in
  let flagged :=
    (List.length (filter badSensitivity (BusinessModel.sensitivities this))
     + List.length (filter badRegion regions))%nat in
  Forall (fun d => 0 <= WeightedDriver.weight d)
    (BusinessModel.revenueDrivers this ++ BusinessModel.costDrivers this)%list ->
  Forall (fun r => asciiOnly r = true) regions ->
  (ValidationResult.valid result = true <-> ValidationResult.errors result = [])
  /\ (Qabs (revenueSum - 1) <= 0.0099 -> Qabs (costSum - 1) <= 0.0099 ->
      Forall (fun s => 0 <= SensitivityConfig.sensitivity s
                       /\ SensitivityConfig.sensitivity s <= 1)
        (BusinessModel.sensitivities this) ->
      Forall (fun r => (2 <= String.length r /\ String.length r <= 5)%nat) regions ->
      ValidationResult.valid result = true /\ ValidationResult.errors result = [])
  /\ (0.0101 <= Qabs (revenueSum - 1)
      \/ 0.0101 <= Qabs (costSum - 1)
      \/ Exists (fun s => SensitivityConfig.sensitivity s < 0
                          \/ 1 < SensitivityConfig.sensitivity s)
           (BusinessModel.sensitivities this)
      \/ Exists (fun r => (String.length r < 2 \/ 5 < String.length r)%nat) regions ->
      ValidationResult.valid result = false)
  /\ (flagged <= List.length (ValidationResult.errors result) <= flagged + 2)%nat
  /\ (Qabs (revenueSum - 1) <= 0.0099 -> Qabs (costSum - 1) <= 0.0099 ->
      List.length (ValidationResult.errors result) = flagged).
Proof.
  intros result regions revenueSum costSum flagged _ _.
  subst result regions revenueSum costSum flagged.
  destruct (validate_errors this) as (e1 & e2 & E & V & R & C).
  rewrite V, E. clear V E.
  set (bs := filter badSensitivity _).
  set (br := filter badRegion _).
  rewrite !length_app, !length_map, Nat.eqb_eq.
  set (rs := Qabs (sum (map WeightedDriver.weight (BusinessModel.revenueDrivers this)) - 1)) in *.
  set (cs := Qabs (sum (map WeightedDriver.weight (BusinessModel.costDrivers this)) - 1)) in *.
  unfold sumsToOne in R, C. fold rs in R. fold cs in C.
  assert (L1 : (List.length e1 <= 1)%nat)
    by (destruct R as [[_ ->]|[_ ->]]; cbn [List.length]; lia).
  assert (L2 : (List.length e2 <= 1)%nat)
    by (destruct C as [[_ ->]|[_ ->]]; cbn [List.length]; lia).
  assert (N1 : rs <= 0.0099 -> List.length e1 = 0%nat).
  { intros H. destruct R as [[_ ->]|[R _]]; [reflexivity|]. exfalso. apply R. lra. }
  assert (N2 : cs <= 0.0099 -> List.length e2 = 0%nat).
  { intros H. destruct C as [[_ ->]|[C _]]; [reflexivity|]. exfalso. apply C. lra. }
  assert (O1 : 0.0101 <= rs -> List.length e1 = 1%nat).
  { intros H. destruct R as [[R _]|[_ R]]; [exfalso; lra | exact R]. }
  assert (O2 : 0.0101 <= cs -> List.length e2 = 1%nat).
  { intros H. destruct C as [[C _]|[_ C]]; [exfalso; lra | exact C]. }
  split.
  { rewrite <- length_zero_iff_nil, !length_app, !length_map. reflexivity. }
  split.
  { intros H1 H2 S G.
    assert (Bs : bs = []).
    { subst bs. apply filter_nil_iff. revert S. apply Forall_impl.
      intros s. apply badSensitivity_false. }
    assert (Br : br = []).
    { subst br. apply filter_nil_iff. revert G. apply Forall_impl.
      intros r. apply badRegion_false. }
    rewrite (N1 H1), (N2 H2), Bs, Br.
    split; [reflexivity|].
    apply length_zero_iff_nil in N1, N2; try assumption.
    now rewrite N1, N2. }
  split.
  { intros [H|[H|[H|H]]]; apply Nat.eqb_neq.
    - rewrite (O1 H). lia.
    - rewrite (O2 H). lia.
    - assert (1 <= List.length bs)%nat; [|lia].
      subst bs. revert H. apply filter_Exists.
      intros s [L|U]; unfold badSensitivity; apply orb_true_iff.
      + left. now apply NumFacts.ltb_lt.
      + right. now apply NumFacts.gtb_gt.
    - assert (1 <= List.length br)%nat; [|lia].
      subst br. revert H. apply filter_Exists.
      intros r [L|U]; unfold badRegion; apply orb_true_iff.
      + left. now apply Nat.ltb_lt.
      + right. now apply Nat.ltb_lt. }
  split; [lia|].
  intros H1 H2. rewrite (N1 H1), (N2 H2). lia.
Qed.

(** ** The SaaS template *)

Lemma saas_defaults_balanced :
  sumsToOne SaaS.DEFAULT_SAAS_REVENUE_DRIVERS
  /\ sumsToOne SaaS.DEFAULT_SAAS_COST_DRIVERS
  /\ filter badSensitivity SaaS.DEFAULT_SAAS_SENSITIVITIES = [].
Proof.
  repeat split; vm_compute; discriminate.
Qed.

(** X8. A business model created from [createSaaSTemplate] passes
    [validate] exactly when all its region codes have between 2 and 5
    characters, whatever the user, the name, the identifier and the dates;
    with the default regions it always passes.  [validateSaaSModel] raises
    no warning on the template. *)
Theorem saas_template_validates
    (userId : string) (name : option string)
    (operatingRegions customerRegions : option (list string))
    (id : string) (createdAt updatedAt : Z) :
  let template := SaaS.createSaaSTemplate userId name operatingRegions customerRegions in
  let businessModel := SaaS.toBusinessModel id createdAt updatedAt template in
  (ValidationResult.valid (BusinessModelValidation.validate businessModel) = true
   <-> Forall (fun r => (2 <= String.length r /\ String.length r <= 5)%nat)
         (SaaS.operatingRegions template ++ SaaS.customerRegions template)%list)
  /\ (operatingRegions = None -> customerRegions = None ->
      BusinessModelValidation.validate businessModel
      = {| ValidationResult.valid := true; ValidationResult.errors := [] |})
  /\ SaaS.validateSaaSModel
       (Some (SaaS.revenueDrivers template)) (Some (SaaS.costDrivers template))
     = {| Validation.valid := true; Validation.warnings := [] |}.
Proof.
  intros template businessModel.
  destruct saas_defaults_balanced as (R & C & S).
  split; [|split; [|reflexivity]].
  - destruct (validate_errors businessModel) as (e1 & e2 & E & V & R' & C').
    rewrite V, E. clear V E.
    assert (E1 : e1 = []) by (destruct R' as [[_ H]|[H _]]; [exact H | now elim H]).
    assert (E2 : e2 = []) by (destruct C' as [[_ H]|[H _]]; [exact H | now elim H]).
    subst e1 e2.
    change (BusinessModel.sensitivities businessModel)
      with SaaS.DEFAULT_SAAS_SENSITIVITIES.
    rewrite S. cbn [app map].
    change (BusinessModel.operatingRegions businessModel)
      with (SaaS.operatingRegions template).
    change (BusinessModel.customerRegions businessModel)
      with (SaaS.customerRegions template).
    rewrite Nat.eqb_eq, length_map, length_zero_iff_nil, filter_nil_iff.
    split; apply Forall_impl; intros r; apply badRegion_false.
  - intros -> ->. reflexivity.
Qed.

(** ** The assumption catalog *)

(** X9. In [CORE_ASSUMPTIONS] every entry is filed under its own [id] and
    no key occurs twice, so a lookup by key returns that entry.  Every key
    that [getAssumptionsForEventType] asks for exists: the result lists the
    assumptions of the event type in the order of their keys, nothing is
    filtered out, and there are at most three. *)
Theorem assumption_catalog_consistent (eventType : EventType.t) :
  NoDup (map fst CORE_ASSUMPTIONS)
  /\ (forall key a, In (key, a) CORE_ASSUMPTIONS ->
                    Assumption.id a = key /\ coreAssumption key = Some a)
  /\ map Assumption.id (getAssumptionsForEventType eventType) = assumptionMap eventType
  /\ map Some (getAssumptionsForEventType eventType)
     = map coreAssumption (assumptionMap eventType)
  /\ (List.length (getAssumptionsForEventType eventType) <= 3)%nat.
Proof.
  split.
  { unfold CORE_ASSUMPTIONS. cbn [map fst].
    repeat (constructor; [cbn [In]; intuition discriminate|]). constructor. }
  split.
  { intros key a H. unfold CORE_ASSUMPTIONS in H. cbn [In] in H.
    repeat (destruct H as [H|H]; [injection H as <- <-; split; reflexivity|]).
    contradiction. }
  destruct eventType; cbn; repeat split; lia.
Qed.

(** X10. Validating the assumptions of an event type yields at most one
    warning: the FX caveat, exactly for a currency event and a business
    with neither international operations nor international customers, or
    the regional caveat, exactly for a disaster event and a business absent
    from the region.  The validation itself never fails. *)
Theorem assumption_warnings_by_event_type
    (eventType : EventType.t) (businessContext : BusinessContext.t) :
  validateAssumptionsForBusiness (getAssumptionsForEventType eventType) businessContext
  = {| Validation.valid := true;
       Validation.warnings :=
         match eventType with
         | EventType.CURRENCY =>
             if negb (BusinessContext.hasInternationalOperations businessContext)
                && negb (BusinessContext.hasInternationalCustomers businessContext)
             then [fxWarning] else []
         | EventType.DISASTER =>
             if negb (BusinessContext.operatesInRegion businessContext)
             then [regionalWarning] else []
         | _ => []
         end |}.
Proof.
  destruct businessContext as [[|] [|] [|]]; destruct eventType; reflexivity.
Qed.

(** ** Invariants of a returned mapping *)

Lemma domesticOnly_some (regions : list string) :
  existsb (fun r => negb (String.eqb r "US") || Nat.ltb 1 (List.length regions)) regions
  = negb (domesticOnly regions).
Proof.
  destruct regions as [|r [|r' rest]]; cbn [existsb domesticOnly List.length].
  - reflexivity.
  - cbn. now rewrite !orb_false_r.
  - replace (Nat.ltb 1 (S (S (List.length rest)))) with true by reflexivity.
    now rewrite orb_true_r.
Qed.

(** The rationale of a relevant mapping and the verdict behind it. *)
Lemma mapEventToBusiness_relevant_rationale clk n event businessModel m :
  Clock.value (mapEventToBusiness event businessModel) clk n = Some m ->
  CausalMapping.isRelevant m = true ->
  Clock.value (checkRelevance event businessModel) clk n
  = {| Relevance.isRelevant := true; Relevance.reason := relevantReason |}
  /\ CausalMapping.relevanceReason m = relevantReason
  /\ CausalMapping.event m = event
  /\ CausalMapping.businessModel m = businessModel
  /\ CausalMapping.confidenceRationale m
     = generateConfidenceRationale event (CausalMapping.causalPath m)
         (CausalMapping.assumptions m)
         (Validation.warnings
            (validateAssumptionsForBusiness
               (getAssumptionsForEventType (Event.eventType event))
               {| BusinessContext.hasInternationalOperations :=
                    negb (domesticOnly (BusinessModel.operatingRegions businessModel));
                  BusinessContext.hasInternationalCustomers :=
                    negb (domesticOnly (BusinessModel.customerRegions businessModel));
                  BusinessContext.operatesInRegion :=
                    BusinessModel.hasRegionalExposure businessModel
                      (Event.region event) |})).
Proof.
  unfold mapEventToBusiness, Clock.bind, Clock.value.
  pose proof (checkRelevance_run clk n event businessModel) as Run.
  destruct (checkRelevance event businessModel clk n) as [r k].
  destruct r as [[|] reason]; cbn [negb Relevance.isRelevant Clock.ret fst];
    intros E; injection E as <-;
    cbn [CausalMapping.isRelevant CausalMapping.relevanceReason CausalMapping.event
         CausalMapping.businessModel CausalMapping.confidenceRationale
         CausalMapping.causalPath CausalMapping.assumptions Relevance.reason];
    intros R; [|discriminate].
  assert (Reason : reason = relevantReason).
  { destruct (negb (Event.isRelevantToRegion _ _)); [discriminate|].
    destruct (negb (Num.leb _ 90)); [discriminate|].
    destruct (Num.ltb _ 0.3); [discriminate|].
    now injection Run as -> _. }
  subst reason. rewrite !domesticOnly_some. repeat split.
Qed.

(** X11. The rationale of a relevant mapping counts a caveat only for a
    currency event mapped onto a business whose operating regions and
    customer regions are each empty or exactly ["US"].  The regional caveat
    is never raised by [mapEventToBusiness]: a mapping is relevant only if
    the business is exposed to the event's region. *)
Theorem mapping_caveats
    (clk : Clock.readings) (n : nat) (event : Event.t) (businessModel : BusinessModel.t)
    (m : CausalMapping.t) :
  Clock.value (mapEventToBusiness event businessModel) clk n = Some m ->
  CausalMapping.isRelevant m = true ->
  BusinessModel.hasRegionalExposure businessModel (Event.region event) = true
  /\ CausalMapping.confidenceRationale m
     = generateConfidenceRationale event (CausalMapping.causalPath m)
         (CausalMapping.assumptions m)
         (if EventType.t_beq (Event.eventType event) EventType.CURRENCY
             && domesticOnly (BusinessModel.operatingRegions businessModel)
             && domesticOnly (BusinessModel.customerRegions businessModel)
          then [fxWarning] else []).
Proof.
  intros E R.
  destruct (mapEventToBusiness_relevant_rationale clk n event businessModel m E R)
    as (V & _ & _ & _ & Rat).
  assert (X : BusinessModel.hasRegionalExposure businessModel (Event.region event) = true).
  { rewrite exposure_agrees.
    unfold Clock.value in V. rewrite checkRelevance_run in V.
    destruct (Event.isRelevantToRegion event _); [reflexivity|].
    cbn in V. discriminate. }
  split; [exact X|].
  rewrite Rat, X.
  destruct (Event.eventType event),
    (domesticOnly (BusinessModel.operatingRegions businessModel)),
    (domesticOnly (BusinessModel.customerRegions businessModel)); reflexivity.
Qed.

Lemma path_confidences_fixed eventType eventSummary context :
  map CausalStep.confidence
    (CausalRule.getCausalPath (getCausalRule eventType) eventSummary context)
  = map CausalStep.confidence
      (CausalRule.getCausalPath (getCausalRule eventType) "" "").
Proof. destruct eventType; reflexivity. Qed.

Lemma chainFactor_bounds eventType :
  0 < chainFactor eventType
  /\ chainFactor eventType <= 0.655891875
  /\ (eventType <> EventType.INFRASTRUCTURE -> eventType <> EventType.CURRENCY ->
      chainFactor eventType < 0.53).
Proof.
  destruct eventType; (split; [vm_compute; reflexivity|]);
    (split; [vm_compute; discriminate|]);
    intros H1 H2; try congruence; vm_compute; reflexivity.
Qed.

Lemma sensitivityBonus_cases sensitivity :
  sensitivityBonus sensitivity = 1 \/ sensitivityBonus sensitivity = 1.1.
Proof.
  unfold sensitivityBonus. destruct (Qlt_le_dec 0.7 sensitivity); tauto.
Qed.

Lemma clamp01_positive x : 0 < x -> 0 < clamp01 x.
Proof.
  intros P. destruct (Qlt_le_dec 1 x) as [L|L].
  - unfold clamp01. rewrite Q.min_l by lra. rewrite Q.max_r by lra. lra.
  - rewrite clamp01_inside by lra. exact P.
Qed.

(** The score of a relevant mapping: the event confidence, at least 0.3,
    times the chain factor of the event type and the sensitivity bonus,
    clamped. *)
Lemma relevant_score clk n event businessModel m :
  Clock.value (mapEventToBusiness event businessModel) clk n = Some m ->
  CausalMapping.isRelevant m = true ->
  0.3 <= Event.confidenceScore event
  /\ CausalMapping.confidenceScore m
     == clamp01
          (Event.confidenceScore event
           * chainFactor (Event.eventType event)
           * sensitivityBonus
               (BusinessModel.getSensitivity businessModel
                  (CausalRule.sensitivityFactor
                     (getCausalRule (Event.eventType event))))).
Proof.
  intros E R.
  destruct (mapEventToBusiness_relevant clk n event businessModel m E R)
    as (V & _ & _ & _ & _ & _ & _ & C).
  split.
  - unfold Clock.value in V. rewrite checkRelevance_run in V.
    destruct (negb (Event.isRelevantToRegion _ _)); [discriminate|].
    destruct (negb (Num.leb _ 90)); [discriminate|].
    destruct (Num.ltb _ 0.3) eqn:F; [discriminate|].
    now apply NumFacts.ltb_ge.
  - rewrite C, calculateConfidence_formula. apply clamp01_compat.
    rewrite path_confidences_fixed. unfold chainFactor. ring.
Qed.

(** X12. A returned mapping echoes its event and business model, and it is
    relevant exactly when its confidence score is positive.  A relevant
    mapping has a causal path of three steps, at least one affected driver,
    an event confidence of at least 0.3 and the fixed relevance reason. *)
Theorem mapping_invariants
    (clk : Clock.readings) (n : nat) (event : Event.t) (businessModel : BusinessModel.t)
    (m : CausalMapping.t) :
  Clock.value (mapEventToBusiness event businessModel) clk n = Some m ->
  CausalMapping.event m = event
  /\ CausalMapping.businessModel m = businessModel
  /\ (CausalMapping.isRelevant m = true <-> 0 < CausalMapping.confidenceScore m)
  /\ (CausalMapping.isRelevant m = true ->
      List.length (CausalMapping.causalPath m) = 3%nat
      /\ CausalMapping.affectedDrivers m <> []
      /\ 0.3 <= Event.confidenceScore event
      /\ CausalMapping.relevanceReason m = relevantReason).
Proof.
  intros E.
  destruct (mapEventToBusiness_present clk n event businessModel)
    as (m' & E' & _ & Ev & Bm).
  unfold Clock.value in E. rewrite E' in E. cbn [fst] in E. injection E as ->.
  assert (E : Clock.value (mapEventToBusiness event businessModel) clk n = Some m)
    by (unfold Clock.value; now rewrite E').
  split; [exact Ev|]. split; [exact Bm|].
  destruct (CausalMapping.isRelevant m) eqn:R.
  - destruct (relevant_score clk n event businessModel m E R) as [F S].
    destruct (mapEventToBusiness_relevant clk n event businessModel m E R)
      as (_ & D & _ & _ & _ & P & _).
    destruct (mapEventToBusiness_relevant_rationale clk n event businessModel m E R)
      as (_ & Reason & _).
    destruct (chainFactor_bounds (Event.eventType event)) as (CF & _).
    split.
    + split; [intros _|reflexivity]. rewrite S. apply clamp01_positive.
      destruct (sensitivityBonus_cases
                  (BusinessModel.getSensitivity businessModel
                     (CausalRule.sensitivityFactor
                        (getCausalRule (Event.eventType event))))) as [-> | ->];
        nra.
    + intros _. rewrite P, D. repeat split; try assumption.
      * destruct (Event.eventType event); reflexivity.
      * destruct (Event.eventType event); discriminate.
  - destruct (irrelevant_shape clk n event businessModel m E R) as [Z _].
    split; [|discriminate].
    rewrite Z. split; [discriminate | intros H; exfalso; lra].
Qed.

(** X13. For an event whose confidence does not exceed 1, the clamp of the
    aggregator is idle on a relevant mapping: the score is the event
    confidence times the chain factor of the event type times the
    sensitivity bonus.  It is at most 0.7215 times the event confidence,
    hence below 0.73, whatever the business model. *)
Theorem confidence_ceiling
    (clk : Clock.readings) (n : nat) (event : Event.t) (businessModel : BusinessModel.t)
    (m : CausalMapping.t) :
  Clock.value (mapEventToBusiness event businessModel) clk n = Some m ->
  CausalMapping.isRelevant m = true ->
  Event.confidenceScore event <= 1 ->
  CausalMapping.confidenceScore m
  == Event.confidenceScore event
     * chainFactor (Event.eventType event)
     * sensitivityBonus
         (BusinessModel.getSensitivity businessModel
            (CausalRule.sensitivityFactor (getCausalRule (Event.eventType event))))
  /\ CausalMapping.confidenceScore m <= 0.7215 * Event.confidenceScore event
  /\ CausalMapping.confidenceScore m < 0.73.
Proof.
  intros E R U.
  destruct (relevant_score clk n event businessModel m E R) as [F S].
  destruct (chainFactor_bounds (Event.eventType event)) as (CF & CU & _).
  set (cf := chainFactor (Event.eventType event)) in *.
  set (c := Event.confidenceScore event) in *.
  rewrite S.
  destruct (sensitivityBonus_cases
              (BusinessModel.getSensitivity businessModel
                 (CausalRule.sensitivityFactor
                    (getCausalRule (Event.eventType event))))) as [-> | ->];
    rewrite clamp01_inside by nra; repeat split; nra.
Qed.

(** ** What the consumers of a score can observe *)

Lemma label_by_threshold score :
  (0.8 <= score -> ConfidenceIndicator.getLabel score = "High confidence"
                   /\ ConfidenceIndicator.getColor score = "text-green-600"
                   /\ ConfidenceIndicator.getBarColor score = "bg-green-500")
  /\ (score < 0.8 -> ConfidenceIndicator.getLabel score <> "High confidence"
                     /\ ConfidenceIndicator.getColor score <> "text-green-600"
                     /\ ConfidenceIndicator.getBarColor score <> "bg-green-500").
Proof.
  unfold ConfidenceIndicator.getLabel, ConfidenceIndicator.getColor,
         ConfidenceIndicator.getBarColor.
  split; intros H.
  - apply NumFacts.geb_ge in H. rewrite H. repeat split.
  - assert (G : Num.geb score 0.8 = false).
    { destruct (Num.geb score 0.8) eqn:G; [|reflexivity].
      apply NumFacts.geb_ge in G. exfalso. lra. }
    rewrite G. destruct (Num.geb score 0.6); repeat split; discriminate.
Qed.

(** X14. The confidence indicator never shows "High confidence", nor its
    green colours, for the score of a relevant mapping of an event whose
    confidence does not exceed 1, and the percentage it displays lies
    between 0 and 72. *)
Theorem indicator_never_high
    (clk : Clock.readings) (n : nat) (event : Event.t) (businessModel : BusinessModel.t)
    (m : CausalMapping.t) :
  Clock.value (mapEventToBusiness event businessModel) clk n = Some m ->
  CausalMapping.isRelevant m = true ->
  Event.confidenceScore event <= 1 ->
  let score := CausalMapping.confidenceScore m in
  ConfidenceIndicator.getLabel score <> "High confidence"
  /\ ConfidenceIndicator.getColor score <> "text-green-600"
  /\ ConfidenceIndicator.getBarColor score <> "bg-green-500"
  /\ (0 <= ConfidenceIndicator.percentage score <= 72)%Z.
Proof.
  intros E R U score. subst score.
  destruct (relevant_score clk n event businessModel m E R) as [F S].
  destruct (chainFactor_bounds (Event.eventType event)) as (CF & CU & _).
  assert (B : 0 <= CausalMapping.confidenceScore m
              /\ CausalMapping.confidenceScore m <= 0.7215).
  { rewrite S.
    set (cf := chainFactor (Event.eventType event)) in *.
    set (c := Event.confidenceScore event) in *.
    destruct (sensitivityBonus_cases
                (BusinessModel.getSensitivity businessModel
                   (CausalRule.sensitivityFactor
                      (getCausalRule (Event.eventType event))))) as [-> | ->];
      rewrite clamp01_inside by nra; split; nra. }
  destruct B as [B0 B1].
  destruct (label_by_threshold (CausalMapping.confidenceScore m)) as [_ L].
  destruct L as (L1 & L2 & L3); [lra|].
  repeat split; try assumption.
  - unfold ConfidenceIndicator.percentage, Fmt.round.
    change 0%Z with (Qfloor 0.5). apply Qfloor_resp_le. lra.
  - unfold ConfidenceIndicator.percentage, Fmt.round.
    change 72%Z with (Qfloor 72.65). apply Qfloor_resp_le. lra.
Qed.

(** X15. With the default thresholds (confidence 0.6, magnitude MEDIUM) an
    insight that carries the score of a relevant mapping of an event whose
    confidence does not exceed 1 can be actionable only for an
    infrastructure or a currency event, and only if the event confidence
    exceeds 0.83, the insight is not dismissed and its magnitude is not
    LOW. *)
Theorem actionable_only_for_strong_rules
    (clk : Clock.readings) (n : nat) (event : Event.t) (businessModel : BusinessModel.t)
    (m : CausalMapping.t) (insight : InsightRecord.t) :
  Clock.value (mapEventToBusiness event businessModel) clk n = Some m ->
  CausalMapping.isRelevant m = true ->
  Event.confidenceScore event <= 1 ->
  InsightRecord.confidenceScore insight == CausalMapping.confidenceScore m ->
  InsightRecord.isActionable insight 0.6 ImpactMagnitude.MEDIUM = true ->
  (Event.eventType event = EventType.INFRASTRUCTURE
   \/ Event.eventType event = EventType.CURRENCY)
  /\ 0.83 < Event.confidenceScore event
  /\ InsightRecord.dismissed insight = false
  /\ InsightRecord.impactMagnitude insight <> ImpactMagnitude.LOW.
Proof.
  intros E R U I A.
  unfold InsightRecord.isActionable in A.
  destruct (InsightRecord.dismissed insight); [discriminate|].
  destruct (Num.ltb (InsightRecord.confidenceScore insight) 0.6) eqn:C; [discriminate|].
  apply NumFacts.ltb_ge in C. rewrite I in C.
  destruct (relevant_score clk n event businessModel m E R) as [F S].
  destruct (chainFactor_bounds (Event.eventType event)) as (CF & CU & CL).
  rewrite S in C.
  set (cf := chainFactor (Event.eventType event)) in *.
  set (c := Event.confidenceScore event) in *.
  assert (Raw : 0.6 <= c * cf * 1.1).
  { destruct (sensitivityBonus_cases
                (BusinessModel.getSensitivity businessModel
                   (CausalRule.sensitivityFactor
                      (getCausalRule (Event.eventType event))))) as [B | B];
      rewrite B in C; rewrite clamp01_inside in C by nra; nra. }
  split; [|split; [nra | split; [reflexivity|]]].
  - destruct (EventType.t_eq_dec (Event.eventType event) EventType.INFRASTRUCTURE)
      as [H1|H1]; [now left|].
    destruct (EventType.t_eq_dec (Event.eventType event) EventType.CURRENCY)
      as [H2|H2]; [now right|].
    specialize (CL H1 H2). exfalso. nra.
  - intros L. rewrite L in A. vm_compute in A. discriminate.
Qed.

(** ** Ages and the clock *)

(** X16. For a whole number of days [maxAgeDays], [isStale] holds exactly
    when the insight is at least [maxAgeDays + 1] full days old at the
    clock reading: an insight generated 30 days and 23 hours ago is not
    stale under the default of 30 days. *)
Theorem insight_stale_after_full_day
    (clk : Clock.readings) (n : nat) (insight : InsightRecord.t) (maxAgeDays : Z) :
  let elapsed := (clk n - InsightRecord.generatedAt insight)%Z in
  (Clock.value (InsightRecord.isStale insight (inject_Z maxAgeDays)) clk n = true
   <-> ((maxAgeDays + 1) * 86400000 <= elapsed)%Z)
  /\ Clock.value (InsightRecord.getAgeInDays insight) clk n = (elapsed / 86400000)%Z
  /\ Clock.after (InsightRecord.isStale insight (inject_Z maxAgeDays)) clk n = S n.
Proof.
  intros elapsed. subst elapsed.
  unfold InsightRecord.isStale, InsightRecord.getAgeInDays,
         Clock.value, Clock.after, Clock.bind, Clock.now, Clock.ret.
  cbn [fst snd]. rewrite floor_days. repeat split.
  - intros H. apply NumFacts.gtb_gt in H. rewrite <- Zlt_Qlt in H.
    now apply floor_gt.
  - intros H. apply NumFacts.gtb_gt. rewrite <- Zlt_Qlt. now apply floor_gt.
Qed.

(** X17. When the filter rejects an event for its age and the clock has not
    gone back between the two readings the filter takes, the age quoted in
    the reason is at least 90 days: it is the whole number of days elapsed
    at the second reading. *)
Theorem stale_reason_quotes_age
    (clk : Clock.readings) (n : nat) (event : Event.t) (businessModel : BusinessModel.t) :
  geographicallyRelevant event businessModel ->
  90 < Event.ageInDays (clk n) event ->
  (clk n <= clk (S n))%Z ->
  let days := ((clk (S n) - Event.timestamp event) / 86400000)%Z in
  Clock.value (checkRelevance event businessModel) clk n
  = {| Relevance.isRelevant := false; Relevance.reason := ageReason days |}
  /\ (90 <= days)%Z
  /\ Clock.after (checkRelevance event businessModel) clk n = S (S n).
Proof.
  intros G A M days. subst days.
  unfold Clock.value, Clock.after. rewrite checkRelevance_run.
  apply isRelevantToRegion_iff in G. rewrite G.
  pose proof A as A'. apply NumFacts.leb_gt in A'. rewrite A'. cbn [negb fst snd].
  unfold Event.ageInDays, Event.msPerDay. rewrite floor_days.
  repeat split.
  apply Z.div_le_lower_bound; [lia|].
  unfold Event.ageInDays, Event.msPerDay in A.
  assert (L : ~ (clk n - Event.timestamp event <= 90 * 86400000)%Z).
  { intros H. apply (days_le _ 90) in H. apply (Qlt_not_le _ _ A). exact H. }
  lia.
Qed.

(** X18. Relevance can only be lost as time passes: if a mapping is relevant
    at some clock reading, the same event and business model give the
    identical mapping at every earlier reading. *)
Theorem relevance_only_expires
    (clk1 clk2 : Clock.readings) (n1 n2 : nat)
    (event : Event.t) (businessModel : BusinessModel.t) (m : CausalMapping.t) :
  (clk1 n1 <= clk2 n2)%Z ->
  Clock.value (mapEventToBusiness event businessModel) clk2 n2 = Some m ->
  CausalMapping.isRelevant m = true ->
  Clock.value (mapEventToBusiness event businessModel) clk1 n1 = Some m.
Proof.
  intros T E R.
  destruct (mapEventToBusiness_relevant_rationale clk2 n2 event businessModel m E R)
    as (V & _).
  rewrite <- E. apply mapEventToBusiness_by_relevance.
  rewrite V. unfold Clock.value in *. rewrite checkRelevance_run in *.
  destruct (negb (Event.isRelevantToRegion _ _)); [discriminate|].
  destruct (negb (Num.leb (Event.ageInDays (clk2 n2) event) 90)) eqn:A2;
    [discriminate|].
  apply negb_false_iff, NumFacts.leb_le in A2.
  assert (A1 : Num.leb (Event.ageInDays (clk1 n1) event) 90 = true).
  { apply NumFacts.leb_le.
    unfold Event.ageInDays, Event.msPerDay in *.
    apply (days_le _ 90). apply (proj1 (days_le _ 90)) in A2. lia. }
  rewrite A1. cbn [negb].
  destruct (Num.ltb _ 0.3); [discriminate | reflexivity].
Qed.

(** ** The batch *)

Lemma mapEach_In events businessModel :
  forall clk n m,
    In (Some m) (Clock.value (mapEach events businessModel) clk n) ->
    exists event k,
      In event events
      /\ Clock.value (mapEventToBusiness event businessModel) clk k = Some m.
Proof.
  induction events as [|event rest IH]; intros clk n m; cbn [mapEach].
  - intros [].
  - unfold Clock.bind, Clock.value, Clock.ret in *.
    destruct (mapEventToBusiness event businessModel clk n) as [mapping k] eqn:E.
    destruct (mapEach rest businessModel clk k) as [ms k'] eqn:Es.
    cbn [fst In]. intros [H|H].
    + exists event, n. rewrite E. split; [now left | exact H].
    + specialize (IH clk k m). rewrite Es in IH. cbn [fst] in IH.
      destruct (IH H) as (ev & j & Hin & Hj).
      exists ev, j. split; [now right | exact Hj].
Qed.

Lemma mapEach_length events businessModel :
  forall clk n,
    List.length (Clock.value (mapEach events businessModel) clk n) = List.length events.
Proof.
  induction events as [|event rest IH]; intros clk n; cbn [mapEach].
  - reflexivity.
  - unfold Clock.bind, Clock.value, Clock.ret in *.
    destruct (mapEventToBusiness event businessModel clk n) as [mapping k].
    specialize (IH clk k).
    destruct (mapEach rest businessModel clk k) as [ms k'].
    cbn [fst List.length] in *. now rewrite IH.
Qed.

Lemma relevantOnly_length mappings :
  (List.length (relevantOnly mappings) <= List.length mappings)%nat.
Proof.
  unfold relevantOnly.
  induction mappings as [|[m|] ms IH]; cbn [flat_map]; try rewrite length_app;
    cbn [List.length].
  - lia.
  - destruct (CausalMapping.isRelevant m); cbn [List.length]; lia.
  - lia.
Qed.

(** X19. Every mapping in the result of [batchMapEventsToBusiness] is the
    relevant mapping of one of the given events onto the given business
    model, obtained at some clock reading; the result is never longer than
    the list of events, and it is empty for an empty list. *)
Theorem batch_results_trace_to_events
    (clk : Clock.readings) (n : nat) (events : list Event.t)
    (businessModel : BusinessModel.t) :
  let result := Clock.value (batchMapEventsToBusiness events businessModel) clk n in
  (forall m, In m result ->
     CausalMapping.isRelevant m = true
     /\ In (CausalMapping.event m) events
     /\ CausalMapping.businessModel m = businessModel
     /\ exists k,
          Clock.value (mapEventToBusiness (CausalMapping.event m) businessModel) clk k
          = Some m)
  /\ (List.length result <= List.length events)%nat
  /\ (events = [] -> result = []).
Proof.
  intros result.
  assert (R : result
              = Arr.sortBy byScore
                  (relevantOnly (Clock.value (mapEach events businessModel) clk n))).
  { subst result. unfold batchMapEventsToBusiness, Clock.bind, Clock.value.
    rewrite collectRelevant_mapEach. reflexivity. }
  pose proof (ArrFacts.sortBy_perm byScore
                (relevantOnly (Clock.value (mapEach events businessModel) clk n))) as P.
  rewrite <- R in P.
  split; [|split].
  - intros m Hm.
    apply (Permutation_in _ (Permutation_sym P)) in Hm.
    apply relevantOnly_In in Hm. destruct Hm as [Hin Rel].
    destruct (mapEach_In events businessModel clk n m Hin) as (ev & k & Hev & Hk).
    destruct (mapEventToBusiness_present clk k ev businessModel)
      as (m' & E' & _ & Ev & Bm).
    unfold Clock.value in Hk. rewrite E' in Hk. cbn [fst] in Hk.
    injection Hk as ->.
    split; [exact Rel|]. rewrite Ev. split; [exact Hev|]. split; [exact Bm|].
    exists k. unfold Clock.value. now rewrite E'.
  - rewrite <- (Permutation_length P).
    rewrite <- (mapEach_length events businessModel clk n).
    apply relevantOnly_length.
  - intros ->. subst result. reflexivity.
Qed.

(** ** Magnitude and direction *)

Lemma getDriverWeight_nonneg businessModel d :
  Forall (fun w => 0 <= WeightedDriver.weight w)
    (BusinessModel.revenueDrivers businessModel
     ++ BusinessModel.costDrivers businessModel)%list ->
  0 <= BusinessModel.getDriverWeight businessModel d.
Proof.
  intros F. unfold BusinessModel.getDriverWeight, Num.orDefault. cbv zeta.
  destruct (find _ _) as [found|] eqn:E; [|lra].
  apply find_some in E. destruct E as [Hin _].
  rewrite Forall_forall in F. specialize (F found Hin).
  destruct (Qeq_bool _ 0); [lra | exact F].
Qed.

Lemma sum_nonneg (xs : list Q) : Forall (fun x => 0 <= x) xs -> 0 <= sum xs.
Proof.
  induction 1 as [|x l Hx _ IH]; unfold sum in *; simpl; lra.
Qed.

(** X20. For a business whose driver weights and sensitivities are not
    negative, the magnitude bucket is monotone in the event confidence: of
    two events judged by the same rule, the more confident one never gets
    the lower bucket. *)
Theorem magnitude_monotone_in_confidence
    (event1 event2 : Event.t) (businessModel : BusinessModel.t) (rule : CausalRule.t) :
  Forall (fun w => 0 <= WeightedDriver.weight w)
    (BusinessModel.revenueDrivers businessModel
     ++ BusinessModel.costDrivers businessModel)%list ->
  Forall (fun s => 0 <= SensitivityConfig.sensitivity s)
    (BusinessModel.sensitivities businessModel) ->
  Event.confidenceScore event1 <= Event.confidenceScore event2 ->
  getMagnitudeWeight
    (calculateImpactMagnitude event1 businessModel
       (CausalRule.affectedDrivers rule) (CausalRule.sensitivityFactor rule))
  <= getMagnitudeWeight
       (calculateImpactMagnitude event2 businessModel
          (CausalRule.affectedDrivers rule) (CausalRule.sensitivityFactor rule)).
Proof.
  intros W S C.
  rewrite !calculateImpactMagnitude_raw. cbv zeta. unfold rawMagnitude.
  set (total := sum _).
  set (k := BusinessModel.getSensitivity _ _).
  assert (T : 0 <= total).
  { subst total. apply sum_nonneg. apply Forall_map, Forall_forall.
    intros d _. now apply getDriverWeight_nonneg. }
  assert (K : 0 <= k).
  { subst k. unfold BusinessModel.getSensitivity, Num.orDefault.
    destruct (find _ _) as [found|] eqn:E; [|lra].
    apply find_some in E. destruct E as [Hin _].
    rewrite Forall_forall in S. specialize (S found Hin).
    destruct (Qeq_bool _ 0); [lra | exact S]. }
  set (c1 := Event.confidenceScore event1) in *.
  set (c2 := Event.confidenceScore event2) in *.
  assert (TK : 0 <= total * k) by (apply Qmult_le_0_compat; assumption).
  assert (M : total * k * c1 <= total * k * c2).
  { set (tk := total * k) in *. nra. }
  destruct (Num.gtb (total * k * c1) 0.05) eqn:H1;
    [apply NumFacts.gtb_gt in H1 | apply NumFacts.gtb_le in H1];
  destruct (Num.gtb (total * k * c1) 0.02) eqn:L1;
    [apply NumFacts.gtb_gt in L1 | apply NumFacts.gtb_le in L1
    |apply NumFacts.gtb_gt in L1 | apply NumFacts.gtb_le in L1];
  destruct (Num.gtb (total * k * c2) 0.05) eqn:H2;
    try apply NumFacts.gtb_gt in H2; try apply NumFacts.gtb_le in H2;
  destruct (Num.gtb (total * k * c2) 0.02) eqn:L2;
    try apply NumFacts.gtb_gt in L2; try apply NumFacts.gtb_le in L2;
  cbn [getMagnitudeWeight]; lra.
Qed.

(** X21. [determineImpactDirection] returns NEUTRAL only by falling back to
    a rule whose default is NEUTRAL, when the lower-cased summary carries no
    keyword of either class.  Hence a relevant mapping of a labor-market,
    infrastructure, regulation or geopolitical event is never NEUTRAL. *)
Theorem neutral_only_by_default
    (clk : Clock.readings) (n : nat) (event : Event.t) (businessModel : BusinessModel.t)
    (rule : CausalRule.t) (m : CausalMapping.t) :
  (determineImpactDirection event rule = ImpactDirection.NEUTRAL
   <-> ~ mentions increaseTokens (Str.toLowerCase (Event.summary event))
       /\ ~ mentions decreaseTokens (Str.toLowerCase (Event.summary event))
       /\ CausalRule.defaultDirection rule = ImpactDirection.NEUTRAL)
  /\ (Clock.value (mapEventToBusiness event businessModel) clk n = Some m ->
      CausalMapping.isRelevant m = true ->
      CausalMapping.impactDirection m = ImpactDirection.NEUTRAL ->
      In (Event.eventType event)
        [EventType.ECONOMIC_INDICATOR; EventType.CURRENCY; EventType.MARKET_SHIFT;
         EventType.TECHNOLOGY; EventType.DISASTER]).
Proof.
  assert (D : forall r,
             determineImpactDirection event r = ImpactDirection.NEUTRAL
             <-> ~ mentions increaseTokens (Str.toLowerCase (Event.summary event))
                 /\ ~ mentions decreaseTokens (Str.toLowerCase (Event.summary event))
                 /\ CausalRule.defaultDirection r = ImpactDirection.NEUTRAL).
  { intros r. rewrite determineImpactDirection_existsb. cbv zeta.
    rewrite <- !mentions_existsb.
    destruct (existsb _ increaseTokens); [split; [discriminate | intros [H _]; now elim H]|].
    destruct (existsb _ decreaseTokens);
      [split; [discriminate | intros (_ & H & _); now elim H]|].
    split; [intros H; repeat split; [discriminate | discriminate | exact H]
           | intros (_ & _ & H); exact H]. }
  split; [apply D|].
  intros E R N.
  destruct (mapEventToBusiness_relevant clk n event businessModel m E R)
    as (_ & _ & Dir & _).
  rewrite Dir in N. apply D in N. destruct N as (_ & _ & N).
  destruct (Event.eventType event); cbn in N |- *; try discriminate; tauto.
Qed.

(** ** Economic indicators as events *)

Lemma toLowerCase_app (a b : string) :
  Str.toLowerCase (a ++ b) = Str.toLowerCase a ++ Str.toLowerCase b.
Proof.
  induction a as [|c a IH]; cbn [append Str.toLowerCase]; [reflexivity|].
  now rewrite IH.
Qed.

Lemma length_append (a b : string) :
  String.length (a ++ b) = (String.length a + String.length b)%nat.
Proof.
  induction a as [|c a IH]; cbn [append String.length]; [reflexivity|].
  now rewrite IH.
Qed.

Lemma append_assoc (a b c : string) : (a ++ b) ++ c = a ++ b ++ c.
Proof.
  induction a as [|x a IH]; cbn [append]; [reflexivity|]. now rewrite IH.
Qed.

Lemma Substring_left t a b : Str.Substring t a -> Str.Substring t (a ++ b).
Proof.
  intros (pre & post & ->). exists pre, (post ++ b).
  now rewrite !append_assoc.
Qed.

Lemma Substring_right t a b : Str.Substring t b -> Str.Substring t (a ++ b).
Proof.
  intros (pre & post & ->). exists (a ++ pre), post.
  now rewrite !append_assoc.
Qed.

Lemma direction_of_increase_token event rule :
  mentions increaseTokens (Str.toLowerCase (Event.summary event)) ->
  determineImpactDirection event rule = ImpactDirection.INCREASE.
Proof.
  intros M. rewrite determineImpactDirection_existsb. cbv zeta.
  apply mentions_existsb in M. now rewrite M.
Qed.

(** X22. An event whose summary is the one [economicIndicatorToSummary]
    writes for an indicator that rose above its previous value is always
    classified INCREASE, whatever the rule and however numbers print.  For
    an indicator that fell the direction is INCREASE or DECREASE, never the
    rule's default; it is INCREASE when the lower-cased indicator name
    itself contains an increase keyword, although the value fell. *)
Theorem indicator_direction
    (show : Q -> string) (indicator : EconomicIndicator.t) (previousValue : Q)
    (event : Event.t) (rule : CausalRule.t) :
  EconomicIndicator.previousValue indicator = Some previousValue ->
  Event.summary event = economicIndicatorToSummary show indicator ->
  (previousValue < EconomicIndicator.value indicator ->
   determineImpactDirection event rule = ImpactDirection.INCREASE)
  /\ (EconomicIndicator.value indicator < previousValue ->
      (determineImpactDirection event rule = ImpactDirection.INCREASE
       \/ determineImpactDirection event rule = ImpactDirection.DECREASE)
      /\ (mentions increaseTokens
            (Str.toLowerCase (EconomicIndicator.indicator indicator)) ->
          determineImpactDirection event rule = ImpactDirection.INCREASE)).
Proof.
  intros P S. unfold economicIndicatorToSummary in S. rewrite P in S. cbv zeta in S.
  split.
  - intros H. apply NumFacts.gtb_gt in H. rewrite H in S.
    apply direction_of_increase_token. rewrite S.
    exists "increase". split; [cbn; tauto|].
    rewrite toLowerCase_app. apply Substring_right.
    rewrite toLowerCase_app. apply Substring_right.
    rewrite toLowerCase_app. apply Substring_left.
    exists "", "d". reflexivity.
  - intros H.
    assert (G : Num.gtb (EconomicIndicator.value indicator) previousValue = false)
      by (apply NumFacts.gtb_le; lra).
    apply NumFacts.ltb_lt in H. rewrite G, H in S. split.
    + rewrite determineImpactDirection_existsb. cbv zeta.
      destruct (existsb _ increaseTokens); [now left|]. right.
      assert (M : mentions decreaseTokens (Str.toLowerCase (Event.summary event))).
      { rewrite S. exists "decrease". split; [cbn; tauto|].
        rewrite toLowerCase_app. apply Substring_right.
        rewrite toLowerCase_app. apply Substring_right.
        rewrite toLowerCase_app. apply Substring_left.
        exists "", "d". reflexivity. }
      apply mentions_existsb in M. now rewrite M.
    + intros (t & Hin & Hsub). apply direction_of_increase_token.
      exists t. split; [exact Hin|]. rewrite S, toLowerCase_app.
      now apply Substring_left.
Qed.

Lemma affected_entities_nonempty indicatorName :
  getAffectedEntitiesForIndicator indicatorName <> [].
Proof.
  unfold getAffectedEntitiesForIndicator. cbv zeta.
  destruct (_ || _); [discriminate|].
  destruct (Str.includes _ "interest rate"); [discriminate|].
  destruct (_ || _); discriminate.
Qed.

Lemma indicator_summary_length show indicator :
  (19 <= String.length (economicIndicatorToSummary show indicator))%nat.
Proof.
  unfold economicIndicatorToSummary. cbv zeta.
  rewrite !length_append.
  destruct (EconomicIndicator.previousValue indicator) as [p|].
  - rewrite !length_append.
    destruct (Num.gtb _ p); [|destruct (Num.ltb _ p)]; cbn [String.length]; lia.
  - rewrite !length_append. cbn [String.length]. lia.
Qed.

(** X23. The event [normalizeEconomicIndicator] builds can fail
    [validateNormalizedEvent] only on its region, its timestamp or its
    reliability: it is valid exactly when the region has at least 2
    characters, the timestamp is a valid date and the source reliability
    lies in [0,1].  Its summary has at least 19 characters and it always
    names an affected entity. *)
Theorem normalized_indicator_validity
    (show : Q -> string) (indicator : EconomicIndicator.t) (sourceReliability : Q) :
  let event := normalizeEconomicIndicator show indicator sourceReliability in
  (ValidationResult.valid (validateNormalizedEvent event) = true
   <-> (2 <= String.length (EconomicIndicator.region indicator))%nat
       /\ EconomicIndicator.timestamp indicator <> None
       /\ 0 <= sourceReliability /\ sourceReliability <= 1)
  /\ (19 <= String.length (NormalizedEventInput.summary event))%nat
  /\ NormalizedEventInput.affectedEntities event <> []
  /\ NormalizedEventInput.eventType event = EventType.ECONOMIC_INDICATOR.
Proof.
  intros event. subst event.
  pose proof (indicator_summary_length show indicator) as L.
  pose proof (affected_entities_nonempty (EconomicIndicator.indicator indicator)) as N.
  split; [|repeat split; assumption].
  unfold validateNormalizedEvent, normalizeEconomicIndicator. cbv zeta.
  cbn [NormalizedEventInput.summary NormalizedEventInput.region
       NormalizedEventInput.timestamp NormalizedEventInput.affectedEntities
       NormalizedEventInput.confidenceScore ValidationResult.valid].
  assert (S : Nat.ltb (String.length (economicIndicatorToSummary show indicator)) 10
              = false) by (apply Nat.ltb_ge; lia).
  rewrite S.
  assert (A : Nat.eqb
                (List.length
                   (getAffectedEntitiesForIndicator (EconomicIndicator.indicator indicator)))
                0 = false).
  { apply Nat.eqb_neq. intros H. apply length_zero_iff_nil in H. contradiction. }
  rewrite A.
  destruct (Nat.ltb (String.length (EconomicIndicator.region indicator)) 2) eqn:Rg;
    [apply Nat.ltb_lt in Rg | apply Nat.ltb_ge in Rg];
  destruct (EconomicIndicator.timestamp indicator) as [t|];
  destruct (Num.ltb sourceReliability 0) eqn:C0;
    [apply NumFacts.ltb_lt in C0 | apply NumFacts.ltb_ge in C0
    |apply NumFacts.ltb_lt in C0 | apply NumFacts.ltb_ge in C0
    |apply NumFacts.ltb_lt in C0 | apply NumFacts.ltb_ge in C0
    |apply NumFacts.ltb_lt in C0 | apply NumFacts.ltb_ge in C0];
  destruct (Num.gtb sourceReliability 1) eqn:C1;
    try apply NumFacts.gtb_gt in C1; try apply NumFacts.gtb_le in C1;
  cbn; (split; [intros H; try discriminate; repeat split; try lia; try lra; discriminate
              | intros (H1 & H2 & H3 & H4); try reflexivity; try lia; try lra;
                try (now elim H2)]).
Qed.

(** ** The insight-layer confidence *)

Lemma product_unit (path : list CausalStep.t) :
  Forall unitConfidence path ->
  0 <= product (map CausalStep.confidence path)
  /\ product (map CausalStep.confidence path) <= 1.
Proof.
  induction 1 as [|s l [L U] _ [IL IU]]; unfold product in *; simpl.
  - lra.
  - set (p := fold_right Qmult 1 (map CausalStep.confidence l)) in *.
    set (c := CausalStep.confidence s) in *. nra.
Qed.

Lemma product_weakest (path : list CausalStep.t) (s : CausalStep.t) :
  Forall unitConfidence path -> In s path ->
  product (map CausalStep.confidence path) <= CausalStep.confidence s.
Proof.
  induction 1 as [|x l [L U] F IH]; intros Hin; [contradiction|].
  destruct (product_unit l F) as [PL PU].
  unfold product in *. simpl.
  set (p := fold_right Qmult 1 (map CausalStep.confidence l)) in *.
  set (c := CausalStep.confidence x) in *.
  destruct Hin as [<-|Hin].
  - fold c. nra.
  - specialize (IH Hin). set (d := CausalStep.confidence s) in *. nra.
Qed.

Lemma product_snoc (path : list CausalStep.t) (s : CausalStep.t) :
  product (map CausalStep.confidence (path ++ [s]))
  == product (map CausalStep.confidence path) * CausalStep.confidence s.
Proof.
  induction path as [|x l IH]; unfold product in *; simpl.
  - ring.
  - rewrite IH. ring.
Qed.

Lemma overall_product eventConfidence (path : list CausalStep.t) :
  path <> [] ->
  Insight.calculateOverallConfidence eventConfidence path
  == eventConfidence * product (map CausalStep.confidence path).
Proof.
  destruct path as [|s l]; [congruence|]. intros _.
  apply calculateOverallConfidence_steps.
Qed.

(** X24. For a non-negative event confidence and a non-empty path whose step
    confidences lie in [0,1], [Insight.calculateOverallConfidence] is
    bounded by the weakest link: it does not exceed the event confidence
    times the confidence of any single step, and appending a further step
    multiplies it by that step's confidence, so never raises it.  The empty
    path is the exception: it scores half the event confidence, so a first
    step of confidence above 0.5 raises the score. *)
Theorem overall_confidence_weakest_link
    (eventConfidence : Q) (path : list CausalStep.t) (s : CausalStep.t) :
  0 <= eventConfidence ->
  Forall unitConfidence path ->
  unitConfidence s ->
  (In s path ->
   Insight.calculateOverallConfidence eventConfidence path
   <= eventConfidence * CausalStep.confidence s)
  /\ (path <> [] ->
      Insight.calculateOverallConfidence eventConfidence (path ++ [s])
      == Insight.calculateOverallConfidence eventConfidence path
         * CausalStep.confidence s
      /\ Insight.calculateOverallConfidence eventConfidence (path ++ [s])
         <= Insight.calculateOverallConfidence eventConfidence path)
  /\ (0 < eventConfidence -> 0.5 < CausalStep.confidence s ->
      Insight.calculateOverallConfidence eventConfidence []
      < Insight.calculateOverallConfidence eventConfidence [s]).
Proof.
  intros C F [L U]. split; [|split].
  - intros Hin.
    assert (N : path <> []) by (intros ->; contradiction).
    rewrite (overall_product _ _ N).
    pose proof (product_weakest path s F Hin) as W.
    set (p := product _) in *. set (c := CausalStep.confidence s) in *. nra.
  - intros N.
    assert (N' : (path ++ [s])%list <> []) by (destruct path; discriminate).
    rewrite (overall_product _ _ N'), (overall_product _ _ N), product_snoc.
    destruct (product_unit path F) as [PL PU].
    set (p := product _) in *. set (c := CausalStep.confidence s) in *.
    assert (EP : 0 <= eventConfidence * p) by (apply Qmult_le_0_compat; assumption).
    split; [ring|]. set (ep := eventConfidence * p) in *.
    setoid_replace (eventConfidence * (p * c)) with (ep * c) by (subst ep; ring).
    nra.
  - intros P H.
    rewrite calculateOverallConfidence_empty, calculateOverallConfidence_steps.
    unfold product. simpl. set (c := CausalStep.confidence s) in *. nra.
Qed.

Lemma calculateConfidence_from_overall event path businessModel sensitivityFactor count :
  path <> [] ->
  calculateConfidence event path businessModel sensitivityFactor count
  == clamp01
       (Insight.calculateOverallConfidence (Event.confidenceScore event) path
        * ruleQualityFactor (Event.eventType event)
        * assumptionPenalty count
        * sensitivityBonus (BusinessModel.getSensitivity businessModel sensitivityFactor)).
Proof.
  intros N. rewrite calculateConfidence_formula. apply clamp01_compat.
  rewrite (overall_product _ _ N). reflexivity.
Qed.

(** X25. The two confidence layers agree on every relevant mapping: its
    path is never empty, so the insight-layer penalty for an empty path
    does not apply, and the score of the mapping is the insight-layer
    confidence of its own path times rule quality, assumption penalty and
    sensitivity bonus, clamped into [0,1]. *)
Theorem layers_agree_on_mappings
    (clk : Clock.readings) (n : nat) (event : Event.t) (businessModel : BusinessModel.t)
    (m : CausalMapping.t) :
  Clock.value (mapEventToBusiness event businessModel) clk n = Some m ->
  CausalMapping.isRelevant m = true ->
  CausalMapping.causalPath m <> []
  /\ Insight.calculateOverallConfidence (Event.confidenceScore event)
       (CausalMapping.causalPath m)
     == Event.confidenceScore event
        * product (map CausalStep.confidence (CausalMapping.causalPath m))
  /\ CausalMapping.confidenceScore m
     == clamp01
          (Insight.calculateOverallConfidence (Event.confidenceScore event)
             (CausalMapping.causalPath m)
           * ruleQualityFactor (Event.eventType event)
           * assumptionPenalty (List.length (CausalMapping.assumptions m))
           * sensitivityBonus
               (BusinessModel.getSensitivity businessModel
                  (CausalRule.sensitivityFactor
                     (getCausalRule (Event.eventType event))))).
Proof.
  intros E R.
  destruct (mapEventToBusiness_relevant clk n event businessModel m E R)
    as (_ & _ & _ & _ & _ & P & A & C).
  assert (N : CausalMapping.causalPath m <> []).
  { rewrite P. destruct (Event.eventType event); discriminate. }
  split; [exact N|]. split; [now apply overall_product|].
  rewrite C, A. rewrite <- P. now apply calculateConfidence_from_overall.
Qed.

(** ** The SaaS template under the mapper *)

Lemma saas_raw_magnitude template_user template_name operatingRegions customerRegions
    id createdAt updatedAt (event : Event.t) :
  let businessModel :=
    SaaS.toBusinessModel id createdAt updatedAt
      (SaaS.createSaaSTemplate template_user template_name operatingRegions
         customerRegions) in
  let rule := getCausalRule (Event.eventType event) in
  exists k,
    rawMagnitude event businessModel rule == k * Event.confidenceScore event
    /\ 0.105 <= k
    /\ (Event.eventType event <> EventType.INFRASTRUCTURE -> 0.175 <= k)
    /\ BusinessModel.getSensitivity businessModel (CausalRule.sensitivityFactor rule)
       = match Event.eventType event with
         | EventType.LABOR_MARKET => 0.8
         | EventType.REGULATION_CHANGE => 0.6
         | EventType.CURRENCY => 0.4
         | _ => 0.7
         end.
Proof.
  intros businessModel rule. subst businessModel rule. unfold rawMagnitude.
  destruct (Event.eventType event);
    match goal with
    | |- exists k, ?s * ?g * ?c == _ /\ _ =>
        exists (Qred (s * g)); split;
          [rewrite Qred_correct; reflexivity
          |split; [vm_compute; discriminate
                  |split; [intros H; try congruence; vm_compute; discriminate
                          |reflexivity]]]
    end.
Qed.

(** X26. For a business model created from [createSaaSTemplate], whatever
    its regions, a relevant mapping is never of LOW magnitude, and it is of
    HIGH magnitude for every event type but infrastructure.  The
    sensitivity bonus of 1.1 is earned by labor-market events only: the
    template's sensitivities of 0.7 do not exceed the strict threshold. *)
Theorem saas_template_mappings
    (clk : Clock.readings) (n : nat) (event : Event.t) (m : CausalMapping.t)
    (userId : string) (name : option string)
    (operatingRegions customerRegions : option (list string))
    (id : string) (createdAt updatedAt : Z) :
  let businessModel :=
    SaaS.toBusinessModel id createdAt updatedAt
      (SaaS.createSaaSTemplate userId name operatingRegions customerRegions) in
  Clock.value (mapEventToBusiness event businessModel) clk n = Some m ->
  CausalMapping.isRelevant m = true ->
  CausalMapping.impactMagnitude m <> ImpactMagnitude.LOW
  /\ (Event.eventType event <> EventType.INFRASTRUCTURE ->
      CausalMapping.impactMagnitude m = ImpactMagnitude.HIGH)
  /\ CausalMapping.confidenceScore m
     == clamp01
          (Event.confidenceScore event
           * chainFactor (Event.eventType event)
           * (if EventType.t_beq (Event.eventType event) EventType.LABOR_MARKET
              then 1.1 else 1)).
Proof.
  intros businessModel E R.
  destruct (relevant_score clk n event businessModel m E R) as [F S].
  destruct (mapEventToBusiness_relevant clk n event businessModel m E R)
    as (_ & _ & _ & Mag & _).
  destruct (saas_raw_magnitude userId name operatingRegions customerRegions
              id createdAt updatedAt event) as (k & Raw & K1 & K2 & Sens).
  fold businessModel in Raw, Sens.
  rewrite Mag, calculateImpactMagnitude_raw. cbv zeta.
  set (raw := rawMagnitude _ _ _) in *.
  set (c := Event.confidenceScore event) in *.
  split; [|split].
  - destruct (Num.gtb raw 0.05); [discriminate|].
    destruct (Num.gtb raw 0.02) eqn:G; [discriminate|].
    apply NumFacts.gtb_le in G. rewrite Raw in G. exfalso. nra.
  - intros NI. specialize (K2 NI).
    destruct (Num.gtb raw 0.05) eqn:G; [reflexivity|].
    apply NumFacts.gtb_le in G. rewrite Raw in G. exfalso. nra.
  - rewrite S. apply clamp01_compat. rewrite Sens. unfold sensitivityBonus.
    destruct (Event.eventType event); cbn [EventType.t_beq];
      match goal with
      | |- context [Qlt_le_dec ?a ?b] =>
          destruct (Qlt_le_dec a b) as [L|L]; try reflexivity;
            exfalso; revert L; vm_compute; intros L;
            first [discriminate L | now apply L]
      end.
Qed.

(** ** The further properties at concrete inputs *)

Lemma event_confidence_penalties_witness :
  0 <= 0.7 /\ 0.7 <= 1
  /\ EventScoring.calculateConfidence 0.7 false true 20 <= 0.7
  /\ 0.5 * 0.7 <= EventScoring.calculateConfidence 0.7 false true 20.
Proof.
  assert (L : 0 <= 0.7) by (vm_compute; discriminate).
  assert (U : 0.7 <= 1) by (vm_compute; discriminate).
  split; [exact L|]. split; [exact U|].
  apply (event_confidence_penalties 0.7 false true 20); assumption.
Defined.

Lemma reliable_source_clears_floor_witness :
  0.6 <= 0.7 /\ 0.7 <= 1
  /\ Event.confidenceScore syndicatedItem
     == EventScoring.calculateConfidence 0.7 false true 25
  /\ geographicallyRelevant syndicatedItem domesticBusiness
  /\ Event.ageInDays (wallClock 0 0) syndicatedItem <= 90
  /\ Relevance.isRelevant
       (Clock.value (checkRelevance syndicatedItem domesticBusiness) (wallClock 0) 0)
     = true.
Proof.
  assert (L : 0.6 <= 0.7) by (vm_compute; discriminate).
  assert (U : 0.7 <= 1) by (vm_compute; discriminate).
  assert (E : Event.confidenceScore syndicatedItem
              == EventScoring.calculateConfidence 0.7 false true 25)
    by (vm_compute; reflexivity).
  assert (G : geographicallyRelevant syndicatedItem domesticBusiness)
    by (left; reflexivity).
  assert (A : Event.ageInDays (wallClock 0 0) syndicatedItem <= 90)
    by (vm_compute; discriminate).
  split; [exact L|]. split; [exact U|]. split; [exact E|].
  split; [exact G|]. split; [exact A|].
  apply (reliable_source_clears_floor (wallClock 0) 0 syndicatedItem domesticBusiness
           0.7 false true 25); assumption.
Defined.

Lemma relevant_regions_distinct_witness :
  In "JP" (BusinessModel.customerRegions globalBusiness)
  /\ In "JP" (BusinessModel.getAllRelevantRegions globalBusiness).
Proof.
  assert (C : In "JP" (BusinessModel.customerRegions globalBusiness))
    by (simpl; tauto).
  split; [exact C|].
  apply (relevant_regions_distinct globalBusiness). right. exact C.
Defined.

Lemma regional_exposure_agrees_witness :
  Event.region currencyReport = "GLOBAL"
  /\ BusinessModel.hasRegionalExposure domesticBusiness (Event.region currencyReport)
     = true.
Proof.
  split; [reflexivity|].
  apply (regional_exposure_agrees currencyReport domesticBusiness). reflexivity.
Defined.

Lemma sensitivity_never_zero_witness :
  Forall (fun s => 0 <= SensitivityConfig.sensitivity s
                   /\ SensitivityConfig.sensitivity s <= 1)
    (BusinessModel.sensitivities laborInsensitive)
  /\ 0 < BusinessModel.getSensitivity laborInsensitive SensitivityFactor.LABOR
  /\ BusinessModel.getSensitivity laborInsensitive SensitivityFactor.LABOR <= 1.
Proof.
  assert (F : Forall (fun s => 0 <= SensitivityConfig.sensitivity s
                               /\ SensitivityConfig.sensitivity s <= 1)
                (BusinessModel.sensitivities laborInsensitive)).
  { repeat constructor; vm_compute; discriminate. }
  split; [exact F|].
  apply (sensitivity_never_zero laborInsensitive SensitivityFactor.LABOR). exact F.
Defined.

Lemma unconfigured_drivers_low_witness :
  Forall (unconfigured laborInsensitive)
    (CausalRule.affectedDrivers LABOR_MARKET_RULE)
  /\ calculateImpactMagnitude verifiedWageReport laborInsensitive
       (CausalRule.affectedDrivers LABOR_MARKET_RULE)
       (CausalRule.sensitivityFactor LABOR_MARKET_RULE)
     = ImpactMagnitude.LOW
  /\ buildBusinessContext laborInsensitive
       (CausalRule.affectedDrivers LABOR_MARKET_RULE) = "".
Proof.
  assert (U : Forall (unconfigured laborInsensitive)
                (CausalRule.affectedDrivers LABOR_MARKET_RULE)).
  { repeat constructor; intros w [<-|[<-|[]]]; discriminate. }
  split; [exact U|].
  apply (unconfigured_drivers_low verifiedWageReport laborInsensitive
           (CausalRule.affectedDrivers LABOR_MARKET_RULE)
           (CausalRule.sensitivityFactor LABOR_MARKET_RULE)).
  exact U.
Defined.

Lemma business_model_validation_witness :
  Forall (fun d => 0 <= WeightedDriver.weight d)
    (BusinessModel.revenueDrivers globalBusiness
     ++ BusinessModel.costDrivers globalBusiness)%list
  /\ Forall (fun r => asciiOnly r = true)
       (BusinessModel.operatingRegions globalBusiness
        ++ BusinessModel.customerRegions globalBusiness)%list
  /\ Qabs (sum (map WeightedDriver.weight (BusinessModel.revenueDrivers globalBusiness))
           - 1) <= 0.0099
  /\ Qabs (sum (map WeightedDriver.weight (BusinessModel.costDrivers globalBusiness))
           - 1) <= 0.0099
  /\ ValidationResult.valid (BusinessModelValidation.validate globalBusiness) = true
  /\ ValidationResult.errors (BusinessModelValidation.validate globalBusiness) = [].
Proof.
  assert (W : Forall (fun d => 0 <= WeightedDriver.weight d)
                (BusinessModel.revenueDrivers globalBusiness
                 ++ BusinessModel.costDrivers globalBusiness)%list)
    by (repeat constructor; vm_compute; discriminate).
  assert (A : Forall (fun r => asciiOnly r = true)
                (BusinessModel.operatingRegions globalBusiness
                 ++ BusinessModel.customerRegions globalBusiness)%list)
    by (repeat constructor).
  assert (R : Qabs (sum (map WeightedDriver.weight
                           (BusinessModel.revenueDrivers globalBusiness)) - 1)
              <= 0.0099)
    by (vm_compute; discriminate).
  assert (C : Qabs (sum (map WeightedDriver.weight
                           (BusinessModel.costDrivers globalBusiness)) - 1)
              <= 0.0099)
    by (vm_compute; discriminate).
  split; [exact W|]. split; [exact A|]. split; [exact R|]. split; [exact C|].
  apply (proj1 (proj2 (business_model_validation globalBusiness W A)));
    [exact R | exact C | |].
  - repeat constructor; vm_compute; discriminate.
  - repeat constructor; simpl; lia.
Defined.

Lemma saas_template_validates_witness :
  BusinessModelValidation.validate
    (SaaS.toBusinessModel "bm-9" 0 0 (SaaS.createSaaSTemplate "user-1" None None None))
  = {| ValidationResult.valid := true; ValidationResult.errors := [] |}.
Proof.
  apply (saas_template_validates "user-1" None None None "bm-9" 0 0); reflexivity.
Defined.

Lemma assumption_catalog_consistent_witness :
  In ("FX_AFFECTS_INTERNATIONAL",
      {| Assumption.id := "FX_AFFECTS_INTERNATIONAL";
         Assumption.description :=
           "Currency changes only affect businesses with international operations or customers.";
         Assumption.impact := AssumptionImpact.HIGH;
         Assumption.source :=
           Some "Basic FX exposure: requires cross-border transactions" |})
    CORE_ASSUMPTIONS
  /\ option_map Assumption.id (coreAssumption "FX_AFFECTS_INTERNATIONAL")
     = Some "FX_AFFECTS_INTERNATIONAL".
Proof.
  assert (H : In ("FX_AFFECTS_INTERNATIONAL",
                  {| Assumption.id := "FX_AFFECTS_INTERNATIONAL";
                     Assumption.description :=
                       "Currency changes only affect businesses with international operations or customers.";
                     Assumption.impact := AssumptionImpact.HIGH;
                     Assumption.source :=
                       Some "Basic FX exposure: requires cross-border transactions" |})
                CORE_ASSUMPTIONS).
  { unfold CORE_ASSUMPTIONS. do 10 right. left. reflexivity. }
  split; [exact H|].
  destruct (assumption_catalog_consistent EventType.CURRENCY) as (_ & K & _).
  destruct (K _ _ H) as [_ ->]. reflexivity.
Defined.

Lemma mapping_caveats_witness :
  exists m,
    Clock.value (mapEventToBusiness currencyReport domesticBusiness) (wallClock 0) 0
    = Some m
    /\ CausalMapping.isRelevant m = true
    /\ CausalMapping.confidenceRationale m
       = generateConfidenceRationale currencyReport (CausalMapping.causalPath m)
           (CausalMapping.assumptions m) [fxWarning].
Proof.
  eexists. split; [vm_compute; reflexivity|]. split; [reflexivity|].
  apply (mapping_caveats (wallClock 0) 0 currencyReport domesticBusiness);
    vm_compute; reflexivity.
Defined.

Lemma mapping_invariants_witness :
  exists m,
    Clock.value (mapEventToBusiness currencyReport globalBusiness) (wallClock 0) 0
    = Some m
    /\ CausalMapping.isRelevant m = true
    /\ 0 < CausalMapping.confidenceScore m.
Proof.
  eexists. split; [vm_compute; reflexivity|]. split; [reflexivity|].
  apply (mapping_invariants (wallClock 0) 0 currencyReport globalBusiness);
    vm_compute; reflexivity.
Defined.

Lemma confidence_ceiling_witness :
  exists m,
    Clock.value (mapEventToBusiness currencyReport globalBusiness) (wallClock 0) 0
    = Some m
    /\ CausalMapping.isRelevant m = true
    /\ Event.confidenceScore currencyReport <= 1
    /\ CausalMapping.confidenceScore m
       <= 0.7215 * Event.confidenceScore currencyReport.
Proof.
  eexists. split; [vm_compute; reflexivity|]. split; [reflexivity|].
  split; [vm_compute; discriminate|].
  apply (confidence_ceiling (wallClock 0) 0 currencyReport globalBusiness);
    [vm_compute; reflexivity | reflexivity | vm_compute; discriminate].
Defined.

Lemma indicator_never_high_witness :
  exists m,
    Clock.value (mapEventToBusiness currencyReport globalBusiness) (wallClock 0) 0
    = Some m
    /\ CausalMapping.isRelevant m = true
    /\ Event.confidenceScore currencyReport <= 1
    /\ ConfidenceIndicator.getLabel (CausalMapping.confidenceScore m)
       <> "High confidence".
Proof.
  eexists. split; [vm_compute; reflexivity|]. split; [reflexivity|].
  split; [vm_compute; discriminate|].
  apply (indicator_never_high (wallClock 0) 0 currencyReport globalBusiness);
    [vm_compute; reflexivity | reflexivity | vm_compute; discriminate].
Defined.

Lemma actionable_only_for_strong_rules_witness :
  exists m,
    Clock.value (mapEventToBusiness currencyReport globalBusiness) (wallClock 0) 0
    = Some m
    /\ CausalMapping.isRelevant m = true
    /\ Event.confidenceScore currencyReport <= 1
    /\ InsightRecord.confidenceScore currencyInsight == CausalMapping.confidenceScore m
    /\ InsightRecord.isActionable currencyInsight 0.6 ImpactMagnitude.MEDIUM = true
    /\ (Event.eventType currencyReport = EventType.INFRASTRUCTURE
        \/ Event.eventType currencyReport = EventType.CURRENCY).
Proof.
  eexists. split; [vm_compute; reflexivity|]. split; [reflexivity|].
  split; [vm_compute; discriminate|].
  split; [vm_compute; reflexivity|]. split; [reflexivity|].
  eapply (actionable_only_for_strong_rules (wallClock 0) 0 currencyReport globalBusiness
            _ currencyInsight);
    [vm_compute; reflexivity | reflexivity | vm_compute; discriminate
    | vm_compute; reflexivity | reflexivity].
Defined.

Lemma insight_stale_after_full_day_witness :
  ((30 + 1) * 86400000 <= wallClock (31 * 86400000) 0
                          - InsightRecord.generatedAt currencyInsight)%Z
  /\ Clock.value (InsightRecord.isStale currencyInsight (inject_Z 30))
       (wallClock (31 * 86400000)) 0 = true.
Proof.
  assert (H : ((30 + 1) * 86400000 <= wallClock (31 * 86400000) 0
                                      - InsightRecord.generatedAt currencyInsight)%Z)
    by (vm_compute; discriminate).
  split; [exact H|].
  apply (insight_stale_after_full_day (wallClock (31 * 86400000)) 0 currencyInsight 30).
  exact H.
Defined.

Lemma stale_reason_quotes_age_witness :
  geographicallyRelevant wageReport domesticBusiness
  /\ 90 < Event.ageInDays (tickingClock 1%nat) wageReport
  /\ (tickingClock 1%nat <= tickingClock 2%nat)%Z
  /\ Clock.value (checkRelevance wageReport domesticBusiness) tickingClock 1
     = {| Relevance.isRelevant := false; Relevance.reason := ageReason 90 |}.
Proof.
  assert (G : geographicallyRelevant wageReport domesticBusiness)
    by (right; simpl; tauto).
  assert (A : 90 < Event.ageInDays (tickingClock 1%nat) wageReport)
    by (vm_compute; reflexivity).
  assert (M : (tickingClock 1%nat <= tickingClock 2%nat)%Z) by (vm_compute; discriminate).
  split; [exact G|]. split; [exact A|]. split; [exact M|].
  apply (stale_reason_quotes_age tickingClock 1 wageReport domesticBusiness);
    assumption.
Defined.

Lemma relevance_only_expires_witness :
  exists m,
    (wallClock 0 3 <= tickingClock 0%nat)%Z
    /\ Clock.value (mapEventToBusiness wageReport domesticBusiness) tickingClock 0
       = Some m
    /\ CausalMapping.isRelevant m = true
    /\ Clock.value (mapEventToBusiness wageReport domesticBusiness) (wallClock 0) 3
       = Some m.
Proof.
  eexists. split; [vm_compute; discriminate|].
  split; [vm_compute; reflexivity|]. split; [reflexivity|].
  apply (relevance_only_expires (wallClock 0) tickingClock 3 0 wageReport domesticBusiness);
    [vm_compute; discriminate | vm_compute; reflexivity | reflexivity].
Defined.

Lemma batch_results_trace_to_events_witness :
  exists m,
    In m (Clock.value
            (batchMapEventsToBusiness [wageReport; currencyReport] domesticBusiness)
            (wallClock 0) 0)
    /\ CausalMapping.isRelevant m = true
    /\ In (CausalMapping.event m) [wageReport; currencyReport].
Proof.
  pose proof (proj1 (batch_results_trace_to_events (wallClock 0) 0
                       [wageReport; currencyReport] domesticBusiness)) as H.
  cbv zeta in H.
  eexists. split; [vm_compute; left; reflexivity|].
  match goal with
  | |- CausalMapping.isRelevant ?m = true /\ _ => destruct (H m) as (R & I & _)
  end.
  - vm_compute. left. reflexivity.
  - split; assumption.
Defined.

Lemma magnitude_monotone_in_confidence_witness :
  Forall (fun w => 0 <= WeightedDriver.weight w)
    (BusinessModel.revenueDrivers domesticBusiness
     ++ BusinessModel.costDrivers domesticBusiness)%list
  /\ Forall (fun s => 0 <= SensitivityConfig.sensitivity s)
       (BusinessModel.sensitivities domesticBusiness)
  /\ Event.confidenceScore wageReport <= Event.confidenceScore verifiedWageReport
  /\ getMagnitudeWeight
       (calculateImpactMagnitude wageReport domesticBusiness
          (CausalRule.affectedDrivers LABOR_MARKET_RULE)
          (CausalRule.sensitivityFactor LABOR_MARKET_RULE))
     <= getMagnitudeWeight
          (calculateImpactMagnitude verifiedWageReport domesticBusiness
             (CausalRule.affectedDrivers LABOR_MARKET_RULE)
             (CausalRule.sensitivityFactor LABOR_MARKET_RULE)).
Proof.
  assert (W : Forall (fun w => 0 <= WeightedDriver.weight w)
                (BusinessModel.revenueDrivers domesticBusiness
                 ++ BusinessModel.costDrivers domesticBusiness)%list)
    by (repeat constructor; vm_compute; discriminate).
  assert (S : Forall (fun s => 0 <= SensitivityConfig.sensitivity s)
                (BusinessModel.sensitivities domesticBusiness))
    by constructor.
  assert (C : Event.confidenceScore wageReport
              <= Event.confidenceScore verifiedWageReport)
    by (vm_compute; discriminate).
  split; [exact W|]. split; [exact S|]. split; [exact C|].
  apply (magnitude_monotone_in_confidence wageReport verifiedWageReport
           domesticBusiness LABOR_MARKET_RULE); assumption.
Defined.

Lemma neutral_only_by_default_witness :
  exists m,
    Clock.value (mapEventToBusiness currencyReport globalBusiness) (wallClock 0) 0
    = Some m
    /\ CausalMapping.isRelevant m = true
    /\ CausalMapping.impactDirection m = ImpactDirection.NEUTRAL
    /\ In (Event.eventType currencyReport)
         [EventType.ECONOMIC_INDICATOR; EventType.CURRENCY; EventType.MARKET_SHIFT;
          EventType.TECHNOLOGY; EventType.DISASTER].
Proof.
  eexists. split; [vm_compute; reflexivity|]. split; [reflexivity|].
  split; [reflexivity|].
  eapply (proj2 (neutral_only_by_default (wallClock 0) 0 currencyReport globalBusiness
                   CURRENCY_RULE _));
    [vm_compute; reflexivity | reflexivity | reflexivity].
Defined.

Lemma indicator_direction_witness :
  EconomicIndicator.previousValue growthFigure = Some 2.4
  /\ Event.summary growthEvent = economicIndicatorToSummary showOneDecimal growthFigure
  /\ EconomicIndicator.value growthFigure < 2.4
  /\ mentions increaseTokens (Str.toLowerCase (EconomicIndicator.indicator growthFigure))
  /\ determineImpactDirection growthEvent ECONOMIC_INDICATOR_RULE
     = ImpactDirection.INCREASE.
Proof.
  assert (M : mentions increaseTokens
                (Str.toLowerCase (EconomicIndicator.indicator growthFigure))).
  { exists "growth". split; [simpl; tauto|]. exists "gdp ", " rate". reflexivity. }
  assert (L : EconomicIndicator.value growthFigure < 2.4) by (vm_compute; reflexivity).
  split; [reflexivity|]. split; [reflexivity|]. split; [exact L|]. split; [exact M|].
  apply (indicator_direction showOneDecimal growthFigure 2.4 growthEvent
           ECONOMIC_INDICATOR_RULE); [reflexivity | reflexivity | exact L | exact M].
Defined.

Lemma normalized_indicator_validity_witness :
  (2 <= String.length (EconomicIndicator.region growthFigure))%nat
  /\ EconomicIndicator.timestamp growthFigure <> None
  /\ 0 <= 0.9 /\ 0.9 <= 1
  /\ ValidationResult.valid
       (validateNormalizedEvent
          (normalizeEconomicIndicator showOneDecimal growthFigure 0.9))
     = true.
Proof.
  assert (R : (2 <= String.length (EconomicIndicator.region growthFigure))%nat)
    by (simpl; lia).
  assert (T : EconomicIndicator.timestamp growthFigure <> None) by discriminate.
  assert (L : 0 <= 0.9) by (vm_compute; discriminate).
  assert (U : 0.9 <= 1) by (vm_compute; discriminate).
  split; [exact R|]. split; [exact T|]. split; [exact L|]. split; [exact U|].
  apply (proj1 (normalized_indicator_validity showOneDecimal growthFigure 0.9)).
  split; [exact R|]. split; [exact T|]. split; [exact L | exact U].
Defined.

Lemma overall_confidence_weakest_link_witness :
  0 <= 0.9
  /\ Forall unitConfidence [firmStep; shakyStep]
  /\ unitConfidence shakyStep
  /\ In shakyStep [firmStep; shakyStep]
  /\ Insight.calculateOverallConfidence 0.9 [firmStep; shakyStep]
     <= 0.9 * CausalStep.confidence shakyStep.
Proof.
  assert (C : 0 <= 0.9) by (vm_compute; discriminate).
  assert (S : unitConfidence shakyStep) by (split; vm_compute; discriminate).
  assert (F : Forall unitConfidence [firmStep; shakyStep]).
  { repeat constructor; vm_compute; discriminate. }
  assert (I : In shakyStep [firmStep; shakyStep]) by (simpl; tauto).
  split; [exact C|]. split; [exact F|]. split; [exact S|]. split; [exact I|].
  apply (proj1 (overall_confidence_weakest_link 0.9 [firmStep; shakyStep] shakyStep
                  C F S)).
  exact I.
Defined.

Lemma layers_agree_on_mappings_witness :
  exists m,
    Clock.value (mapEventToBusiness wageReport domesticBusiness) (wallClock 0) 0
    = Some m
    /\ CausalMapping.isRelevant m = true
    /\ CausalMapping.causalPath m <> [].
Proof.
  eexists. split; [vm_compute; reflexivity|]. split; [reflexivity|].
  apply (layers_agree_on_mappings (wallClock 0) 0 wageReport domesticBusiness);
    vm_compute; reflexivity.
Defined.

Lemma saas_template_mappings_witness :
  exists m,
    Clock.value
      (mapEventToBusiness wageReport
         (SaaS.toBusinessModel "bm-9" 0 0
            (SaaS.createSaaSTemplate "user-1" None None None)))
      (wallClock 0) 0
    = Some m
    /\ CausalMapping.isRelevant m = true
    /\ CausalMapping.impactMagnitude m <> ImpactMagnitude.LOW.
Proof.
  eexists. split; [vm_compute; reflexivity|]. split; [reflexivity|].
  apply (saas_template_mappings (wallClock 0) 0 wageReport _
           "user-1" None None None "bm-9" 0 0);
    vm_compute; reflexivity.
Defined.
